(** * ovpn-dco: AEAD transform, key-slot lifecycle and peer binding

    A shallow embedding of [drivers/net/ovpn-dco/aead.c] and
    [drivers/net/ovpn-dco/bind.c].  Socket buffers are byte arrays with a
    data pointer, kernel calls that may fail take their outcome from an
    explicit environment, and every call into the crypto layer or the
    packet-id guard is recorded in a trace. *)

From Stdlib Require Import ZArith List Lia Bool String.
From stdpp Require Import base gmap sets list strings.
Import ListNotations.

Local Open Scope Z_scope.

#[local] Set Warnings "-clear-no-such-hyp".

(** ** Machine integers and byte order *)

Definition u32 (x : Z) : Z := x mod 2 ^ 32.

(** Conversion of an [unsigned int] to [int] on a two's complement machine. *)
Definition s32 (x : Z) : Z :=
  let y := u32 x in if y <? 2 ^ 31 then y else y - 2 ^ 32.

(** [htonl]: the four bytes of a 32-bit word, most significant first. *)
Definition htonl (x : Z) : list Z :=
  [ Z.land (Z.shiftr x 24) 255; Z.land (Z.shiftr x 16) 255;
    Z.land (Z.shiftr x 8) 255; Z.land x 255 ].

(** [ntohl] of the four bytes stored at a pointer. *)
Definition ntohl (b : list Z) : Z :=
  Z.lor (Z.shiftl (nth 0 b 0) 24)
    (Z.lor (Z.shiftl (nth 1 b 0) 16)
       (Z.lor (Z.shiftl (nth 2 b 0) 8) (nth 3 b 0))).

(** ** Errno values (include/uapi/asm-generic/errno*.h) *)

Definition ENOENT : Z := 2.
Definition ENOMEM : Z := 12.
Definition EINVAL : Z := 22.
Definition ENOSPC : Z := 28.
Definition EBADMSG : Z := 74.
Definition EOPNOTSUPP : Z := 95.
Definition EAFNOSUPPORT : Z := 97.
Definition ENOBUFS : Z := 105.

(** ** Buffers *)

(** [memcpy(buf + off, src, |src|)] on a byte array. *)
Definition memcpy_at (buf : list Z) (off : nat) (src : list Z) : list Z :=
  take off buf ++ src ++ drop (off + length src) buf.

(** The bytes [buf[off .. off+len)]. *)
Definition slice (buf : list Z) (off len : nat) : list Z :=
  take len (drop off buf).

(** A linear [sk_buff]: the whole buffer from [head] to [tail], and the
    offset of [data] inside it.  Pointers into the buffer are offsets from
    [head]. *)
Record sk_buff := { skb_head : list Z; skb_data : nat }.

Definition skb_len (skb : sk_buff) : nat :=
  (length (skb_head skb) - skb_data skb)%nat.

(** The packet as seen from [skb->data]. *)
Definition skb_bytes (skb : sk_buff) : list Z :=
  drop (skb_data skb) (skb_head skb).

Definition __skb_push (skb : sk_buff) (n : nat) : sk_buff :=
  {| skb_head := skb_head skb; skb_data := (skb_data skb - n)%nat |}.

Definition __skb_pull (skb : sk_buff) (n : nat) : sk_buff :=
  {| skb_head := skb_head skb; skb_data := (skb_data skb + n)%nat |}.

Definition skb_store (skb : sk_buff) (off : nat) (src : list Z) : sk_buff :=
  {| skb_head := memcpy_at (skb_head skb) off src; skb_data := skb_data skb |}.

(** Outcomes of the kernel services one transform call relies on. *)
Record callenv := {
  env_header_cloned : bool;   (* skb_header_cloned *)
  env_expand_head_ok : bool;  (* pskb_expand_head inside skb_cow_head succeeds *)
  env_junk : Z;               (* content of freshly allocated headroom *)
  env_cow_data : Z;           (* skb_cow_data: fragment count or -errno *)
  env_sgvec : Z;              (* skb_to_sgvec_nomark: entries or -errno *)
  env_may_pull_ok : bool;     (* pskb_may_pull can linearise the header *)
  env_req_alloc_ok : bool;    (* aead_request_alloc *)
  env_random : list Z;        (* bytes produced by get_random_bytes *)
  env_stack_iv : list Z;      (* uninitialised content of iv[] *)
  env_stack_pktid : Z         (* uninitialised content of pktid *)
}.

(** [skb_cow_head(skb, n)]: when [n] bytes of headroom are missing or the
    header is shared, the head is reallocated with the missing bytes in
    front. *)
Definition skb_cow_head (env : callenv) (skb : sk_buff) (n : nat)
  : option sk_buff :=
  let delta := (n - skb_data skb)%nat in
  if (0 <? delta)%nat || env_header_cloned env then
    if env_expand_head_ok env then
      Some {| skb_head := repeat (env_junk env) delta ++ skb_head skb;
              skb_data := (skb_data skb + delta)%nat |}
    else None
  else Some skb.

Definition pskb_may_pull (env : callenv) (skb : sk_buff) (n : Z) : bool :=
  (n <=? Z.of_nat (skb_len skb)) && env_may_pull_ok env.

(** CONFIG_MAX_SKB_FRAGS default. *)
Definition MAX_SKB_FRAGS : Z := 17.

(** ** Protocol constants *)

(** proto.h and pktid.h are not among the sources.  Their constants follow
    the wire layout of section 6 of the specification and the sample head
    [48000001 00000005] quoted in [ovpn_aead_encrypt]. *)

(** Modelled from the spec: opcode of the legacy data packet without peer
    id. *)
Definition OVPN_DATA_V1 : Z := 6.

(** Modelled from the spec: opcode of the data packet with peer id; [0x48]
    in the sample head is this opcode above a 3-bit key id. *)
Definition OVPN_DATA_V2 : Z := 9.

(** Modelled from the spec: "V1: [1 byte opcode|version]". *)
Definition OVPN_OP_SIZE_V1 : nat := 1.

(** Modelled from the spec: "V2: [1 byte opcode|version][3 bytes peer-id]". *)
Definition OVPN_OP_SIZE_V2 : nat := 4.

(** Modelled from the spec: the opcode sits above the key id in the first
    byte. *)
Definition OVPN_OPCODE_SHIFT : Z := 3.

(** Modelled from the spec: the key id is the "small integer tag" below the
    opcode. *)
Definition OVPN_KEY_ID_MASK : Z := 7.

(** Modelled from the spec: "24-bit peer-id". *)
Definition OVPN_PEER_ID_MASK : Z := 16777215.

(** Modelled from the spec: "96-bit nonce". *)
Definition NONCE_SIZE : nat := 12.

(** Modelled from the spec: [sizeof(struct ovpn_nonce_tail)], "96 bits
    total: 32-bit packet id + tail". *)
Definition NONCE_TAIL_SIZE : nat := 8.

(** Modelled from the spec: "4-byte wire nonce", the part of the nonce that
    is not tail. *)
Definition NONCE_WIRE_SIZE : nat := (NONCE_SIZE - NONCE_TAIL_SIZE)%nat.

(** Modelled from the spec: "the engine's expected nonce length (96
    bits)". *)
Definition EXPECTED_IV_SIZE : nat := 12.

(** Modelled from the spec: [ovpn_op32_compose] of proto.h, "opcode, key-id,
    peer-id" packed as one byte followed by the 24-bit peer id. *)
Definition ovpn_op32_compose (op key_id op_peer_id : Z) : Z :=
  u32 (Z.lor
         (Z.shiftl (Z.lor (Z.shiftl op OVPN_OPCODE_SHIFT)
                          (Z.land key_id OVPN_KEY_ID_MASK)) 24)
         (Z.land op_peer_id OVPN_PEER_ID_MASK)).

(** Modelled from the spec: [ovpn_opcode_extract] of proto.h, the opcode
    bits of the first byte of a 32-bit op word. *)
Definition ovpn_opcode_extract (op : Z) : Z :=
  Z.shiftr op (24 + OVPN_OPCODE_SHIFT).

(** Constants of headers that are not among the sources and that the
    specification leaves open; they stay parameters. *)
Class ovpn_params := {
  OVPN_HEAD_ROOM : nat;            (* ovpn.h *)
  REPLAY_WINDOW_SIZE : Z;          (* width W of the replay window *)
  E_PKTID_EXHAUSTED : Z;           (* errno of PacketIdExhausted *)
  E_REPLAY : Z;                    (* errno of ReplayDetected *)
}.

(** ** Packet-id guard (pktid.h, pktid.c) *)

(** Modelled from the spec: [struct ovpn_pktid_xmit], "counter: 64-bit
    strictly-increasing value for transmit". *)
Record ovpn_pktid_xmit := { seq_num : Z }.

(** Modelled from the spec: [struct ovpn_pktid_recv] (the function of the
    same name is below), "highest_seen: 64-bit, window: bitmap of the last W
    ids". *)
Record ovpn_pktid_recv_state := { highest_seen : Z; window : Z }.

(** Modelled from the spec: [ovpn_pktid_xmit_init], "fresh packet-id state
    (counter = 0, window empty)". *)
Definition ovpn_pktid_xmit_init : ovpn_pktid_xmit := {| seq_num := 0 |}.

(** Modelled from the spec: [ovpn_pktid_recv_init], same sentence. *)
Definition ovpn_pktid_recv_init : ovpn_pktid_recv_state :=
  {| highest_seen := 0; window := 0 |}.

(** Modelled from the spec: "the 32-bit counter would wrap", the id that
    would be handed out next no longer fits 32 bits. *)
Definition pktid_would_wrap (pid : ovpn_pktid_xmit) : bool :=
  2 ^ 32 <=? seq_num pid.

(** Modelled from the spec: [ovpn_pktid_xmit_next], a fetch-and-add on the
    64-bit counter that "fails with PacketIdExhausted if the 32-bit counter
    would wrap" and otherwise "advances the transmit counter by exactly
    one".  The result is the return code, the content of [*pktid] and the
    new counter. *)
Definition ovpn_pktid_xmit_next `{P : ovpn_params}
    (pid : ovpn_pktid_xmit) (pktid : Z) : Z * Z * ovpn_pktid_xmit :=
  if pktid_would_wrap pid then (E_PKTID_EXHAUSTED, pktid, pid)
  else (0, u32 (seq_num pid), {| seq_num := seq_num pid + 1 |}).

(** Modelled from the spec: [ovpn_pktid_recv], section 4.3 step 4.  Bit [i]
    of [window] records id [highest_seen - i]. *)
Definition ovpn_pktid_recv `{P : ovpn_params}
    (pr : ovpn_pktid_recv_state) (pkt_id pkt_time : Z)
  : Z * ovpn_pktid_recv_state :=
  if highest_seen pr <? pkt_id then
    (0, {| highest_seen := pkt_id;
           window := Z.lor (Z.land (Z.shiftl (window pr)
                                             (pkt_id - highest_seen pr))
                                   (Z.ones REPLAY_WINDOW_SIZE)) 1 |})
  else if (highest_seen pr - pkt_id <? REPLAY_WINDOW_SIZE)
          && negb (Z.testbit (window pr) (highest_seen pr - pkt_id)) then
    (0, {| highest_seen := highest_seen pr;
           window := Z.lor (window pr)
                           (Z.shiftl 1 (highest_seen pr - pkt_id)) |})
  else (E_REPLAY, pr).

(** Modelled from the spec: [ovpn_pktid_aead_write], "construct the 96-bit
    nonce as {4-byte packet id} || {encrypt-direction nonce tail}", written
    into the caller's buffer. *)
Definition ovpn_pktid_aead_write (pktid : Z) (nt : list Z) (dest : list Z)
  : list Z :=
  memcpy_at (memcpy_at dest 0 (htonl pktid)) NONCE_WIRE_SIZE
    (take NONCE_TAIL_SIZE nt).

(** ** Crypto layer (crypto/aead.h) *)

(** A [struct crypto_aead]: its address, algorithm, installed key and
    authentication-tag size. *)
Record crypto_aead := {
  tfm_addr : nat;
  tfm_alg : string;
  tfm_key : list Z;
  tfm_authsize : nat
}.

(** The cipher implementations registered with the crypto API.  The
    transforms return their status together with the bytes they leave in
    the destination: ciphertext followed by the tag for [alg_encrypt], the
    recovered text for [alg_decrypt].  [alg_alloc_err] is the error
    [crypto_alloc_aead] encodes in the pointer it returns when it cannot
    give a transform of that name. *)
Class crypto_aead_ops := {
  alg_alloc_err : string -> Z;
  alg_setkey : string -> list Z -> Z;
  alg_setauthsize : string -> nat -> Z;
  alg_ivsize : string -> nat;
  alg_encrypt : crypto_aead -> list Z -> list Z -> list Z -> Z * list Z;
  alg_decrypt : crypto_aead -> list Z -> list Z -> list Z -> Z * list Z
}.

(** What an AEAD promises: sealing adds the tag, and opening a sealed text
    with the same algorithm, key, tag size, nonce and associated data gives
    the text back. *)
Record aead_sound (O : crypto_aead_ops) : Prop := {
  seal_length : forall t iv ad pt out,
    alg_encrypt t iv ad pt = (0, out) ->
    length out = (length pt + tfm_authsize t)%nat;
  open_seal : forall t t' iv ad pt out,
    tfm_alg t' = tfm_alg t -> tfm_key t' = tfm_key t ->
    tfm_authsize t' = tfm_authsize t ->
    alg_encrypt t iv ad pt = (0, out) ->
    alg_decrypt t' iv ad out = (0, pt)
}.

Definition crypto_aead_authsize (tfm : crypto_aead) : nat := tfm_authsize tfm.

(** One entry of a scatterlist: a byte range of the buffer. *)
Record scatterlist := { sg_off : nat; sg_len : nat }.

Record aead_request := {
  req_tfm : crypto_aead;
  req_sg : list scatterlist;      (* aead_request_set_crypt: src = dst *)
  req_cryptlen : nat;
  req_assoclen : nat;             (* aead_request_set_ad *)
  req_iv : list Z
}.

(** The byte stream a scatterlist denotes. *)
Definition sg_gather (buf : list Z) (sg : list scatterlist) : list Z :=
  flat_map (fun s => slice buf (sg_off s) (sg_len s)) sg.

(** Writing a byte stream back through a scatterlist. *)
Fixpoint sg_scatter (buf : list Z) (sg : list scatterlist) (stream : list Z)
  : list Z :=
  match sg with
  | [] => buf
  | s :: rest =>
      sg_scatter (memcpy_at buf (sg_off s) (take (sg_len s) stream)) rest
                 (drop (sg_len s) stream)
  end.

(** The associated data and the text a request hands to the cipher. *)
Definition req_ad (req : aead_request) (buf : list Z) : list Z :=
  take (req_assoclen req) (sg_gather buf (req_sg req)).

Definition req_text (req : aead_request) (buf : list Z) : list Z :=
  take (req_cryptlen req) (drop (req_assoclen req) (sg_gather buf (req_sg req))).

(** [crypto_wait_req(crypto_aead_encrypt(req), &wait)] *)
Definition crypto_aead_encrypt `{O : crypto_aead_ops}
    (req : aead_request) (buf : list Z) : Z * list Z :=
  let '(ret, out) :=
    alg_encrypt (req_tfm req) (req_iv req) (req_ad req buf) (req_text req buf) in
  (ret, sg_scatter buf (req_sg req) (req_ad req buf ++ out)).

(** [crypto_wait_req(crypto_aead_decrypt(req), &wait)] *)
Definition crypto_aead_decrypt `{O : crypto_aead_ops}
    (req : aead_request) (buf : list Z) : Z * list Z :=
  let '(ret, out) :=
    alg_decrypt (req_tfm req) (req_iv req) (req_ad req buf) (req_text req buf) in
  (ret, sg_scatter buf (req_sg req) (req_ad req buf ++ out)).

(** ** Kernel memory *)

(** The addresses currently allocated, the fate of the allocations still to
    come, of memory or of a transform ([false]: fails; none left: succeeds),
    and the content of memory [kmalloc] does not clear. *)
Record kstate := {
  k_live : gset nat;
  k_allocs : list bool;
  k_uninit : Z
}.

Definition kalloc (st : kstate) : option nat * kstate :=
  let a := fresh (k_live st) in
  match k_allocs st with
  | false :: rest =>
      (None, {| k_live := k_live st; k_allocs := rest; k_uninit := k_uninit st |})
  | _ =>
      (Some a, {| k_live := {[a]} ∪ k_live st; k_allocs := tail (k_allocs st);
                  k_uninit := k_uninit st |})
  end.

Definition kfree (st : kstate) (a : nat) : kstate :=
  {| k_live := k_live st ∖ {[a]}; k_allocs := k_allocs st;
     k_uninit := k_uninit st |}.

(** [crypto_alloc_aead(alg_name, 0, 0)]: a transform without key, or an
    [ERR_PTR]. *)
Definition crypto_alloc_aead `{O : crypto_aead_ops} (st : kstate)
    (alg_name : string) : (Z + crypto_aead) * kstate :=
  match kalloc st with
  | (None, st') => (inl (alg_alloc_err alg_name), st')
  | (Some a, st') =>
      (inr {| tfm_addr := a; tfm_alg := alg_name; tfm_key := [];
              tfm_authsize := 0 |}, st')
  end.

(** [crypto_free_aead]; a null pointer is ignored. *)
Definition crypto_free_aead (st : kstate) (tfm : option crypto_aead) : kstate :=
  match tfm with
  | None => st
  | Some t => kfree st (tfm_addr t)
  end.

(** ** Key slots *)

(** Modelled from the spec: [enum ovpn_cipher_alg] of the uapi header, "only
    one AEAD family is supported"; every other enumerator is
    [OVPN_CIPHER_ALG_other]. *)
Inductive ovpn_cipher_alg :=
| OVPN_CIPHER_ALG_AES_GCM
| OVPN_CIPHER_ALG_other (tag : Z).

(** [struct ovpn_crypto_key_slot] of crypto.h, with the fields aead.c reads
    and writes, and the address [kmalloc] gave it. *)
Record ovpn_crypto_key_slot := {
  ks_addr : nat;
  ks_encrypt : option crypto_aead;      (* u.ae.encrypt *)
  ks_decrypt : option crypto_aead;      (* u.ae.decrypt *)
  nonce_tail_xmit : list Z;
  nonce_tail_recv : list Z;
  pid_xmit : ovpn_pktid_xmit;
  pid_recv : ovpn_pktid_recv_state;
  key_id : Z;
  remote_peer_id : Z
}.

Definition set_pid_xmit (ks : ovpn_crypto_key_slot) (p : ovpn_pktid_xmit) :=
  {| ks_addr := ks_addr ks; ks_encrypt := ks_encrypt ks;
     ks_decrypt := ks_decrypt ks; nonce_tail_xmit := nonce_tail_xmit ks;
     nonce_tail_recv := nonce_tail_recv ks; pid_xmit := p;
     pid_recv := pid_recv ks; key_id := key_id ks;
     remote_peer_id := remote_peer_id ks |}.

Definition set_pid_recv (ks : ovpn_crypto_key_slot) (p : ovpn_pktid_recv_state) :=
  {| ks_addr := ks_addr ks; ks_encrypt := ks_encrypt ks;
     ks_decrypt := ks_decrypt ks; nonce_tail_xmit := nonce_tail_xmit ks;
     nonce_tail_recv := nonce_tail_recv ks; pid_xmit := pid_xmit ks;
     pid_recv := p; key_id := key_id ks;
     remote_peer_id := remote_peer_id ks |}.

(** [ovpn_aead_init]: allocate a transform, install the key, fix the tag
    size at 16 bytes and check the nonce size. *)
Definition ovpn_aead_init `{O : crypto_aead_ops} (st : kstate)
    (alg_name : string) (key : list Z) : (Z + crypto_aead) * kstate :=
  let auth_tag_size := 16%nat in
  match crypto_alloc_aead st alg_name with
  | (inl ret, st1) => (inl ret, crypto_free_aead st1 None)
  | (inr aead0, st1) =>
      let ret := alg_setkey alg_name key in
      if negb (ret =? 0) then (inl ret, crypto_free_aead st1 (Some aead0))
      else
        let aead1 := {| tfm_addr := tfm_addr aead0; tfm_alg := tfm_alg aead0;
                        tfm_key := key; tfm_authsize := tfm_authsize aead0 |} in
        let ret := alg_setauthsize alg_name auth_tag_size in
        if negb (ret =? 0) then (inl ret, crypto_free_aead st1 (Some aead1))
        else
          let aead2 := {| tfm_addr := tfm_addr aead1; tfm_alg := tfm_alg aead1;
                          tfm_key := tfm_key aead1;
                          tfm_authsize := auth_tag_size |} in
          if negb (alg_ivsize alg_name =? EXPECTED_IV_SIZE)%nat
          then (inl (- EINVAL), crypto_free_aead st1 (Some aead2))
          else (inr aead2, st1)
  end.

(** [ovpn_aead_crypto_key_slot_destroy]; [None] is the null slot. *)
Definition ovpn_aead_crypto_key_slot_destroy (st : kstate)
    (ks : option ovpn_crypto_key_slot) : kstate :=
  match ks with
  | None => st
  | Some k =>
      let st1 := crypto_free_aead st (ks_encrypt k) in
      let st2 := crypto_free_aead st1 (ks_decrypt k) in
      kfree st2 (ks_addr k)
  end.

(** The slot as [kmalloc] returns it, after the first assignments of
    [ovpn_aead_crypto_key_slot_init]. *)
Definition ks_blank (st : kstate) (a : nat) (kid : Z) : ovpn_crypto_key_slot :=
  {| ks_addr := a; ks_encrypt := None; ks_decrypt := None;
     nonce_tail_xmit := repeat (k_uninit st) NONCE_TAIL_SIZE;
     nonce_tail_recv := repeat (k_uninit st) NONCE_TAIL_SIZE;
     pid_xmit := {| seq_num := k_uninit st |};
     pid_recv := {| highest_seen := k_uninit st; window := k_uninit st |};
     key_id := kid; remote_peer_id := k_uninit st |}.

Definition set_ciphers (ks : ovpn_crypto_key_slot)
    (e d : option crypto_aead) : ovpn_crypto_key_slot :=
  {| ks_addr := ks_addr ks; ks_encrypt := e; ks_decrypt := d;
     nonce_tail_xmit := nonce_tail_xmit ks;
     nonce_tail_recv := nonce_tail_recv ks; pid_xmit := pid_xmit ks;
     pid_recv := pid_recv ks; key_id := key_id ks;
     remote_peer_id := remote_peer_id ks |}.

(** [ovpn_aead_crypto_key_slot_init].  A buffer and its length travel as one
    list. *)
Definition ovpn_aead_crypto_key_slot_init `{O : crypto_aead_ops} (st : kstate)
    (alg : ovpn_cipher_alg)
    (encrypt_key decrypt_key encrypt_nonce_tail decrypt_nonce_tail : list Z)
    (kid : Z) : (Z + ovpn_crypto_key_slot) * kstate :=
  match alg with
  | OVPN_CIPHER_ALG_other _ => (inl (- EOPNOTSUPP), st)
  | OVPN_CIPHER_ALG_AES_GCM =>
      let alg_name := "gcm(aes)"%string in
      match kalloc st with
      | (None, st0) => (inl (- ENOMEM), st0)
      | (Some a, st0) =>
          let ks := ks_blank st0 a kid in
          match ovpn_aead_init st0 alg_name encrypt_key with
          | (inl ret, st1) =>
              (inl ret, ovpn_aead_crypto_key_slot_destroy st1 (Some ks))
          | (inr e, st1) =>
              let ks := set_ciphers ks (Some e) None in
              match ovpn_aead_init st1 alg_name decrypt_key with
              | (inl ret, st2) =>
                  (inl ret, ovpn_aead_crypto_key_slot_destroy st2 (Some ks))
              | (inr d, st2) =>
                  let ks := set_ciphers ks (Some e) (Some d) in
                  if negb (NONCE_TAIL_SIZE =? length encrypt_nonce_tail)%nat
                     || negb (NONCE_TAIL_SIZE =? length decrypt_nonce_tail)%nat
                  then (inl (- EINVAL),
                        ovpn_aead_crypto_key_slot_destroy st2 (Some ks))
                  else
                    (inr {| ks_addr := a; ks_encrypt := Some e;
                            ks_decrypt := Some d;
                            nonce_tail_xmit :=
                              take NONCE_TAIL_SIZE encrypt_nonce_tail;
                            nonce_tail_recv :=
                              take NONCE_TAIL_SIZE decrypt_nonce_tail;
                            pid_xmit := ovpn_pktid_xmit_init;
                            pid_recv := ovpn_pktid_recv_init;
                            key_id := kid;
                            remote_peer_id := remote_peer_id ks |}, st2)
              end
          end
      end
  end.

(** ** The AEAD transform (aead.c) *)

(** Calls that leave [ovpn_aead_encrypt] and [ovpn_aead_decrypt], in the
    order they happen. *)
Inductive event :=
| EvXmitNext (ret pktid : Z)
| EvEncrypt (req : aead_request) (ad text : list Z) (ret : Z)
| EvDecrypt (req : aead_request) (ad text : list Z) (ret : Z)
| EvPktidRecv (pkt_id ret : Z).

(** What a transform call leaves behind: its return value, the buffer, the
    key slot and the calls it made. *)
Record xform := {
  x_ret : Z;
  x_skb : sk_buff;
  x_ks : ovpn_crypto_key_slot;
  x_trace : list event
}.

(** [ovpn_aead_encap_overhead]; [None] when [ks->u.ae.encrypt] is null. *)
Definition ovpn_aead_encap_overhead (ks : ovpn_crypto_key_slot) : option nat :=
  match ks_encrypt ks with
  | None => None
  | Some tfm => Some (OVPN_OP_SIZE_V2 + 4 + crypto_aead_authsize tfm)%nat
  end.

(** [ovpn_aead_encrypt].  [None] stands for a call without defined
    behaviour: the dereference of a null cipher pointer, or a write past the
    end of the local scatterlist [sg], which has [MAX_SKB_FRAGS + 2]
    entries. *)
Definition ovpn_aead_encrypt `{P : ovpn_params} `{O : crypto_aead_ops}
    (env : callenv) (ks : ovpn_crypto_key_slot) (skb : sk_buff)
  : option xform :=
  match ks_encrypt ks, ovpn_aead_encap_overhead ks with
  | Some tfm, Some head_size =>
    let tag_size := crypto_aead_authsize tfm in
    let leave ret skb ks tr :=
      Some {| x_ret := ret; x_skb := skb; x_ks := ks; x_trace := tr |} in
    match skb_cow_head env skb (OVPN_HEAD_ROOM + head_size) with
    | None => leave (- ENOBUFS) skb ks []
    | Some skb =>
      let nfrags := env_cow_data env in
      if nfrags <? 0 then leave nfrags skb ks []
      else if MAX_SKB_FRAGS + 2 <? nfrags then leave (- ENOSPC) skb ks []
      else if negb (env_req_alloc_ok env) then leave (- ENOMEM) skb ks []
      else if MAX_SKB_FRAGS + 2 <? nfrags + 2 then
        (* sg_init_table(sg, nfrags + 2) writes past sg[MAX_SKB_FRAGS + 2] *)
        None
      else
        (* skb_to_sgvec_nomark(skb, sg + 1, 0, skb->len) *)
        let sg_payload := {| sg_off := skb_data skb; sg_len := skb_len skb |} in
        if negb (nfrags =? env_sgvec env) then leave (- EINVAL) skb ks []
        else
          let skb := __skb_push skb tag_size in
          let sg_tag := {| sg_off := skb_data skb; sg_len := tag_size |} in
          let skb := __skb_push skb NONCE_WIRE_SIZE in
          let '(ret, pktid, pid) :=
            ovpn_pktid_xmit_next (pid_xmit ks) (env_stack_pktid env) in
          let ks := set_pid_xmit ks pid in
          if (ret <? 0) && negb (ret =? -1)
          then leave ret skb ks [EvXmitNext ret pktid]
          else
            let iv := memcpy_at (resize NONCE_SIZE 0 (env_stack_iv env)) 0
                        (take NONCE_SIZE (env_random env)) in
            let iv := ovpn_pktid_aead_write pktid (nonce_tail_xmit ks) iv in
            let skb := skb_store skb (skb_data skb) (take NONCE_WIRE_SIZE iv) in
            let op := ovpn_op32_compose OVPN_DATA_V2 (key_id ks)
                        (remote_peer_id ks) in
            let skb := __skb_push skb OVPN_OP_SIZE_V2 in
            let skb := skb_store skb (skb_data skb) (htonl op) in
            let sg_ad := {| sg_off := skb_data skb;
                            sg_len := OVPN_OP_SIZE_V2 + NONCE_WIRE_SIZE |} in
            let req := {| req_tfm := tfm;
                          req_sg := [sg_ad; sg_payload; sg_tag];
                          req_cryptlen := skb_len skb - head_size;
                          req_assoclen := OVPN_OP_SIZE_V2 + NONCE_WIRE_SIZE;
                          req_iv := iv |} in
            let '(ret', buf) := crypto_aead_encrypt req (skb_head skb) in
            leave ret' {| skb_head := buf; skb_data := skb_data skb |} ks
              [EvXmitNext ret pktid;
               EvEncrypt req (req_ad req (skb_head skb))
                 (req_text req (skb_head skb)) ret']
    end
  | _, _ => None
  end.

(** [ovpn_aead_decrypt]; [None] as for [ovpn_aead_encrypt]. *)
Definition ovpn_aead_decrypt `{P : ovpn_params} `{O : crypto_aead_ops}
    (env : callenv) (ks : ovpn_crypto_key_slot) (skb : sk_buff) (op : Z)
  : option xform :=
  match ks_decrypt ks with
  | None => None
  | Some tfm =>
    let tag_size := crypto_aead_authsize tfm in
    let opcode := ovpn_opcode_extract op in
    let leave ret skb ks tr :=
      Some {| x_ret := ret; x_skb := skb; x_ks := ks; x_trace := tr |} in
    match (if opcode =? OVPN_DATA_V2 then Some OVPN_OP_SIZE_V2
           else if opcode =? OVPN_DATA_V1 then Some OVPN_OP_SIZE_V1
           else None) with
    | None => leave (- EINVAL) skb ks []
    | Some opsize =>
      let payload_offset := u32 (Z.of_nat (opsize + NONCE_WIRE_SIZE + tag_size)) in
      let payload_len := s32 (Z.of_nat (skb_len skb) - payload_offset) in
      if (payload_len <? 0) || negb (pskb_may_pull env skb payload_offset)
      then leave (- EINVAL) skb ks []
      else
        let nfrags := env_cow_data env in
        if nfrags <? 0 then leave nfrags skb ks []
        else if MAX_SKB_FRAGS + 2 <? nfrags then leave (- ENOSPC) skb ks []
        else if negb (env_req_alloc_ok env) then leave (- ENOMEM) skb ks []
        else if MAX_SKB_FRAGS + 2 <? nfrags + 2 then
          (* sg_init_table(sg, nfrags + 2) writes past sg[MAX_SKB_FRAGS + 2] *)
          None
        else
          (* packet op is head of additional data *)
          let sg_ad :=
            if opcode =? OVPN_DATA_V1
            then {| sg_off := skb_data skb + OVPN_OP_SIZE_V1;
                    sg_len := NONCE_WIRE_SIZE |}
            else {| sg_off := skb_data skb;
                    sg_len := OVPN_OP_SIZE_V2 + NONCE_WIRE_SIZE |} in
          (* skb_to_sgvec_nomark(skb, sg + 1, payload_offset, payload_len) *)
          let sg_payload := {| sg_off := skb_data skb + Z.to_nat payload_offset;
                               sg_len := Z.to_nat payload_len |} in
          if negb (nfrags =? env_sgvec env) then leave (- EINVAL) skb ks []
          else
            let sg_tag := {| sg_off := skb_data skb + opsize + NONCE_WIRE_SIZE;
                             sg_len := tag_size |} in
            let iv := memcpy_at (resize NONCE_SIZE 0 (env_stack_iv env)) 0
                        (slice (skb_head skb) (skb_data skb + opsize)
                               NONCE_WIRE_SIZE) in
            let iv := memcpy_at iv NONCE_WIRE_SIZE
                        (take NONCE_TAIL_SIZE (nonce_tail_recv ks)) in
            let ad_start :=
              if opcode =? OVPN_DATA_V2
              then (NONCE_WIRE_SIZE + OVPN_OP_SIZE_V2)%nat
              else NONCE_WIRE_SIZE in
            let req := {| req_tfm := tfm;
                          req_sg := [sg_ad; sg_payload; sg_tag];
                          req_cryptlen := Z.to_nat payload_len + tag_size;
                          req_assoclen := ad_start;
                          req_iv := iv |} in
            let '(ret, buf) := crypto_aead_decrypt req (skb_head skb) in
            let ev := EvDecrypt req (req_ad req (skb_head skb))
                        (req_text req (skb_head skb)) ret in
            let skb := {| skb_head := buf; skb_data := skb_data skb |} in
            if ret <? 0 then leave ret skb ks [ev]
            else
              (* PID sits after the op *)
              let pid := ntohl (slice (skb_head skb) (skb_data skb + opsize) 4) in
              let '(ret, pr) := ovpn_pktid_recv (pid_recv ks) pid 0 in
              let ks := set_pid_recv ks pr in
              if ret <? 0 then leave ret skb ks [ev; EvPktidRecv pid ret]
              else
                leave ret (__skb_pull skb (Z.to_nat payload_offset)) ks
                  [ev; EvPktidRecv pid ret]
    end
  end.

(** ** Peer binding (bind.c) *)

Definition AF_INET : Z := 2.
Definition AF_INET6 : Z := 10.
Definition sizeof_sockaddr_in : nat := 16.
Definition sizeof_sockaddr_in6 : nat := 28.

(** A [struct sockaddr_storage]: the family and the raw bytes of the whole
    structure. *)
Record sockaddr_storage := { ss_family : Z; ss_raw : list Z }.

(** A [struct ovpn_bind]: where it lives and the bytes of its [sa] union. *)
Record ovpn_bind := { bind_addr : nat; bind_sa : list Z }.

(** [kzalloc] of a [struct ovpn_bind] followed by
    [memcpy(&bind->sa, ss, sa_len)]. *)
Definition bind_filled (a : nat) (ss : sockaddr_storage) (sa_len : nat)
  : ovpn_bind :=
  {| bind_addr := a;
     bind_sa := memcpy_at (repeat 0 sizeof_sockaddr_in6) 0
                  (take sa_len (ss_raw ss)) |}.

(** [ovpn_bind_from_sockaddr].  [ovpn_sockaddr_validate] lives in addr.h,
    which is not among the sources: its verdict is the argument
    [validate]. *)
Definition ovpn_bind_from_sockaddr (validate : sockaddr_storage -> Z)
    (st : kstate) (ss : sockaddr_storage) : (Z + ovpn_bind) * kstate :=
  match (if ss_family ss =? AF_INET then Some sizeof_sockaddr_in
         else if ss_family ss =? AF_INET6 then Some sizeof_sockaddr_in6
         else None) with
  | None => (inl (- EAFNOSUPPORT), st)
  | Some sa_len =>
      let err := validate ss in
      if err <? 0 then (inl err, st)
      else
        match kalloc st with
        | (None, st') => (inl (- ENOMEM), st')
        | (Some a, st') => (inr (bind_filled a ss sa_len), st')
        end
  end.

(** A peer as far as binding goes: the current bind pointer and the binds
    handed to [call_rcu], which wait for a grace period. *)
Record ovpn_peer := {
  peer_bind : option ovpn_bind;
  peer_rcu_pending : list ovpn_bind
}.

(** [ovpn_bind_reset], as one writer sees it: the pointer is exchanged and
    the old bind, if any, is queued for release. *)
Definition ovpn_bind_reset (peer : ovpn_peer) (new : option ovpn_bind)
  : ovpn_peer :=
  let old := peer_bind peer in
  {| peer_bind := new;
     peer_rcu_pending :=
       match old with
       | Some b => peer_rcu_pending peer ++ [b]
       | None => peer_rcu_pending peer
       end |}.

(** ** Vocabulary of the statements *)

(** The buffer services of a receive call all succeed, and the packet has
    no more fragments than the scatterlist of the call has room for beside
    the associated data and the tag. *)
Definition env_serves (env : callenv) : Prop :=
  env_may_pull_ok env = true /\ 0 <= env_cow_data env <= MAX_SKB_FRAGS /\
  env_req_alloc_ok env = true /\ env_sgvec env = env_cow_data env.

(** The data pointer lies inside the buffer, whose size fits the
    [unsigned int] fields of an [sk_buff]. *)
Definition skb_wf (skb : sk_buff) : Prop :=
  (skb_data skb <= length (skb_head skb))%nat /\
  Z.of_nat (length (skb_head skb)) < 2 ^ 32.

(** The header size [ovpn_aead_decrypt] derives from the opcode. *)
Definition opsize_of (opcode : Z) (opsize : nat) : Prop :=
  opcode = OVPN_DATA_V2 /\ opsize = OVPN_OP_SIZE_V2 \/
  opcode = OVPN_DATA_V1 /\ opsize = OVPN_OP_SIZE_V1.

(** The request [ovpn_aead_encrypt] submits for a packet whose wire form
    starts [length A] bytes into the buffer and carries [n] payload bytes. *)
Definition encrypt_req (te : crypto_aead) (A : list Z) (n : nat) (iv : list Z)
  : aead_request :=
  {| req_tfm := te;
     req_sg := [ {| sg_off := length A; sg_len := 8 |};
                 {| sg_off := length A + 24; sg_len := n |};
                 {| sg_off := length A + 8; sg_len := 16 |} ];
     req_cryptlen := n; req_assoclen := 8; req_iv := iv |}.

(** The request [ovpn_aead_decrypt] submits for a packet with a header of
    [opsize] bytes and [n] payload bytes. *)
Definition decrypt_req (td : crypto_aead) (A : list Z) (opsize n : nat)
    (iv : list Z) : aead_request :=
  {| req_tfm := td;
     req_sg := [ (if (opsize =? 1)%nat
                  then {| sg_off := length A + 1; sg_len := 4 |}
                  else {| sg_off := length A; sg_len := 8 |});
                 {| sg_off := length A + (opsize + 20); sg_len := n |};
                 {| sg_off := length A + opsize + 4; sg_len := 16 |} ];
     req_cryptlen := n + 16;
     req_assoclen := if (opsize =? 1)%nat then 4%nat else 8%nat;
     req_iv := iv |}.

(** Two views of one slot: everything but the packet-id state and the peer
    id agrees. *)
Definition ks_same_keys (a b : ovpn_crypto_key_slot) : Prop :=
  ks_addr a = ks_addr b /\ ks_encrypt a = ks_encrypt b /\
  ks_decrypt a = ks_decrypt b /\ nonce_tail_xmit a = nonce_tail_xmit b /\
  nonce_tail_recv a = nonce_tail_recv b /\ key_id a = key_id b.

(** A slot that [ovpn_aead_crypto_key_slot_init] returned, at any later
    point of its life. *)
Definition slot_created `{O : crypto_aead_ops} (ks : ovpn_crypto_key_slot)
  : Prop :=
  exists st alg ek dk et dt kid ks0 st',
    ovpn_aead_crypto_key_slot_init st alg ek dk et dt kid = (inr ks0, st') /\
    ks_same_keys ks ks0.

(** Modelled from the spec: the receive path in front of
    [ovpn_aead_decrypt] is not among the sources; it passes the op word it
    finds in the first four bytes of the packet ("selected by key-id in
    header"). *)
Definition wire_op (skb : sk_buff) : Z := ntohl (take 4 (skb_bytes skb)).

(** The wire packet id behind a header of [opsize] bytes. *)
Definition wire_pktid (skb : sk_buff) (opsize : nat) : Z :=
  ntohl (slice (skb_bytes skb) opsize 4).

(** A sequence of encapsulations on one slot, each call seeing the slot as
    the previous one left it. *)
Fixpoint encrypt_run `{P : ovpn_params} `{O : crypto_aead_ops}
    (ks : ovpn_crypto_key_slot) (calls : list (callenv * sk_buff))
  : option (list xform) :=
  match calls with
  | [] => Some []
  | (env, skb) :: rest =>
      match ovpn_aead_encrypt env ks skb with
      | None => None
      | Some r =>
          match encrypt_run (x_ks r) rest with
          | None => None
          | Some rs => Some (r :: rs)
          end
      end
  end.

(** The same call with other bytes coming out of [get_random_bytes]. *)
Definition with_random (env : callenv) (rnd : list Z) : callenv :=
  {| env_header_cloned := env_header_cloned env;
     env_expand_head_ok := env_expand_head_ok env;
     env_junk := env_junk env; env_cow_data := env_cow_data env;
     env_sgvec := env_sgvec env; env_may_pull_ok := env_may_pull_ok env;
     env_req_alloc_ok := env_req_alloc_ok env; env_random := rnd;
     env_stack_iv := env_stack_iv env;
     env_stack_pktid := env_stack_pktid env |}.

Definition is_encrypt_event (e : event) : bool :=
  match e with EvEncrypt _ _ _ _ => true | _ => false end.

Definition is_recv_event (e : event) : bool :=
  match e with EvPktidRecv _ _ => true | _ => false end.

(** ** A small cipher to run the transform on

    A one-byte pad masks the text and a checksum over key, nonce,
    associated data and ciphertext serves as tag.  It has the interface and
    the soundness of an AEAD, nothing of its strength. *)

Definition sum_all (l : list Z) : Z := fold_right Z.add 0 l.

Definition mask_text (t : crypto_aead) (iv text : list Z) : list Z :=
  map (Z.lxor (sum_all (tfm_key t ++ iv) mod 256)) text.

Definition checksum_tag (t : crypto_aead) (iv ad ct : list Z) : list Z :=
  repeat (sum_all (tfm_key t ++ iv ++ ad ++ ct) mod 256) (tfm_authsize t).

Definition mask_encrypt (t : crypto_aead) (iv ad pt : list Z) : Z * list Z :=
  let ct := mask_text t iv pt in (0, ct ++ checksum_tag t iv ad ct).

Definition mask_decrypt (t : crypto_aead) (iv ad s : list Z) : Z * list Z :=
  let n := (length s - tfm_authsize t)%nat in
  let ct := take n s in
  if bool_decide (drop n s = checksum_tag t iv ad ct)
  then (0, mask_text t iv ct)
  else (- EBADMSG, ct).

(** Key sizes of AES, the tag size the driver asks for, the GCM nonce. *)
Definition mask_setkey (alg : string) (key : list Z) : Z :=
  if bool_decide (length key = 16%nat) || bool_decide (length key = 24%nat)
     || bool_decide (length key = 32%nat)
  then 0 else - EINVAL.

Definition mask_setauthsize (alg : string) (n : nat) : Z :=
  if bool_decide (n = 16%nat) then 0 else - EINVAL.

Definition mask_ivsize (alg : string) : nat := 12.

(** No transform of any name left: ENOENT. *)
Definition mask_alloc_err (alg : string) : Z := - ENOENT.

Definition mask_ops : crypto_aead_ops :=
  {| alg_alloc_err := mask_alloc_err; alg_setkey := mask_setkey; alg_setauthsize := mask_setauthsize;
     alg_ivsize := mask_ivsize; alg_encrypt := mask_encrypt;
     alg_decrypt := mask_decrypt |}.

(** Policy constants for the examples: a 128-id window, ERANGE for an
    exhausted counter, ESTALE for a replay. *)
Definition sample_params : ovpn_params :=
  {| OVPN_HEAD_ROOM := 32; REPLAY_WINDOW_SIZE := 128;
     E_PKTID_EXHAUSTED := -34; E_REPLAY := -116 |}.

Definition sample_kstate : kstate :=
  {| k_live := ∅; k_allocs := []; k_uninit := 0 |}.

Definition sample_env : callenv :=
  {| env_header_cloned := false; env_expand_head_ok := true; env_junk := 170; env_cow_data := 1;
     env_sgvec := 1; env_may_pull_ok := true; env_req_alloc_ok := true;
     env_random := [201; 202; 203; 204; 205; 206; 207; 208; 209; 210; 211; 212];
     env_stack_iv := []; env_stack_pktid := 0 |}.


(** A kernel whose next allocation fails. *)
Definition sample_starved_kstate : kstate :=
  {| k_live := ∅; k_allocs := [false]; k_uninit := 0 |}.

(** A plaintext packet without headroom. *)
Definition sample_skb : sk_buff := {| skb_head := [69; 0; 0; 3]; skb_data := 0 |}.

Definition sample_init (ek dk et dt : list Z)
  : (Z + ovpn_crypto_key_slot) * kstate :=
  ovpn_aead_crypto_key_slot_init (O := mask_ops) sample_kstate
    OVPN_CIPHER_ALG_AES_GCM ek dk et dt 0.

Definition sample_encrypt := ovpn_aead_encrypt (P := sample_params) (O := mask_ops).

Definition sample_decrypt := ovpn_aead_decrypt (P := sample_params) (O := mask_ops).

Definition sample_tfm (a : nat) (b : Z) : crypto_aead :=
  {| tfm_addr := a; tfm_alg := "gcm(aes)"; tfm_key := repeat b 16;
     tfm_authsize := 16 |}.

(** What [sample_init] returns for one key and tail in both directions. *)
Definition paired_slot : ovpn_crypto_key_slot :=
  {| ks_addr := 0; ks_encrypt := Some (sample_tfm 1 1);
     ks_decrypt := Some (sample_tfm 2 1);
     nonce_tail_xmit := repeat 7 8; nonce_tail_recv := repeat 7 8;
     pid_xmit := ovpn_pktid_xmit_init; pid_recv := ovpn_pktid_recv_init;
     key_id := 0; remote_peer_id := 0 |}.

(** What [sample_init] returns for a key and a tail per direction. *)
Definition directional_slot : ovpn_crypto_key_slot :=
  {| ks_addr := 0; ks_encrypt := Some (sample_tfm 1 1);
     ks_decrypt := Some (sample_tfm 2 2);
     nonce_tail_xmit := repeat 7 8; nonce_tail_recv := repeat 9 8;
     pid_xmit := ovpn_pktid_xmit_init; pid_recv := ovpn_pktid_recv_init;
     key_id := 0; remote_peer_id := 0 |}.

(** [paired_slot] after five packets. *)
Definition sample_used_slot : ovpn_crypto_key_slot :=
  set_pid_xmit paired_slot {| seq_num := 5 |}.

(** [paired_slot] once all 2^32 packet ids have been handed out. *)
Definition exhausted_slot : ovpn_crypto_key_slot :=
  set_pid_xmit paired_slot {| seq_num := 2 ^ 32 |}.

(** A DATA_V1 packet: op byte, wire packet id 5, tag, two payload bytes. *)
Definition sample_v1_skb : sk_buff :=
  {| skb_head := [48; 0; 0; 0; 5] ++ repeat 33 16 ++ [11; 12]; skb_data := 0 |}.

Definition sample_v1_op : Z := Z.shiftl 48 24.

(** A DATA_V2 packet cut off inside its tag. *)
Definition sample_short_skb : sk_buff :=
  {| skb_head := [72; 0; 0; 1; 0; 0; 0; 5; 33; 33]; skb_data := 0 |}.

Definition sample_v2_op : Z := Z.shiftl 72 24 + 1.

(** An op word with opcode 4, a control-channel packet. *)
Definition sample_control_op : Z := Z.shiftl 32 24.

Definition sample_sockaddr (family : Z) : sockaddr_storage :=
  {| ss_family := family;
     ss_raw := [family; 0; 4; 170; 192; 0; 2; 1] ++ repeat 0 120 |}.

Definition sample_validate (ss : sockaddr_storage) : Z := 0.

(** ** The rest of aead.c and bind.c *)

(** Modelled from the spec: one direction of a [struct ovpn_key_config]
    (crypto.h), "key + length" and "nonce-tail + length"; a buffer and its
    length travel as one list. *)
Record ovpn_key_direction := { cipher_key : list Z; nonce_tail : list Z }.

(** Modelled from the spec: [struct ovpn_key_config], "algorithm identifier;
    encrypt key; decrypt key; encrypt nonce-tail; decrypt nonce-tail;
    key-id", with the field names [ovpn_aead_crypto_key_slot_new] uses. *)
Record ovpn_key_config := {
  cipher_alg : ovpn_cipher_alg;
  kc_key_id : Z;
  kc_encrypt : ovpn_key_direction;
  kc_decrypt : ovpn_key_direction
}.

(** [ovpn_aead_crypto_key_slot_new] *)
Definition ovpn_aead_crypto_key_slot_new `{O : crypto_aead_ops} (st : kstate)
    (kc : ovpn_key_config) : (Z + ovpn_crypto_key_slot) * kstate :=
  ovpn_aead_crypto_key_slot_init st (cipher_alg kc)
    (cipher_key (kc_encrypt kc)) (cipher_key (kc_decrypt kc))
    (nonce_tail (kc_encrypt kc)) (nonce_tail (kc_decrypt kc))
    (kc_key_id kc).

(** [ovpn_bind_release] *)
Definition ovpn_bind_release (st : kstate) (bind : ovpn_bind) : kstate :=
  kfree st (bind_addr bind).

(** [ovpn_bind_release_rcu]: the callback [ovpn_bind_reset] registers; the
    bind is the one that contains the [rcu_head]. *)
Definition ovpn_bind_release_rcu (st : kstate) (bind : ovpn_bind) : kstate :=
  ovpn_bind_release st bind.

(** The end of a grace period as one writer sees it: every callback that
    [ovpn_bind_reset] registered is invoked once, in order. *)
Definition rcu_callbacks_run (st : kstate) (peer : ovpn_peer)
  : kstate * ovpn_peer :=
  (fold_left ovpn_bind_release_rcu (peer_rcu_pending peer) st,
   {| peer_bind := peer_bind peer; peer_rcu_pending := [] |}).

(** The configuration of the other end: the directions change places. *)
Definition kc_mirror (kc : ovpn_key_config) : ovpn_key_config :=
  {| cipher_alg := cipher_alg kc; kc_key_id := kc_key_id kc;
     kc_encrypt := kc_decrypt kc; kc_decrypt := kc_encrypt kc |}.

(** The binds a peer is responsible for: those waiting for their callback
    and the current one. *)
Definition peer_binds (peer : ovpn_peer) : list ovpn_bind :=
  peer_rcu_pending peer ++ option_list (peer_bind peer).

(** A series of [ovpn_bind_reset] calls on one peer. *)
Definition bind_resets (peer : ovpn_peer) (news : list (option ovpn_bind))
  : ovpn_peer :=
  fold_left ovpn_bind_reset news peer.

(** The peer owns its binds: each sits in a live allocation, and no two of
    them in the same one. *)
Definition peer_owns (st : kstate) (peer : ovpn_peer) : Prop :=
  NoDup (bind_addr <$> peer_binds peer) /\
  Forall (fun b => bind_addr b ∈ k_live st) (peer_binds peer).

(** The buffer services of a transmit call all succeed, and the packet has
    no more fragments than the scatterlist of the call has room for beside
    the associated data and the tag. *)
Definition env_serves_xmit (env : callenv) : Prop :=
  env_expand_head_ok env = true /\
  0 <= env_cow_data env <= MAX_SKB_FRAGS /\
  env_req_alloc_ok env = true /\ env_sgvec env = env_cow_data env.

(** The first [n] allocations to come succeed. *)
Definition allocs_succeed (st : kstate) (n : nat) : bool :=
  forallb (fun b => b) (take n (k_allocs st)).

(** ** More sample inputs *)

Definition sample_config : ovpn_key_config :=
  {| cipher_alg := OVPN_CIPHER_ALG_AES_GCM; kc_key_id := 2;
     kc_encrypt := {| cipher_key := repeat 1 16; nonce_tail := repeat 7 8 |};
     kc_decrypt := {| cipher_key := repeat 2 32; nonce_tail := repeat 9 8 |} |}.

Definition sample_new := ovpn_aead_crypto_key_slot_new (O := mask_ops).

Definition sample_empty_peer : ovpn_peer :=
  {| peer_bind := None; peer_rcu_pending := [] |}.

Definition sample_bind (a : nat) : ovpn_bind :=
  bind_filled a (sample_sockaddr AF_INET) sizeof_sockaddr_in.

(** What [sample_new] returns for [sample_config]. *)
Definition config_slot : ovpn_crypto_key_slot :=
  {| ks_addr := 0;
     ks_encrypt := Some {| tfm_addr := 1; tfm_alg := "gcm(aes)";
                           tfm_key := repeat 1 16; tfm_authsize := 16 |};
     ks_decrypt := Some {| tfm_addr := 2; tfm_alg := "gcm(aes)";
                           tfm_key := repeat 2 32; tfm_authsize := 16 |};
     nonce_tail_xmit := repeat 7 8; nonce_tail_recv := repeat 9 8;
     pid_xmit := ovpn_pktid_xmit_init; pid_recv := ovpn_pktid_recv_init;
     key_id := 2; remote_peer_id := 0 |}.

(** What [sample_new] returns for the mirror of [sample_config]. *)
Definition mirror_slot : ovpn_crypto_key_slot :=
  {| ks_addr := 0;
     ks_encrypt := Some {| tfm_addr := 1; tfm_alg := "gcm(aes)";
                           tfm_key := repeat 2 32; tfm_authsize := 16 |};
     ks_decrypt := Some {| tfm_addr := 2; tfm_alg := "gcm(aes)";
                           tfm_key := repeat 1 16; tfm_authsize := 16 |};
     nonce_tail_xmit := repeat 9 8; nonce_tail_recv := repeat 7 8;
     pid_xmit := ovpn_pktid_xmit_init; pid_recv := ovpn_pktid_recv_init;
     key_id := 2; remote_peer_id := 0 |}.

(** [sample_skb] as [paired_slot] seals it: headroom, op word, wire packet
    id 0, tag, ciphertext. *)
Definition sample_sealed_skb : sk_buff :=
  {| skb_head := repeat 170 32 ++ [72; 0; 0; 0] ++ [0; 0; 0; 0]
                   ++ repeat 120 16 ++ [13; 72; 72; 75];
     skb_data := 32 |}.

(** One bind allocated and attached. *)
Definition sample_bound_kstate : kstate :=
  {| k_live := {[0%nat]}; k_allocs := []; k_uninit := 0 |}.

Definition sample_bound_peer : ovpn_peer :=
  {| peer_bind := Some (sample_bind 0); peer_rcu_pending := [] |}.

(** The first bind replaced by a second one. *)
Definition sample_two_kstate : kstate :=
  {| k_live := {[0%nat; 1%nat]}; k_allocs := []; k_uninit := 0 |}.

Definition sample_replaced_peer : ovpn_peer :=
  ovpn_bind_reset sample_bound_peer (Some (sample_bind 1)).

(** * Proofs *)

(** ** Buffers, byte order and machine integers *)

Lemma memcpy_at_nil buf off : memcpy_at buf off [] = buf.
Proof. unfold memcpy_at. simpl. rewrite Nat.add_0_r. apply take_drop. Qed.

Lemma memcpy_at_app (A B C src : list Z) off :
  length A = off -> length src = length B ->
  memcpy_at (A ++ B ++ C) off src = A ++ src ++ C.
Proof.
  intros <- Hl. unfold memcpy_at.
  rewrite take_app_length. f_equal. f_equal.
  rewrite drop_app_ge by lia.
  replace (length A + length src - length A)%nat with (length B) by lia.
  apply drop_app_length.
Qed.

Lemma slice_app (A B C : list Z) off len :
  length A = off -> length B = len -> slice (A ++ B ++ C) off len = B.
Proof.
  intros <- <-. unfold slice. rewrite drop_app_length. apply take_app_length.
Qed.

Lemma memcpy_at_take_below buf off src k :
  (k <= off)%nat -> (off <= length buf)%nat ->
  take k (memcpy_at buf off src) = take k buf.
Proof.
  intros Hk Ho. unfold memcpy_at.
  rewrite take_app_le by (rewrite length_take; lia).
  rewrite take_take. f_equal. lia.
Qed.

Lemma memcpy_at_length_ge buf off src :
  (off <= length buf)%nat -> (length buf <= length (memcpy_at buf off src))%nat.
Proof.
  intros Ho. unfold memcpy_at. rewrite !length_app, length_take, length_drop. lia.
Qed.

Lemma htonl_length x : length (htonl x) = 4%nat.
Proof. reflexivity. Qed.

Lemma testbit_byte x k m :
  0 <= k ->
  Z.testbit (Z.land (Z.shiftr x k) 255) m
  = (0 <=? m) && (m <? 8) && Z.testbit x (m + k).
Proof.
  intros Hk. destruct (Z.leb_spec 0 m) as [Hm|Hm]; cbn [andb].
  - change 255 with (Z.ones 8).
    rewrite Z.land_spec, Z.testbit_ones_nonneg, Z.shiftr_spec by lia.
    apply andb_comm.
  - apply Z.testbit_neg_r. lia.
Qed.

Lemma testbit_below x n : 0 <= x < 2 ^ n -> forall m, n <= m -> Z.testbit x m = false.
Proof.
  intros Hx m Hm. destruct (Z.eq_dec x 0) as [->|Hne]; [apply Z.bits_0|].
  apply Z.bits_above_log2; [lia|].
  assert (Z.log2 x < n) by (apply Z.log2_lt_pow2; lia). lia.
Qed.

Lemma ntohl_htonl x : 0 <= x < 2 ^ 32 -> ntohl (htonl x) = x.
Proof.
  intros Hx. unfold ntohl, htonl. cbn [nth].
  apply Z.bits_inj'. intros n Hn.
  rewrite !Z.lor_spec, !Z.shiftl_spec by lia.
  rewrite <- (Z.shiftr_0_r x) at 4.
  rewrite !testbit_byte by lia.
  replace (n - 24 + 24) with n by lia.
  replace (n - 16 + 16) with n by lia.
  replace (n - 8 + 8) with n by lia.
  replace (n + 0) with n by lia.
  destruct (Z.testbit x n) eqn:Hb.
  - assert (n < 32).
    { destruct (Z.lt_ge_cases n 32); [assumption|].
      rewrite (testbit_below x 32) in Hb by lia. discriminate. }
    rewrite !andb_true_r.
    destruct (Z.leb_spec 0 (n - 24)), (Z.ltb_spec (n - 24) 8),
      (Z.leb_spec 0 (n - 16)), (Z.ltb_spec (n - 16) 8),
      (Z.leb_spec 0 (n - 8)), (Z.ltb_spec (n - 8) 8),
      (Z.leb_spec 0 n), (Z.ltb_spec n 8); cbn; try reflexivity; lia.
  - now rewrite !andb_false_r.
Qed.

Lemma opcode_compose_v2 kid pid :
  ovpn_opcode_extract (ovpn_op32_compose OVPN_DATA_V2 kid pid) = OVPN_DATA_V2.
Proof.
  unfold ovpn_opcode_extract, ovpn_op32_compose, u32, OVPN_DATA_V2,
    OVPN_OPCODE_SHIFT, OVPN_KEY_ID_MASK, OVPN_PEER_ID_MASK.
  apply Z.bits_inj'. intros n Hn.
  rewrite Z.shiftr_spec by lia.
  destruct (Z.ltb_spec n 5).
  - rewrite Z.mod_pow2_bits_low by lia.
    rewrite Z.lor_spec, Z.shiftl_spec, Z.lor_spec, Z.shiftl_spec by lia.
    change 16777215 with (Z.ones 24). change 7 with (Z.ones 3).
    rewrite !Z.land_spec, !Z.testbit_ones_nonneg by lia.
    replace (n + (24 + 3) - 24 - 3) with n by lia.
    replace (n + (24 + 3) - 24 <? 3) with false by (symmetry; apply Z.ltb_ge; lia).
    replace (n + (24 + 3) <? 24) with false by (symmetry; apply Z.ltb_ge; lia).
    now rewrite !andb_false_r, !orb_false_r.
  - rewrite Z.mod_pow2_bits_high by lia.
    symmetry. apply (testbit_below 9 5); lia.
Qed.

Lemma s32_small x : 0 <= x < 2 ^ 31 -> s32 x = x.
Proof.
  intros Hx. unfold s32, u32. rewrite Z.mod_small by lia.
  destruct (Z.ltb_spec x (2 ^ 31)); lia.
Qed.

Lemma s32_neg x : - 2 ^ 31 <= x < 0 -> s32 x < 0.
Proof.
  intros Hx. unfold s32, u32.
  replace (x mod 2 ^ 32) with (x + 2 ^ 32).
  - destruct (Z.ltb_spec (x + 2 ^ 32) (2 ^ 31)); lia.
  - apply Z.mod_unique with (q := -1); lia.
Qed.

(** After [skb_cow_head] the packet is where it was, behind at least the
    headroom asked for. *)
Lemma cow_head_shape env skb n skb1 :
  (skb_data skb <= length (skb_head skb))%nat ->
  skb_cow_head env skb n = Some skb1 ->
  exists hd, skb_head skb1 = hd ++ skb_bytes skb /\
             skb_data skb1 = length hd /\ (n <= length hd)%nat.
Proof.
  intros Hd. unfold skb_cow_head.
  destruct (Nat.ltb_spec 0 (n - skb_data skb)) as [Hlt|Hge]; cbn [orb].
  - destruct (env_expand_head_ok env); [|discriminate].
    intros [= <-]. cbn [skb_head skb_data].
    exists (repeat (env_junk env) (n - skb_data skb)
              ++ take (skb_data skb) (skb_head skb)).
    unfold skb_bytes.
    rewrite <- app_assoc, take_drop, length_app, repeat_length, length_take.
    repeat split; lia.
  - assert (Hsame : skb_head skb
                    = take (skb_data skb) (skb_head skb) ++ skb_bytes skb)
      by (unfold skb_bytes; now rewrite take_drop).
    destruct (env_header_cloned env).
    + destruct (env_expand_head_ok env); [|discriminate].
      intros [= <-]. cbn [skb_head skb_data].
      replace (n - skb_data skb)%nat with 0%nat by lia. cbn [repeat app].
      exists (take (skb_data skb) (skb_head skb)).
      rewrite length_take. repeat split; [assumption | lia | lia].
    + intros [= <-]. exists (take (skb_data skb) (skb_head skb)).
      rewrite length_take. repeat split; [assumption | lia | lia].
Qed.

Lemma split_tail24 (hd : list Z) :
  (24 <= length hd)%nat ->
  exists A J1 J2 T0, hd = A ++ J1 ++ J2 ++ T0 /\ length J1 = 4%nat /\
                     length J2 = 4%nat /\ length T0 = 16%nat.
Proof.
  intros Hl.
  exists (take (length hd - 24) hd), (take 4 (drop (length hd - 24) hd)),
    (take 4 (drop (length hd - 20) hd)), (drop (length hd - 16) hd).
  repeat split.
  - rewrite <- (take_drop (length hd - 24) hd) at 1. f_equal.
    rewrite <- (take_drop 4 (drop (length hd - 24) hd)) at 1. f_equal.
    rewrite drop_drop.
    replace (length hd - 24 + 4)%nat with (length hd - 20)%nat by lia.
    rewrite <- (take_drop 4 (drop (length hd - 20) hd)) at 1. f_equal.
    rewrite drop_drop. f_equal. lia.
  - rewrite length_take, length_drop. lia.
  - rewrite length_take, length_drop. lia.
  - rewrite length_drop. lia.
Qed.

(** [ovpn_pktid_aead_write] fills a 12-byte buffer completely. *)
Lemma aead_write_full pktid nt iv0 :
  length iv0 = 12%nat -> length nt = 8%nat ->
  ovpn_pktid_aead_write pktid nt iv0 = htonl pktid ++ nt.
Proof.
  intros Hi Hn. unfold ovpn_pktid_aead_write, NONCE_WIRE_SIZE, NONCE_SIZE, NONCE_TAIL_SIZE.
  rewrite (take_ge nt) by lia.
  unfold memcpy_at at 2. rewrite take_0. cbn [app length Nat.add].
  change (Z.land (Z.shiftr pktid 24) 255 :: Z.land (Z.shiftr pktid 16) 255
          :: Z.land (Z.shiftr pktid 8) 255 :: Z.land pktid 255 :: drop 4 iv0)
    with (htonl pktid ++ drop 4 iv0).
  change (12 - 8)%nat with 4%nat.
  unfold memcpy_at. rewrite take_app_length' by reflexivity.
  f_equal. rewrite drop_ge; [apply app_nil_r|].
  rewrite length_app, length_drop, htonl_length. lia.
Qed.

Lemma random_iv_length stack rnd :
  length (memcpy_at (resize NONCE_SIZE 0 stack) 0 (take NONCE_SIZE rnd)) = 12%nat.
Proof.
  unfold memcpy_at, NONCE_SIZE. rewrite take_0. cbn [app Nat.add].
  rewrite length_app, length_drop, length_resize, length_take. lia.
Qed.

Lemma recv_iv_full stack (idb nt : list Z) :
  length idb = 4%nat -> length nt = 8%nat ->
  memcpy_at (memcpy_at (resize NONCE_SIZE 0 stack) 0 idb) NONCE_WIRE_SIZE
    (take NONCE_TAIL_SIZE nt) = idb ++ nt.
Proof.
  intros Hi Hn. unfold NONCE_WIRE_SIZE, NONCE_SIZE, NONCE_TAIL_SIZE.
  rewrite (take_ge nt) by lia. change (12 - 8)%nat with 4%nat.
  unfold memcpy_at at 2. rewrite take_0. cbn [app Nat.add].
  unfold memcpy_at. rewrite take_app_length' by lia.
  f_equal. rewrite drop_ge; [apply app_nil_r|].
  rewrite length_app, length_drop, length_resize. lia.
Qed.

Lemma s32_nonneg_inv x : 0 <= x < 2 ^ 32 -> 0 <= s32 x -> s32 x = x /\ x < 2 ^ 31.
Proof.
  intros Hx. unfold s32, u32. rewrite Z.mod_small by lia.
  destruct (Z.ltb_spec x (2 ^ 31)); lia.
Qed.

Lemma split_head (l : list Z) (a : nat) :
  (a + 20 <= length l)%nat ->
  exists hdr idb T C, l = hdr ++ idb ++ T ++ C /\ length hdr = a /\
                      length idb = 4%nat /\ length T = 16%nat.
Proof.
  intros Hl.
  exists (take a l), (take 4 (drop a l)), (take 16 (drop (a + 4) l)),
    (drop (a + 20) l).
  repeat split.
  - rewrite <- (take_drop a l) at 1. f_equal.
    rewrite <- (take_drop 4 (drop a l)) at 1. f_equal.
    rewrite drop_drop.
    rewrite <- (take_drop 16 (drop (a + 4) l)) at 1. f_equal.
    rewrite drop_drop. f_equal. lia.
  - rewrite length_take. lia.
  - rewrite length_take, length_drop. lia.
  - rewrite length_take, length_drop. lia.
Qed.

Lemma gather_recv (A hdr idb T C : list Z) opsize :
  length hdr = opsize -> opsize = 4%nat \/ opsize = 1%nat ->
  length idb = 4%nat -> length T = 16%nat ->
  sg_gather (A ++ hdr ++ idb ++ T ++ C)
    [ (if (opsize =? 1)%nat
       then {| sg_off := length A + 1; sg_len := 4 |}
       else {| sg_off := length A; sg_len := 8 |});
      {| sg_off := length A + (opsize + 20); sg_len := length C |};
      {| sg_off := length A + opsize + 4; sg_len := 16 |} ]
  = (if (opsize =? 1)%nat then idb else hdr ++ idb) ++ C ++ T.
Proof.
  intros Hh Hop Hi HT. unfold sg_gather. cbn [flat_map]. rewrite app_nil_r.
  f_equal; [|f_equal].
  - destruct Hop as [-> | ->]; cbn [Nat.eqb sg_off sg_len].
    + replace (A ++ hdr ++ idb ++ T ++ C) with (A ++ (hdr ++ idb) ++ T ++ C)
        by (rewrite <- !app_assoc; reflexivity).
      apply slice_app; [reflexivity|]. rewrite length_app. lia.
    + replace (A ++ hdr ++ idb ++ T ++ C) with ((A ++ hdr) ++ idb ++ T ++ C)
        by (rewrite <- !app_assoc; reflexivity).
      apply slice_app; [|assumption]. rewrite length_app. lia.
  - cbn [sg_off sg_len].
    replace (A ++ hdr ++ idb ++ T ++ C) with ((A ++ hdr ++ idb ++ T) ++ C ++ [])
      by (rewrite <- !app_assoc, app_nil_r; reflexivity).
    apply slice_app; [|reflexivity]. rewrite !length_app. lia.
  - cbn [sg_off sg_len].
    replace (A ++ hdr ++ idb ++ T ++ C) with ((A ++ hdr ++ idb) ++ T ++ C)
      by (rewrite <- !app_assoc; reflexivity).
    apply slice_app; [|assumption]. rewrite !length_app. lia.
Qed.

Lemma gather3 (A X T C R : list Z) n :
  length X = 8%nat -> length T = 16%nat -> length C = n ->
  sg_gather (A ++ X ++ T ++ C ++ R)
    [ {| sg_off := length A; sg_len := 8 |};
      {| sg_off := length A + 24; sg_len := n |};
      {| sg_off := length A + 8; sg_len := 16 |} ] = X ++ C ++ T.
Proof.
  intros HX HT HC. unfold sg_gather. cbn [flat_map sg_off sg_len].
  rewrite app_nil_r. f_equal; [|f_equal].
  - apply slice_app; auto.
  - replace (A ++ X ++ T ++ C ++ R) with ((A ++ X ++ T) ++ C ++ R)
      by (rewrite <- !app_assoc; reflexivity).
    apply slice_app; auto. rewrite !length_app. lia.
  - replace (A ++ X ++ T ++ C ++ R) with ((A ++ X) ++ T ++ C ++ R)
      by (rewrite <- !app_assoc; reflexivity).
    apply slice_app; auto. rewrite !length_app. lia.
Qed.

Lemma drop_repeat (x : Z) n m : drop n (repeat x m) = repeat x (m - n).
Proof.
  revert m. induction n as [|n IH]; intros [|m]; cbn; auto.
Qed.

(** ** Scatterlists *)

Lemma memcpy_at_same (A B C : list Z) :
  memcpy_at (A ++ B ++ C) (length A) B = A ++ B ++ C.
Proof. apply memcpy_at_app; reflexivity. Qed.

Lemma sg_scatter_cons buf s rest stream :
  sg_scatter buf (s :: rest) stream
  = sg_scatter (memcpy_at buf (sg_off s) (take (sg_len s) stream)) rest
      (drop (sg_len s) stream).
Proof. reflexivity. Qed.

(** Writing through a scatterlist leaves the bytes in front of all its
    entries alone. *)
Lemma scatter_prefix sg : forall buf stream k,
  Forall (fun s => (k <= sg_off s)%nat) sg -> (k <= length buf)%nat ->
  Forall (fun s => (sg_off s <= length buf)%nat) sg ->
  take k (sg_scatter buf sg stream) = take k buf.
Proof.
  induction sg as [|s sg IH]; intros buf stream k Hk Hb Hin; cbn [sg_scatter].
  - reflexivity.
  - inversion Hk; subst. inversion Hin; subst.
    rewrite IH.
    + apply memcpy_at_take_below; assumption.
    + assumption.
    + pose proof (memcpy_at_length_ge buf (sg_off s) (take (sg_len s) stream)). lia.
    + eapply Forall_impl; [eassumption|]. cbn. intros x Hx.
      pose proof (memcpy_at_length_ge buf (sg_off s) (take (sg_len s) stream)). lia.
Qed.

(** The buffer after a successful seal: header, packet id, tag, ciphertext. *)
Lemma scatter_seal te (A X T0 P0 Cn T iv : list Z) :
  length X = 8%nat -> length T0 = 16%nat -> length Cn = length P0 ->
  length T = 16%nat ->
  sg_scatter (A ++ X ++ T0 ++ P0) (req_sg (encrypt_req te A (length P0) iv))
    (X ++ Cn ++ T) = A ++ X ++ T ++ Cn.
Proof.
  intros HX HT0 HC HT. cbn [req_sg encrypt_req sg_scatter sg_off sg_len].
  rewrite take_app_length' by lia. rewrite drop_app_length' by lia.
  rewrite memcpy_at_same.
  rewrite take_app_length' by lia. rewrite drop_app_length' by lia.
  replace (A ++ X ++ T0 ++ P0) with ((A ++ X ++ T0) ++ P0 ++ [])
    by (rewrite <- !app_assoc, app_nil_r; reflexivity).
  rewrite memcpy_at_app by (rewrite ?length_app; lia).
  rewrite (take_ge T) by lia.
  replace ((A ++ X ++ T0) ++ Cn ++ []) with ((A ++ X) ++ T0 ++ Cn)
    by (rewrite <- !app_assoc, app_nil_r; reflexivity).
  rewrite memcpy_at_app by (rewrite ?length_app; lia).
  now rewrite <- app_assoc.
Qed.

(** The buffer after a successful open: the payload is the recovered text. *)
Lemma scatter_open td (A hdr idb T C pt iv : list Z) :
  length hdr = 4%nat -> length idb = 4%nat -> length T = 16%nat ->
  length pt = length C ->
  sg_scatter (A ++ hdr ++ idb ++ T ++ C)
    (req_sg (decrypt_req td A 4 (length C) iv)) ((hdr ++ idb) ++ pt)
  = A ++ hdr ++ idb ++ T ++ pt.
Proof.
  intros Hh Hi HT Hp. cbn [req_sg decrypt_req sg_scatter sg_off sg_len Nat.eqb].
  rewrite take_app_length' by (rewrite length_app; lia).
  rewrite drop_app_length' by (rewrite length_app; lia).
  replace (A ++ hdr ++ idb ++ T ++ C) with (A ++ (hdr ++ idb) ++ T ++ C)
    by (rewrite <- !app_assoc; reflexivity).
  rewrite memcpy_at_same.
  rewrite (take_ge pt) by lia. rewrite (drop_ge pt) by lia.
  rewrite take_nil.
  replace (A ++ (hdr ++ idb) ++ T ++ C) with ((A ++ hdr ++ idb ++ T) ++ C ++ [])
    by (rewrite <- !app_assoc, app_nil_r; reflexivity).
  rewrite memcpy_at_app by (rewrite ?length_app; lia).
  rewrite memcpy_at_nil. now rewrite <- !app_assoc, app_nil_r.
Qed.

(** Whatever the cipher writes, the bytes up to the end of the wire packet
    id stay as they were. *)
Lemma scatter_keeps_header td (A hdr idb T C out iv : list Z) opsize :
  length hdr = opsize -> opsize = 4%nat \/ opsize = 1%nat ->
  length idb = 4%nat -> length T = 16%nat ->
  take (length A + opsize + 4)
    (sg_scatter (A ++ hdr ++ idb ++ T ++ C)
       (req_sg (decrypt_req td A opsize (length C) iv))
       ((if (opsize =? 1)%nat then idb else hdr ++ idb) ++ out))
  = A ++ hdr ++ idb.
Proof.
  intros Hh Hop Hi HT.
  cbn [req_sg decrypt_req]. rewrite sg_scatter_cons.
  assert (E : memcpy_at (A ++ hdr ++ idb ++ T ++ C)
                (sg_off (if (opsize =? 1)%nat
                         then {| sg_off := length A + 1; sg_len := 4 |}
                         else {| sg_off := length A; sg_len := 8 |}))
                (take (sg_len (if (opsize =? 1)%nat
                               then {| sg_off := length A + 1; sg_len := 4 |}
                               else {| sg_off := length A; sg_len := 8 |}))
                   ((if (opsize =? 1)%nat then idb else hdr ++ idb) ++ out))
              = A ++ hdr ++ idb ++ T ++ C).
  { destruct Hop as [-> | ->]; cbn [Nat.eqb sg_off sg_len].
    - rewrite take_app_length' by (rewrite length_app; lia).
      replace (A ++ hdr ++ idb ++ T ++ C) with (A ++ (hdr ++ idb) ++ T ++ C)
        by (rewrite <- !app_assoc; reflexivity).
      apply memcpy_at_same.
    - rewrite take_app_length' by lia.
      replace (A ++ hdr ++ idb ++ T ++ C) with ((A ++ hdr) ++ idb ++ T ++ C)
        by (rewrite <- !app_assoc; reflexivity).
      replace (length A + 1)%nat with (length (A ++ hdr))
        by (rewrite length_app; lia).
      apply memcpy_at_same. }
  rewrite E. clear E.
  rewrite scatter_prefix.
  - replace (A ++ hdr ++ idb ++ T ++ C) with ((A ++ hdr ++ idb) ++ T ++ C)
      by (rewrite <- !app_assoc; reflexivity).
    apply take_app_length'. rewrite !length_app. lia.
  - repeat constructor; cbn [sg_off]; lia.
  - rewrite !length_app. lia.
  - repeat constructor; cbn [sg_off]; rewrite !length_app; lia.
Qed.

Lemma scatter_keeps_ad te (A X T0 P0 out iv : list Z) :
  length X = 8%nat -> length T0 = 16%nat ->
  take (length A + 8)
    (sg_scatter (A ++ X ++ T0 ++ P0) (req_sg (encrypt_req te A (length P0) iv))
       (X ++ out))
  = A ++ X.
Proof.
  intros HX HT0. cbn [req_sg encrypt_req]. rewrite sg_scatter_cons.
  cbn [sg_off sg_len].
  rewrite take_app_length' by lia. rewrite memcpy_at_same.
  rewrite scatter_prefix.
  - replace (A ++ X ++ T0 ++ P0) with ((A ++ X) ++ T0 ++ P0)
      by (rewrite <- !app_assoc; reflexivity).
    apply take_app_length'. rewrite !length_app. lia.
  - repeat constructor; cbn [sg_off]; lia.
  - rewrite !length_app. lia.
  - repeat constructor; cbn [sg_off]; rewrite !length_app; lia.
Qed.

(** ** Kernel memory *)

Lemma kalloc_some st a st' :
  kalloc st = (Some a, st') ->
  (a ∉ k_live st) /\ k_live st' = {[a]} ∪ k_live st.
Proof.
  unfold kalloc. destruct (k_allocs st) as [|[] rest]; intros [= <- <-]; cbn;
    (split; [apply is_fresh | reflexivity]).
Qed.

Lemma kalloc_none st st' : kalloc st = (None, st') -> k_live st' = k_live st.
Proof.
  unfold kalloc. destruct (k_allocs st) as [|[] rest]; intros [= <-]; reflexivity.
Qed.

Lemma kfree_fresh st st' a :
  a ∉ k_live st -> k_live st' = {[a]} ∪ k_live st ->
  k_live (kfree st' a) = k_live st.
Proof. intros Ha Hl. cbn. rewrite Hl. set_solver. Qed.

(** ** The sample cipher is sound *)

Lemma mask_text_involutive t t' iv text :
  tfm_key t' = tfm_key t -> mask_text t' iv (mask_text t iv text) = text.
Proof.
  intros Hk. unfold mask_text. rewrite Hk, map_map.
  rewrite <- (map_id text) at 2. apply map_ext. intros x.
  rewrite <- Z.lxor_assoc, Z.lxor_nilpotent. apply Z.lxor_0_l.
Qed.

Lemma mask_ops_sound : aead_sound mask_ops.
Proof.
  split.
  - intros t iv ad pt out. cbn. unfold mask_encrypt. intros [= <-].
    unfold mask_text, checksum_tag.
    rewrite length_app, length_map, repeat_length. reflexivity.
  - intros t t' iv ad pt out Ha Hk Hs. cbn. unfold mask_encrypt, mask_decrypt.
    intros [= <-].
    assert (Hn : (length (mask_text t iv pt ++ checksum_tag t iv ad (mask_text t iv pt))
                  - tfm_authsize t')%nat = length (mask_text t iv pt)).
    { unfold checksum_tag. rewrite length_app, repeat_length. lia. }
    rewrite Hn, take_app_length, drop_app_length.
    assert (Ht : checksum_tag t' iv ad (mask_text t iv pt)
                 = checksum_tag t iv ad (mask_text t iv pt)).
    { unfold checksum_tag. now rewrite Hk, Hs. }
    rewrite Ht, bool_decide_eq_true_2 by reflexivity.
    now rewrite mask_text_involutive.
Qed.

(** ** Key slots, the transform and the claims about them *)

Section Transform.
Context `{P : ovpn_params} `{O : crypto_aead_ops}.

(** A transform that [ovpn_aead_init] returns carries the key and a 16-byte
    tag size, and is the one new allocation. *)
Lemma aead_init_ok st name key t st' :
  ovpn_aead_init st name key = (inr t, st') ->
  tfm_alg t = name /\ tfm_key t = key /\ tfm_authsize t = 16%nat /\
  (tfm_addr t ∉ k_live st) /\ k_live st' = {[tfm_addr t]} ∪ k_live st.
Proof.
  unfold ovpn_aead_init, crypto_alloc_aead.
  destruct (kalloc st) as [[a|] st1] eqn:Hk; [|discriminate].
  destruct (negb (alg_setkey name key =? 0)); [discriminate|].
  destruct (negb (alg_setauthsize name 16 =? 0)); [discriminate|].
  destruct (negb (alg_ivsize name =? EXPECTED_IV_SIZE)%nat); [discriminate|].
  intros [= <- <-]. cbn. apply kalloc_some in Hk. tauto.
Qed.

(** A failed [ovpn_aead_init] leaves no allocation behind. *)
Lemma aead_init_err st name key e st' :
  ovpn_aead_init st name key = (inl e, st') -> k_live st' = k_live st.
Proof.
  unfold ovpn_aead_init, crypto_alloc_aead.
  destruct (kalloc st) as [[a|] st1] eqn:Hk.
  - apply kalloc_some in Hk as [Hf Hl].
    destruct (negb (alg_setkey name key =? 0));
      [intros [= _ <-]; cbn; eapply kfree_fresh; eauto|].
    destruct (negb (alg_setauthsize name 16 =? 0));
      [intros [= _ <-]; cbn; eapply kfree_fresh; eauto|].
    destruct (negb (alg_ivsize name =? EXPECTED_IV_SIZE)%nat);
      [intros [= _ <-]; cbn; eapply kfree_fresh; eauto|discriminate].
  - intros [= _ <-]. cbn. eauto using kalloc_none.
Qed.

(** What a successful creation establishes. *)
Lemma slot_init_ok st alg ek dk et dt kid ks st' :
  ovpn_aead_crypto_key_slot_init st alg ek dk et dt kid = (inr ks, st') ->
  alg = OVPN_CIPHER_ALG_AES_GCM /\
  exists te td,
    ks_encrypt ks = Some te /\ ks_decrypt ks = Some td /\
    tfm_alg te = "gcm(aes)"%string /\ tfm_alg td = "gcm(aes)"%string /\
    tfm_key te = ek /\ tfm_key td = dk /\
    tfm_authsize te = 16%nat /\ tfm_authsize td = 16%nat /\
    nonce_tail_xmit ks = et /\ nonce_tail_recv ks = dt /\
    length et = 8%nat /\ length dt = 8%nat /\
    pid_xmit ks = ovpn_pktid_xmit_init /\ pid_recv ks = ovpn_pktid_recv_init /\
    key_id ks = kid /\
    k_live st' = {[ks_addr ks]} ∪ ({[tfm_addr te]} ∪ ({[tfm_addr td]} ∪ k_live st)).
Proof.
  unfold ovpn_aead_crypto_key_slot_init.
  destruct alg; [|discriminate].
  destruct (kalloc st) as [[a|] st0] eqn:Hk; [|discriminate].
  destruct (ovpn_aead_init st0 _ ek) as [[e1|te] st1] eqn:He; [discriminate|].
  destruct (ovpn_aead_init st1 _ dk) as [[e2|td] st2] eqn:Hd; [discriminate|].
  destruct (Nat.eqb_spec NONCE_TAIL_SIZE (length et)) as [Het|]; [|discriminate].
  destruct (Nat.eqb_spec NONCE_TAIL_SIZE (length dt)) as [Hdt|]; [|discriminate].
  cbn [negb orb]. intros [= <- <-]. split; [reflexivity|].
  apply kalloc_some in Hk as [Hk1 Hk2].
  apply aead_init_ok in He as (? & ? & ? & ? & He5).
  apply aead_init_ok in Hd as (? & ? & ? & ? & Hd5).
  exists te, td. cbn.
  rewrite !take_ge by (unfold NONCE_TAIL_SIZE in *; lia).
  unfold NONCE_TAIL_SIZE in *.
  repeat (split; [first [reflexivity|assumption|lia]|]).
  rewrite Hd5, He5, Hk2. set_solver.
Qed.

(** A failed creation leaves no allocation behind. *)
Lemma slot_init_err st alg ek dk et dt kid e st' :
  ovpn_aead_crypto_key_slot_init st alg ek dk et dt kid = (inl e, st') ->
  k_live st' = k_live st.
Proof.
  unfold ovpn_aead_crypto_key_slot_init.
  destruct alg; [|intros [= _ <-]; reflexivity].
  destruct (kalloc st) as [[a|] st0] eqn:Hk;
    [|intros [= _ <-]; eauto using kalloc_none].
  apply kalloc_some in Hk as [Hk1 Hk2].
  destruct (ovpn_aead_init st0 _ ek) as [[e1|te] st1] eqn:He.
  { apply aead_init_err in He. intros [= _ <-]. cbn. rewrite He, Hk2. set_solver. }
  apply aead_init_ok in He as (_ & _ & _ & He4 & He5).
  destruct (ovpn_aead_init st1 _ dk) as [[e2|td] st2] eqn:Hd.
  { apply aead_init_err in Hd. intros [= _ <-]. cbn. rewrite Hd, He5, Hk2.
    rewrite Hk2 in He4. set_solver. }
  apply aead_init_ok in Hd as (_ & _ & _ & Hd4 & Hd5).
  destruct (negb _ || negb _); [|discriminate].
  intros [= _ <-]. cbn. rewrite Hd5, He5, Hk2.
  rewrite He5, Hk2 in Hd4. rewrite Hk2 in He4. set_solver.
Qed.

Lemma slot_created_inv ks :
  slot_created ks ->
  exists te td,
    ks_encrypt ks = Some te /\ ks_decrypt ks = Some td /\
    tfm_alg te = "gcm(aes)"%string /\ tfm_alg td = "gcm(aes)"%string /\
    tfm_authsize te = 16%nat /\ tfm_authsize td = 16%nat /\
    length (nonce_tail_xmit ks) = 8%nat /\ length (nonce_tail_recv ks) = 8%nat.
Proof.
  intros (st & alg & ek & dk & et & dt & kid & ks0 & st' & Hinit & Hsame).
  apply slot_init_ok in Hinit as (_ & te & td & H).
  destruct Hsame as (_ & -> & -> & -> & -> & _).
  exists te, td. intuition congruence.
Qed.

(** The three ways an encapsulation ends: before the packet-id guard, at the
    guard, or with a request submitted to the cipher; the request and the
    buffer it works on are spelled out. *)
Lemma encrypt_cases env ks skb r te :
  ks_encrypt ks = Some te -> tfm_authsize te = 16%nat ->
  length (nonce_tail_xmit ks) = 8%nat ->
  (skb_data skb <= length (skb_head skb))%nat ->
  ovpn_aead_encrypt env ks skb = Some r ->
  (x_trace r = [] /\ x_ks r = ks /\ x_ret r < 0)
  \/ (exists ret pktid pid,
        ovpn_pktid_xmit_next (pid_xmit ks) (env_stack_pktid env) = (ret, pktid, pid)
        /\ ret < 0 /\ ret <> -1 /\ x_ret r = ret
        /\ x_ks r = set_pid_xmit ks pid
        /\ x_trace r = [EvXmitNext ret pktid])
  \/ (exists A T0 ret pktid pid ret' out,
        let ad := htonl (ovpn_op32_compose OVPN_DATA_V2 (key_id ks) (remote_peer_id ks))
                    ++ htonl pktid in
        let iv := htonl pktid ++ nonce_tail_xmit ks in
        let req := encrypt_req te A (length (skb_bytes skb)) iv in
        ovpn_pktid_xmit_next (pid_xmit ks) (env_stack_pktid env) = (ret, pktid, pid)
        /\ (0 <= ret \/ ret = -1)
        /\ length T0 = 16%nat
        /\ alg_encrypt te iv ad (skb_bytes skb) = (ret', out)
        /\ x_ret r = ret'
        /\ x_ks r = set_pid_xmit ks pid
        /\ x_trace r = [EvXmitNext ret pktid; EvEncrypt req ad (skb_bytes skb) ret']
        /\ skb_data (x_skb r) = length A
        /\ skb_head (x_skb r)
           = sg_scatter (A ++ ad ++ T0 ++ skb_bytes skb) (req_sg req) (ad ++ out)).
Proof.
  intros Hte Hauth Htail Hskb. unfold ovpn_aead_encrypt, ovpn_aead_encap_overhead.
  rewrite Hte. unfold crypto_aead_authsize. rewrite Hauth.
  destruct (skb_cow_head env skb _) as [skb1|] eqn:Hcow.
  2:{ intros [= <-]. left. cbn. repeat split; first [assumption|reflexivity]. }
  destruct (cow_head_shape _ _ _ _ Hskb Hcow) as (hd & Hhd & Hd1 & Hlen).
  destruct (Z.ltb_spec (env_cow_data env) 0).
  { intros [= <-]. left. cbn. repeat split; first [assumption|reflexivity]. }
  destruct (Z.ltb_spec (MAX_SKB_FRAGS + 2) (env_cow_data env)).
  { intros [= <-]. left. cbn. repeat split; first [assumption|reflexivity]. }
  destruct (env_req_alloc_ok env); cbn [negb].
  2:{ intros [= <-]. left. cbn. repeat split; first [assumption|reflexivity]. }
  destruct (Z.ltb_spec (MAX_SKB_FRAGS + 2) (env_cow_data env + 2)) as [Hover|Hfit];
    [discriminate|].
  destruct (Z.eqb_spec (env_cow_data env) (env_sgvec env)); cbn [negb].
  2:{ intros [= <-]. left. cbn. repeat split; first [assumption|reflexivity]. }
  destruct (ovpn_pktid_xmit_next (pid_xmit ks) (env_stack_pktid env))
    as [[ret pktid] pid] eqn:Hnext.
  destruct ((ret <? 0) && negb (ret =? -1)) eqn:Hguard.
  { intros [= <-]. right. left. exists ret, pktid, pid. cbn.
    apply andb_true_iff in Hguard as [H1 H2].
    apply Z.ltb_lt in H1. apply negb_true_iff, Z.eqb_neq in H2.
    repeat split; assumption || reflexivity. }
  assert (Hret : 0 <= ret \/ ret = -1).
  { apply andb_false_iff in Hguard as [H1|H1].
    - apply Z.ltb_ge in H1. auto.
    - apply negb_false_iff, Z.eqb_eq in H1. auto. }
  clear Hguard.
  destruct (split_tail24 hd) as (A & J1 & J2 & T0 & HA & HJ1 & HJ2 & HT0).
  { unfold OVPN_OP_SIZE_V2 in Hlen. lia. }
  destruct skb1 as [h1 d1]. cbn in Hhd, Hd1. subst h1 d1 hd.
  set (P0 := skb_bytes skb).
  rewrite aead_write_full by (auto using random_iv_length).
  cbn [set_pid_xmit nonce_tail_xmit key_id remote_peer_id].
  unfold __skb_push, skb_store, skb_len. cbn [skb_head skb_data].
  rewrite take_app_length' by reflexivity.
  assert (HL : length (A ++ J1 ++ J2 ++ T0) = (length A + 24)%nat)
    by (rewrite !length_app; lia).
  rewrite HL.
  change NONCE_WIRE_SIZE with 4%nat. change OVPN_OP_SIZE_V2 with 4%nat.
  replace (length A + 24 - 16 - 4 - 4)%nat with (length A) by lia.
  replace (length A + 24 - 16 - 4)%nat with (length A + 4)%nat by lia.
  replace (length A + 24 - 16)%nat with (length A + 8)%nat by lia.
  replace (length ((A ++ J1 ++ J2 ++ T0) ++ P0) - (length A + 24))%nat
    with (length P0) by (rewrite !length_app; lia).
  set (opb := htonl (ovpn_op32_compose OVPN_DATA_V2 (key_id ks) (remote_peer_id ks))).
  assert (E1 : memcpy_at ((A ++ J1 ++ J2 ++ T0) ++ P0) (length A + 4) (htonl pktid)
               = A ++ J1 ++ htonl pktid ++ T0 ++ P0).
  { replace ((A ++ J1 ++ J2 ++ T0) ++ P0) with ((A ++ J1) ++ J2 ++ T0 ++ P0)
      by (rewrite <- !app_assoc; reflexivity).
    rewrite memcpy_at_app by (rewrite ?length_app, ?htonl_length; lia).
    now rewrite <- app_assoc. }
  rewrite E1.
  assert (E2 : memcpy_at (A ++ J1 ++ htonl pktid ++ T0 ++ P0) (length A) opb
               = A ++ opb ++ htonl pktid ++ T0 ++ P0).
  { apply memcpy_at_app; [reflexivity|]. subst opb. rewrite htonl_length. lia. }
  rewrite E2.
  replace (length (A ++ opb ++ htonl pktid ++ T0 ++ P0) - length A - (4 + 4 + 16))%nat
    with (length P0) by (rewrite !length_app; subst opb; rewrite !htonl_length; lia).
  unfold crypto_aead_encrypt, req_ad, req_text.
  cbn [req_sg req_assoclen req_cryptlen req_tfm req_iv].
  change (4 + 4)%nat with 8%nat.
  replace (A ++ opb ++ htonl pktid ++ T0 ++ P0)
    with (A ++ (opb ++ htonl pktid) ++ T0 ++ P0 ++ [])
    by (rewrite <- !app_assoc, app_nil_r; reflexivity).
  rewrite gather3 by (rewrite ?length_app; subst opb; rewrite ?htonl_length; auto).
  rewrite take_app_length' by reflexivity.
  rewrite drop_app_length' by reflexivity.
  rewrite take_app_length' by reflexivity.
  destruct (alg_encrypt te _ _ _) as [ret' out] eqn:Henc.
  intros [= <-]. right. right.
  exists A, T0, ret, pktid, pid, ret', out. cbn.
  rewrite app_nil_r in *. fold opb.
  repeat split; auto.
Qed.

(** The ways a decapsulation ends: before the cipher is involved, with the
    reason, or after a request whose fields are spelled out, by the cipher's
    refusal, the guard's refusal, or success. *)
Lemma decrypt_cases env ks skb op r td :
  ks_decrypt ks = Some td -> tfm_authsize td = 16%nat ->
  length (nonce_tail_recv ks) = 8%nat -> skb_wf skb ->
  ovpn_aead_decrypt env ks skb op = Some r ->
  (x_trace r = [] /\ x_ks r = ks /\ x_skb r = skb /\ x_ret r < 0 /\
   (~ env_serves env
    \/ (ovpn_opcode_extract op <> OVPN_DATA_V1 /\ ovpn_opcode_extract op <> OVPN_DATA_V2)
    \/ exists opsize, opsize_of (ovpn_opcode_extract op) opsize /\
         ~ (Z.of_nat (opsize + 20) <= Z.of_nat (skb_len skb)
            < Z.of_nat (opsize + 20) + 2 ^ 31)))
  \/ (exists opsize A hdr idb T C ret out,
        let ad := if (opsize =? 1)%nat then idb else hdr ++ idb in
        let iv := idb ++ nonce_tail_recv ks in
        let req := decrypt_req td A opsize (length C) iv in
        let buf := sg_scatter (skb_head skb) (req_sg req) (ad ++ out) in
        let ev := EvDecrypt req ad (C ++ T) ret in
        let id := ntohl (slice buf (skb_data skb + opsize) 4) in
        opsize_of (ovpn_opcode_extract op) opsize
        /\ skb_head skb = A ++ hdr ++ idb ++ T ++ C
        /\ length A = skb_data skb /\ length hdr = opsize
        /\ length idb = 4%nat /\ length T = 16%nat
        /\ Z.of_nat (length C) < 2 ^ 31
        /\ env_serves env
        /\ alg_decrypt td iv ad (C ++ T) = (ret, out)
        /\ (ret < 0 /\
            r = {| x_ret := ret;
                   x_skb := {| skb_head := buf; skb_data := skb_data skb |};
                   x_ks := ks; x_trace := [ev] |}
            \/ 0 <= ret /\ exists ret2 pr,
                 ovpn_pktid_recv (pid_recv ks) id 0 = (ret2, pr) /\
                 (ret2 < 0 /\
                  r = {| x_ret := ret2;
                         x_skb := {| skb_head := buf; skb_data := skb_data skb |};
                         x_ks := set_pid_recv ks pr;
                         x_trace := [ev; EvPktidRecv id ret2] |}
                  \/ 0 <= ret2 /\
                  r = {| x_ret := ret2;
                         x_skb := {| skb_head := buf;
                                     skb_data := skb_data skb + (opsize + 20) |};
                         x_ks := set_pid_recv ks pr;
                         x_trace := [ev; EvPktidRecv id ret2] |}))).
Proof.
  intros Htd Hauth Htail [Hd Hsz]. unfold ovpn_aead_decrypt.
  rewrite Htd. unfold crypto_aead_authsize. rewrite Hauth.
  set (opcode := ovpn_opcode_extract op).
  assert (Hopc : (opcode <> OVPN_DATA_V1 /\ opcode <> OVPN_DATA_V2 /\
                  (if opcode =? OVPN_DATA_V2 then Some OVPN_OP_SIZE_V2
                   else if opcode =? OVPN_DATA_V1 then Some OVPN_OP_SIZE_V1
                   else None) = None)
                 \/ exists opsize, opsize_of opcode opsize /\
                      (opcode =? OVPN_DATA_V1) = (opsize =? 1)%nat /\
                      (opcode =? OVPN_DATA_V2) = negb (opsize =? 1)%nat /\
                      (if opcode =? OVPN_DATA_V2 then Some OVPN_OP_SIZE_V2
                       else if opcode =? OVPN_DATA_V1 then Some OVPN_OP_SIZE_V1
                       else None) = Some opsize).
  { destruct (Z.eqb_spec opcode OVPN_DATA_V2) as [E|E].
    - right. exists OVPN_OP_SIZE_V2. rewrite E. unfold opsize_of. cbn. auto.
    - destruct (Z.eqb_spec opcode OVPN_DATA_V1) as [E1|E1].
      + right. exists OVPN_OP_SIZE_V1. unfold opsize_of. cbn. auto.
      + left. auto. }
  destruct Hopc as [(H1 & H2 & ->) | (opsize & Hops & Hv1 & Hv2 & ->)].
  { intros [= <-]. left. cbn. repeat split; auto. }
  rewrite Hv1, Hv2.
  assert (Hop : opsize = 4%nat \/ opsize = 1%nat).
  { destruct Hops as [[_ ->] | [_ ->]]; auto. }
  change NONCE_WIRE_SIZE with 4%nat.
  assert (Hoff : u32 (Z.of_nat (opsize + 4 + 16)) = Z.of_nat (opsize + 20)).
  { destruct Hop as [-> | ->]; reflexivity. }
  rewrite Hoff.
  set (len := Z.of_nat (skb_len skb)).
  assert (Hlen : 0 <= len < 2 ^ 32) by (unfold len, skb_len; lia).
  destruct (Z.ltb_spec (s32 (len - Z.of_nat (opsize + 20))) 0) as [Hneg|Hpos];
    cbn [orb].
  { intros [= <-]. left. cbn. repeat split; auto. right. right.
    exists opsize. split; [assumption|]. intros [Hlo Hhi].
    rewrite s32_small in Hneg; lia. }
  assert (Hlo : Z.of_nat (opsize + 20) <= len).
  { destruct (Z.le_gt_cases (Z.of_nat (opsize + 20)) len); [assumption|].
    exfalso. assert (s32 (len - Z.of_nat (opsize + 20)) < 0); [|lia].
    apply s32_neg. destruct Hop as [-> | ->]; lia. }
  destruct (s32_nonneg_inv (len - Z.of_nat (opsize + 20))) as [Hs Hhi];
    [lia | assumption |].
  rewrite Hs.
  unfold pskb_may_pull. fold len.
  replace (Z.of_nat (opsize + 20) <=? len) with true
    by (symmetry; apply Z.leb_le; assumption).
  cbn [andb].
  destruct (env_may_pull_ok env) eqn:Hpull; cbn [negb].
  2:{ intros [= <-]. left. cbn. repeat split; auto. left.
      intros (Hx & _). congruence. }
  destruct (Z.ltb_spec (env_cow_data env) 0).
  { intros [= <-]. left. cbn. repeat split; auto. left.
    intros (_ & Hx & _). lia. }
  destruct (Z.ltb_spec (MAX_SKB_FRAGS + 2) (env_cow_data env)).
  { intros [= <-]. left. cbn. repeat split; auto. left.
    intros (_ & Hx & _). lia. }
  destruct (env_req_alloc_ok env) eqn:Halloc; cbn [negb].
  2:{ intros [= <-]. left. cbn. repeat split; auto. left.
      intros (_ & _ & Hx & _). congruence. }
  destruct (Z.ltb_spec (MAX_SKB_FRAGS + 2) (env_cow_data env + 2)) as [Hover|Hfit];
    [discriminate|].
  destruct (Z.eqb_spec (env_cow_data env) (env_sgvec env)); cbn [negb].
  2:{ intros [= <-]. left. cbn. repeat split; auto. left.
      intros (_ & _ & _ & Hx). congruence. }
  assert (Hserves : env_serves env) by (unfold env_serves; auto with lia).
  destruct (split_head (skb_bytes skb) opsize) as (hdr & idb & T & C & Hb & Hh & Hi & HT).
  { unfold skb_bytes. rewrite length_drop. unfold len, skb_len in Hlo. lia. }
  set (A := take (skb_data skb) (skb_head skb)).
  assert (HA : length A = skb_data skb) by (unfold A; rewrite length_take; lia).
  assert (Hhead : skb_head skb = A ++ hdr ++ idb ++ T ++ C).
  { rewrite <- Hb. unfold A, skb_bytes. symmetry. apply take_drop. }
  assert (HC : Z.to_nat (len - Z.of_nat (opsize + 20)) = length C).
  { unfold len, skb_len. rewrite Hhead, !length_app. lia. }
  rewrite HC.
  assert (Hidb : slice (skb_head skb) (skb_data skb + opsize) 4 = idb).
  { rewrite Hhead.
    replace (A ++ hdr ++ idb ++ T ++ C) with ((A ++ hdr) ++ idb ++ T ++ C)
      by (rewrite <- !app_assoc; reflexivity).
    apply slice_app; [|assumption]. rewrite length_app. lia. }
  match goal with
  | |- context [crypto_aead_decrypt ?q _] =>
      assert (Hreq : q = decrypt_req td A opsize (length C)
                           (idb ++ nonce_tail_recv ks))
  end.
  { unfold decrypt_req. rewrite Hidb, Nat2Z.id, HA.
    change OVPN_OP_SIZE_V1 with 1%nat. change OVPN_OP_SIZE_V2 with 4%nat.
    f_equal.
    - destruct (opsize =? 1)%nat; reflexivity.
    - apply (recv_iv_full (env_stack_iv env) idb (nonce_tail_recv ks)); assumption. }
  rewrite Hreq. clear Hreq.
  unfold crypto_aead_decrypt, req_ad, req_text.
  assert (Hg : sg_gather (skb_head skb)
                 (req_sg (decrypt_req td A opsize (length C) (idb ++ nonce_tail_recv ks)))
               = (if (opsize =? 1)%nat then idb else hdr ++ idb) ++ C ++ T).
  { rewrite Hhead. apply gather_recv; assumption. }
  rewrite Hg. clear Hg.
  set (ad := if (opsize =? 1)%nat then idb else hdr ++ idb).
  assert (Had : length ad = req_assoclen (decrypt_req td A opsize (length C)
                                            (idb ++ nonce_tail_recv ks))).
  { unfold ad. cbn [req_assoclen decrypt_req].
    destruct Hop as [-> | ->]; cbn [Nat.eqb]; rewrite ?length_app; lia. }
  rewrite take_app_length' by (symmetry; exact Had).
  rewrite drop_app_length' by (symmetry; exact Had).
  assert (Hct : take (req_cryptlen (decrypt_req td A opsize (length C)
                                      (idb ++ nonce_tail_recv ks))) (C ++ T) = C ++ T).
  { apply take_ge. cbn [req_cryptlen decrypt_req]. rewrite length_app. lia. }
  rewrite Hct. clear Hct.
  cbn [req_tfm req_iv decrypt_req].
  destruct (alg_decrypt td _ _ _) as [ret out] eqn:Hdec.
  fold (decrypt_req td A opsize (length C) (idb ++ nonce_tail_recv ks)).
  set (req := decrypt_req td A opsize (length C) (idb ++ nonce_tail_recv ks)).
  set (buf := sg_scatter (skb_head skb) (req_sg req) (ad ++ out)).
  cbn [skb_head skb_data].
  intros Hr. right.
  exists opsize, A, hdr, idb, T, C, ret, out. cbv zeta.
  fold ad. fold req. fold buf.
  repeat (split; [first [assumption | lia]|]).
  destruct (Z.ltb_spec ret 0) as [Hn|Hn].
  { left. split; [assumption|]. congruence. }
  right. split; [assumption|].
  destruct (ovpn_pktid_recv (pid_recv ks) _ 0) as [ret2 pr] eqn:Hrecv.
  exists ret2, pr. split; [reflexivity|].
  destruct (Z.ltb_spec ret2 0) as [Hn2|Hn2].
  { left. split; [assumption|]. congruence. }
  right. split; [assumption|]. unfold __skb_pull in Hr. cbn [skb_head skb_data] in Hr.
  rewrite Nat2Z.id in Hr. congruence.
Qed.

(** The one request an encapsulation submits. *)
Lemma encrypt_request env ks skb r req ad text ret :
  slot_created ks -> skb_wf skb ->
  ovpn_aead_encrypt env ks skb = Some r ->
  In (EvEncrypt req ad text ret) (x_trace r) ->
  exists te A T0 ret0 pktid pid out,
    ks_encrypt ks = Some te /\
    ovpn_pktid_xmit_next (pid_xmit ks) (env_stack_pktid env) = (ret0, pktid, pid) /\
    length T0 = 16%nat /\
    req = encrypt_req te A (length (skb_bytes skb))
            (htonl pktid ++ nonce_tail_xmit ks) /\
    ad = htonl (ovpn_op32_compose OVPN_DATA_V2 (key_id ks) (remote_peer_id ks))
           ++ htonl pktid /\
    text = skb_bytes skb /\
    skb_data (x_skb r) = length A /\
    skb_head (x_skb r) = sg_scatter (A ++ ad ++ T0 ++ skb_bytes skb) (req_sg req)
                           (ad ++ out).
Proof.
  intros Hks [Hskb _] Henc Hin.
  destruct (slot_created_inv ks Hks)
    as (te & td & Hte & _ & _ & _ & Hauth & _ & Hxt & _).
  destruct (encrypt_cases env ks skb r te Hte Hauth Hxt Hskb Henc)
    as [(Htr & _) | [(ret0 & pktid & pid & _ & _ & _ & _ & _ & Htr)
       | (A & T0 & ret0 & pktid & pid & ret' & out & Hcase)]].
  - rewrite Htr in Hin. destruct Hin.
  - rewrite Htr in Hin. destruct Hin as [Hin | []]. discriminate.
  - cbv zeta in Hcase.
    destruct Hcase as (Hnext & _ & HT0 & _ & _ & _ & Htr & Hdata & Hhead).
    rewrite Htr in Hin. destruct Hin as [Hin | [Hin | []]]; [discriminate|].
    injection Hin as <- <- <- <-.
    exists te, A, T0, ret0, pktid, pid, out. repeat split; assumption.
Qed.

(** The one request a decapsulation submits. *)
Lemma decrypt_request env ks skb op r req ad text ret :
  slot_created ks -> skb_wf skb ->
  ovpn_aead_decrypt env ks skb op = Some r ->
  In (EvDecrypt req ad text ret) (x_trace r) ->
  exists td opsize A hdr idb T C,
    ks_decrypt ks = Some td /\
    opsize_of (ovpn_opcode_extract op) opsize /\
    skb_bytes skb = hdr ++ idb ++ T ++ C /\
    length A = skb_data skb /\ length hdr = opsize /\
    length idb = 4%nat /\ length T = 16%nat /\
    req = decrypt_req td A opsize (length C) (idb ++ nonce_tail_recv ks) /\
    ad = (if (opsize =? 1)%nat then idb else hdr ++ idb) /\
    text = C ++ T.
Proof.
  intros Hks Hwf Hdec Hin.
  destruct (slot_created_inv ks Hks)
    as (te & td & _ & Htd & _ & _ & _ & Hauth & _ & Hrt).
  destruct (decrypt_cases env ks skb op r td Htd Hauth Hrt Hwf Hdec)
    as [(Htr & _) | (opsize & A & hdr & idb & T & C & retd & out & Hrun)].
  { rewrite Htr in Hin. destruct Hin. }
  cbv zeta in Hrun.
  destruct Hrun as (Hops & Hhead & HA & Hh & Hi & HT & _ & _ & _ & Hfin).
  assert (Hb : skb_bytes skb = hdr ++ idb ++ T ++ C).
  { unfold skb_bytes. rewrite Hhead, <- HA. apply drop_app_length. }
  assert (Hev : EvDecrypt req ad text ret
                = EvDecrypt (decrypt_req td A opsize (length C)
                               (idb ++ nonce_tail_recv ks))
                    (if (opsize =? 1)%nat then idb else hdr ++ idb) (C ++ T) retd).
  { destruct Hfin as [[_ ->] | (_ & ret2 & pr & _ & [[_ ->] | [_ ->]])];
      cbn [x_trace] in Hin.
    - destruct Hin as [Hin | []]. now symmetry.
    - destruct Hin as [Hin | [Hin | []]]; [now symmetry | discriminate].
    - destruct Hin as [Hin | [Hin | []]]; [now symmetry | discriminate]. }
  injection Hev as -> -> -> ->.
  exists td, opsize, A, hdr, idb, T, C. repeat split; assumption.
Qed.

(** A window that has seen nothing yet accepts every packet id. *)
Lemma fresh_window_accepts pkt_id :
  0 < REPLAY_WINDOW_SIZE -> 0 <= pkt_id ->
  fst (ovpn_pktid_recv ovpn_pktid_recv_init pkt_id 0) = 0.
Proof.
  intros HW Hid. unfold ovpn_pktid_recv, ovpn_pktid_recv_init.
  cbn [highest_seen window].
  destruct (Z.ltb_spec 0 pkt_id); [reflexivity|].
  replace pkt_id with 0 by lia. cbn [Z.sub Z.opp Z.add].
  replace (0 <? REPLAY_WINDOW_SIZE) with true by (symmetry; apply Z.ltb_lt; lia).
  reflexivity.
Qed.

(** The id submitted to the packet-id guard is the wire packet id of the
    packet as it arrived, whatever the cipher wrote into the buffer. *)
Lemma guard_sees_wire_pktid env ks skb op r pkt_id ret :
  slot_created ks -> skb_wf skb ->
  ovpn_aead_decrypt env ks skb op = Some r ->
  In (EvPktidRecv pkt_id ret) (x_trace r) ->
  exists opsize,
    opsize_of (ovpn_opcode_extract op) opsize /\
    pkt_id = wire_pktid skb opsize.
Proof.
  intros Hks Hwf Hdec Hin.
  destruct (slot_created_inv ks Hks)
    as (te & td & _ & Htd & _ & _ & _ & Hauth & _ & Hrt).
  destruct (decrypt_cases env ks skb op r td Htd Hauth Hrt Hwf Hdec)
    as [(Htr & _) | (opsize & A & hdr & idb & T & C & retd & out & Hrun)].
  { rewrite Htr in Hin. destruct Hin. }
  cbv zeta in Hrun.
  destruct Hrun as (Hops & Hhead & HA & Hh & Hi & HT & _ & _ & _ & Hfin).
  assert (Hop : opsize = 4%nat \/ opsize = 1%nat).
  { destruct Hops as [[_ ->] | [_ ->]]; auto. }
  exists opsize. split; [assumption|].
  assert (Hid : ntohl (slice (sg_scatter (skb_head skb)
                                (req_sg (decrypt_req td A opsize (length C)
                                           (idb ++ nonce_tail_recv ks)))
                                ((if (opsize =? 1)%nat then idb else hdr ++ idb)
                                   ++ out))
                         (skb_data skb + opsize) 4)
                = wire_pktid skb opsize).
  { unfold wire_pktid, slice, skb_bytes. rewrite drop_drop. f_equal.
    rewrite !take_drop_commute. f_equal.
    replace (skb_data skb + opsize + 4)%nat with (length A + opsize + 4)%nat by lia.
    rewrite Hhead at 1.
    rewrite scatter_keeps_header by assumption.
    rewrite Hhead.
    replace (A ++ hdr ++ idb ++ T ++ C) with ((A ++ hdr ++ idb) ++ T ++ C)
      by (rewrite <- !app_assoc; reflexivity).
    symmetry. apply take_app_length'. rewrite !length_app. lia. }
  destruct Hfin as [[_ ->] | (_ & ret2 & pr & _ & [[_ ->] | [_ ->]])];
    cbn [x_trace] in Hin.
  - destruct Hin as [Hin | []]. discriminate.
  - destruct Hin as [Hin | [Hin | []]]; [discriminate|].
    injection Hin as <- _. exact Hid.
  - destruct Hin as [Hin | [Hin | []]]; [discriminate|].
    injection Hin as <- _. exact Hid.
Qed.

(** A receive call whose fragments fit the scatterlist returns. *)
Lemma decrypt_total env ks skb op td :
  ks_decrypt ks = Some td -> env_cow_data env <= MAX_SKB_FRAGS ->
  exists r, ovpn_aead_decrypt env ks skb op = Some r.
Proof.
  intros Htd Hfit. unfold ovpn_aead_decrypt. rewrite Htd.
  replace (MAX_SKB_FRAGS + 2 <? env_cow_data env + 2) with false
    by (symmetry; apply Z.ltb_ge; lia).
  repeat case_match; eauto.
Qed.

(** A transmit call whose fragments fit the scatterlist returns. *)
Lemma encrypt_total env ks skb te :
  ks_encrypt ks = Some te -> env_cow_data env <= MAX_SKB_FRAGS ->
  exists r, ovpn_aead_encrypt env ks skb = Some r.
Proof.
  intros Hte Hfit. unfold ovpn_aead_encrypt, ovpn_aead_encap_overhead. rewrite Hte.
  replace (MAX_SKB_FRAGS + 2 <? env_cow_data env + 2) with false
    by (symmetry; apply Z.ltb_ge; lia).
  repeat case_match; eauto.
Qed.

(** With the buffer services at hand a transmit call gets to the packet-id
    guard. *)
Lemma encrypt_reaches_guard env ks skb r :
  env_serves_xmit env ->
  ovpn_aead_encrypt env ks skb = Some r -> x_trace r <> [].
Proof.
  intros (Hexp & [Hlo Hhi] & Hreq & Hsg).
  unfold ovpn_aead_encrypt.
  destruct (ks_encrypt ks) as [te|]; [|discriminate].
  destruct (ovpn_aead_encap_overhead ks) as [hs|]; [|discriminate].
  unfold skb_cow_head. rewrite Hexp.
  replace (env_cow_data env <? 0) with false by (symmetry; apply Z.ltb_ge; lia).
  replace (MAX_SKB_FRAGS + 2 <? env_cow_data env) with false
    by (symmetry; apply Z.ltb_ge; lia).
  replace (MAX_SKB_FRAGS + 2 <? env_cow_data env + 2) with false
    by (symmetry; apply Z.ltb_ge; lia).
  rewrite Hreq, Hsg, Z.eqb_refl. cbn [negb].
  destruct (_ || _);
    destruct (ovpn_pktid_xmit_next _ _) as [[ret pktid] pid];
    destruct (_ && _); try (intros [= <-]; discriminate);
    destruct (crypto_aead_encrypt _ _); intros [= <-]; discriminate.
Qed.

(** C1, amended: a packet encapsulated under a created slot [ks] is handed
    back unchanged by decapsulation under a created slot [ks'] whose decrypt
    key and receive nonce tail are the encrypt key and transmit nonce tail
    of [ks] (the peer's slot, or [ks] itself when both directions were
    configured alike), provided the buffer stays below 2^31 bytes, the
    buffer services of the receive call succeed, the packet has at most
    [MAX_SKB_FRAGS] fragments, which is what the scatterlist of the call
    has room for, and the replay window of [ks'] accepts the packet id.  The
    cipher is any sound AEAD. *)
Theorem roundtrip_matching_slots :
  aead_sound O ->
  forall env env' ks ks' skb r te td,
    slot_created ks -> slot_created ks' ->
    ks_encrypt ks = Some te -> ks_decrypt ks' = Some td ->
    tfm_key td = tfm_key te ->
    nonce_tail_recv ks' = nonce_tail_xmit ks ->
    (skb_data skb <= length (skb_head skb))%nat ->
    ovpn_aead_encrypt env ks skb = Some r -> x_ret r = 0 ->
    Z.of_nat (length (skb_head (x_skb r))) < 2 ^ 31 ->
    env_serves env' ->
    fst (ovpn_pktid_recv (pid_recv ks') (wire_pktid (x_skb r) OVPN_OP_SIZE_V2) 0) = 0 ->
    exists r',
      ovpn_aead_decrypt env' ks' (x_skb r) (wire_op (x_skb r)) = Some r' /\
      x_ret r' = 0 /\ skb_bytes (x_skb r') = skb_bytes skb.
Proof.
  intros Hsound env env' ks ks' skb r te td Hks Hks' Hte Htd Hkey Htail Hskb
    Henc Hret Hsz Hserves Hreplay.
  destruct (slot_created_inv ks Hks)
    as (te0 & td0 & Hte0 & _ & Halg & _ & Hauth & _ & Hxt & _).
  rewrite Hte in Hte0. injection Hte0 as <-.
  destruct (slot_created_inv ks' Hks')
    as (te1 & td1 & _ & Htd1 & _ & Halg' & _ & Hauth' & _ & Hrt).
  rewrite Htd in Htd1. injection Htd1 as <-.
  destruct (encrypt_cases env ks skb r te Hte Hauth Hxt Hskb Henc)
    as [(_ & _ & Hneg) | [(ret & pktid & pid & _ & Hneg & _ & Hr & _)
       | (A & T0 & ret & pktid & pid & ret' & out & Hcase)]]; [lia | lia |].
  cbv zeta in Hcase.
  destruct Hcase as (Hnext & _ & HT0 & Hseal & Hr & _ & _ & Hdata & Hhead).
  rewrite Hret in Hr. subst ret'.
  set (P0 := skb_bytes skb) in *.
  set (opw := ovpn_op32_compose OVPN_DATA_V2 (key_id ks) (remote_peer_id ks)) in *.
  pose proof (seal_length O Hsound _ _ _ _ _ Hseal) as Hout. rewrite Hauth in Hout.
  set (Cn := take (length P0) out).
  set (T := drop (length P0) out).
  assert (HoutE : out = Cn ++ T) by (symmetry; apply take_drop).
  assert (HCn : length Cn = length P0) by (unfold Cn; rewrite length_take; lia).
  assert (HT : length T = 16%nat) by (unfold T; rewrite length_drop; lia).
  rewrite HoutE in Hhead.
  rewrite scatter_seal in Hhead by (rewrite ?length_app, ?htonl_length; auto).
  rewrite <- !app_assoc in Hhead.
  assert (Hbytes : skb_bytes (x_skb r) = htonl opw ++ htonl pktid ++ T ++ Cn).
  { unfold skb_bytes. now rewrite Hhead, Hdata, drop_app_length. }
  assert (Hop : wire_op (x_skb r) = opw).
  { unfold wire_op. rewrite Hbytes, take_app_length' by reflexivity.
    apply ntohl_htonl. unfold opw, ovpn_op32_compose, u32.
    apply Z.mod_pos_bound. lia. }
  assert (Hopcode : ovpn_opcode_extract (wire_op (x_skb r)) = OVPN_DATA_V2).
  { rewrite Hop. apply opcode_compose_v2. }
  assert (Hwf : skb_wf (x_skb r)).
  { split; [|lia]. rewrite Hdata, Hhead, length_app. lia. }
  destruct (decrypt_total env' ks' (x_skb r) (wire_op (x_skb r)) td Htd) as [r' Hdec];
    [destruct Hserves as (_ & [_ Hfit] & _); exact Hfit|].
  exists r'. split; [assumption|].
  destruct (decrypt_cases env' ks' (x_skb r) _ r' td Htd Hauth' Hrt Hwf Hdec)
    as [(_ & _ & _ & _ & Hwhy) | Hrun].
  { exfalso. destruct Hwhy as [Hwhy | [[_ Hwhy] | (opsize & Hops & Hwhy)]].
    - contradiction.
    - contradiction.
    - apply Hwhy. rewrite Hopcode in Hops.
      destruct Hops as [[_ ->] | [Hx _]]; [|discriminate].
      unfold skb_len. rewrite Hdata, Hhead, !length_app, !htonl_length, HT.
      unfold OVPN_OP_SIZE_V2. rewrite Hhead, !length_app in Hsz. lia. }
  destruct Hrun as (opsize & A' & hdr & idb & T' & C' & retd & out' & Hrun).
  cbv zeta in Hrun.
  destruct Hrun as (Hops & Hhead' & HA' & Hh & Hi & HT' & _ & _ & Hopen & Hfin).
  rewrite Hopcode in Hops.
  destruct Hops as [[_ ->] | [Hx _]]; [|discriminate].
  change OVPN_OP_SIZE_V2 with 4%nat in *.
  rewrite Hhead in Hhead'.
  apply app_inj_1 in Hhead' as [<- Hrest]; [|lia].
  apply app_inj_1 in Hrest as [<- Hrest]; [|rewrite htonl_length; lia].
  apply app_inj_1 in Hrest as [<- Hrest]; [|rewrite htonl_length; lia].
  apply app_inj_1 in Hrest as [<- <-]; [|lia].
  cbn [Nat.eqb] in Hopen, Hfin.
  rewrite Htail, <- HoutE in Hopen.
  assert (Hopen' : alg_decrypt td (htonl pktid ++ nonce_tail_xmit ks)
                     (htonl opw ++ htonl pktid) out = (0, P0)).
  { apply (open_seal O Hsound te td); auto; congruence. }
  rewrite Hopen' in Hopen. injection Hopen as <- <-.
  rewrite Hhead in Hfin.
  rewrite HCn in Hfin at 1.
  rewrite <- HCn in Hfin.
  rewrite scatter_open in Hfin by (rewrite ?htonl_length; auto).
  destruct Hfin as [[Hn _] | (_ & ret2 & pr & Hrecv & Hfin)]; [lia|].
  assert (Hid : ntohl (slice (A ++ htonl opw ++ htonl pktid ++ T ++ P0)
                         (skb_data (x_skb r) + 4) 4)
                = wire_pktid (x_skb r) 4).
  { unfold wire_pktid. rewrite Hbytes, Hdata. f_equal.
    replace (A ++ htonl opw ++ htonl pktid ++ T ++ P0)
      with ((A ++ htonl opw) ++ htonl pktid ++ T ++ P0)
      by (rewrite <- !app_assoc; reflexivity).
    rewrite slice_app by (rewrite ?length_app, ?htonl_length; reflexivity).
    symmetry. apply (slice_app (htonl opw) (htonl pktid) (T ++ Cn)); reflexivity. }
  rewrite Hid in Hrecv, Hfin. rewrite Hrecv in Hreplay. cbn in Hreplay. subst ret2.
  destruct Hfin as [[Hn _] | [_ ->]]; [lia|]. cbn [x_ret x_skb].
  split; [reflexivity|].
  unfold skb_bytes. cbn [skb_head skb_data]. rewrite Hdata.
  replace (A ++ htonl opw ++ htonl pktid ++ T ++ P0)
    with ((A ++ htonl opw ++ htonl pktid ++ T) ++ P0)
    by (rewrite <- !app_assoc; reflexivity).
  apply drop_app_length'. rewrite !length_app, !htonl_length, HT. lia.
Qed.

(** With the buffer services at hand, a packet-id guard that refuses with
    a code other than -1 ends the call: the code is returned, the guard's
    state is stored, the cipher is not called and the payload is still
    behind the room made for tag and packet id. *)
Lemma guard_refusal_ends_call env ks skb te c pktid pid :
  ks_encrypt ks = Some te ->
  (skb_data skb <= length (skb_head skb))%nat ->
  env_serves_xmit env ->
  ovpn_pktid_xmit_next (pid_xmit ks) (env_stack_pktid env) = (c, pktid, pid) ->
  c < 0 -> c <> -1 ->
  exists r,
    ovpn_aead_encrypt env ks skb = Some r /\ x_ret r = c /\
    x_trace r = [EvXmitNext c pktid] /\ x_ks r = set_pid_xmit ks pid /\
    drop (tfm_authsize te + 4) (skb_bytes (x_skb r)) = skb_bytes skb.
Proof.
  intros Hte Hskb (Hexp & [Hlo Hhi] & Hreq & Hsg) Hnext Hneg Hne.
  unfold ovpn_aead_encrypt, ovpn_aead_encap_overhead. rewrite Hte.
  destruct (skb_cow_head env skb _) as [skb1|] eqn:Hcow.
  2:{ unfold skb_cow_head in Hcow. rewrite Hexp in Hcow.
      destruct (_ || _); discriminate. }
  destruct (cow_head_shape _ _ _ _ Hskb Hcow) as (hd & Hhd & Hd1 & Hlen).
  replace (env_cow_data env <? 0) with false by (symmetry; apply Z.ltb_ge; lia).
  replace (MAX_SKB_FRAGS + 2 <? env_cow_data env) with false
    by (symmetry; apply Z.ltb_ge; lia).
  rewrite Hreq. cbn [negb].
  replace (MAX_SKB_FRAGS + 2 <? env_cow_data env + 2) with false
    by (symmetry; apply Z.ltb_ge; lia).
  rewrite Hsg, Z.eqb_refl. cbn [negb].
  rewrite Hnext.
  replace ((c <? 0) && negb (c =? -1)) with true.
  2:{ symmetry. apply andb_true_iff. split.
      - apply Z.ltb_lt; assumption.
      - apply negb_true_iff, Z.eqb_neq; assumption. }
  eexists. split; [reflexivity|]. cbn [x_ret x_trace x_ks x_skb].
  split; [reflexivity|]. split; [reflexivity|]. split; [reflexivity|].
  unfold skb_bytes, __skb_push, crypto_aead_authsize. cbn [skb_head skb_data].
  rewrite drop_drop, Hhd, Hd1.
  unfold crypto_aead_authsize, OVPN_OP_SIZE_V2 in Hlen.
  change NONCE_WIRE_SIZE with 4%nat.
  replace (length hd - tfm_authsize te - 4 + (tfm_authsize te + 4))%nat
    with (length hd) by lia.
  apply drop_app_length.
Qed.

(** The code -1 is the one refusal of the guard that does not end the call:
    with the buffer services at hand the cipher is called all the same. *)
Lemma guard_warning_goes_on env ks skb te pktid pid :
  ks_encrypt ks = Some te -> env_serves_xmit env ->
  ovpn_pktid_xmit_next (pid_xmit ks) (env_stack_pktid env) = (-1, pktid, pid) ->
  exists r req ad text ret,
    ovpn_aead_encrypt env ks skb = Some r /\ x_ret r = ret /\
    x_trace r = [EvXmitNext (-1) pktid; EvEncrypt req ad text ret] /\
    x_ks r = set_pid_xmit ks pid.
Proof.
  intros Hte (Hexp & [Hlo Hhi] & Hreq & Hsg) Hnext.
  unfold ovpn_aead_encrypt, ovpn_aead_encap_overhead. rewrite Hte.
  destruct (skb_cow_head env skb _) as [skb1|] eqn:Hcow.
  2:{ unfold skb_cow_head in Hcow. rewrite Hexp in Hcow.
      destruct (_ || _); discriminate. }
  replace (env_cow_data env <? 0) with false by (symmetry; apply Z.ltb_ge; lia).
  replace (MAX_SKB_FRAGS + 2 <? env_cow_data env) with false
    by (symmetry; apply Z.ltb_ge; lia).
  rewrite Hreq. cbn [negb].
  replace (MAX_SKB_FRAGS + 2 <? env_cow_data env + 2) with false
    by (symmetry; apply Z.ltb_ge; lia).
  rewrite Hsg, Z.eqb_refl. cbn [negb].
  rewrite Hnext.
  change ((-1 <? 0) && negb (-1 =? -1)) with false. cbv iota.
  destruct (crypto_aead_encrypt _ _) as [ret buf].
  eexists _, _, _, _, ret. split; [reflexivity|].
  split; [reflexivity|]. split; reflexivity.
Qed.

(** On a slot whose counter would wrap, a call that returns has failed
    without calling the cipher and has left the slot alone. *)
Lemma exhausted_call env ks skb r :
  E_PKTID_EXHAUSTED < 0 -> E_PKTID_EXHAUSTED <> -1 ->
  pktid_would_wrap (pid_xmit ks) = true ->
  ovpn_aead_encrypt env ks skb = Some r ->
  x_ret r < 0 /\
  forallb (fun e => negb (is_encrypt_event e)) (x_trace r) = true /\
  x_ks r = ks.
Proof.
  intros Hneg Hne Hwrap. unfold ovpn_aead_encrypt.
  destruct (ks_encrypt ks) as [te|]; [|discriminate].
  destruct (ovpn_aead_encap_overhead ks) as [hs|]; [|discriminate].
  destruct (skb_cow_head env skb _) as [skb1|].
  2:{ intros [= <-]. cbn. repeat split. }
  destruct (Z.ltb_spec (env_cow_data env) 0).
  { intros [= <-]. cbn. repeat split. assumption. }
  destruct (MAX_SKB_FRAGS + 2 <? env_cow_data env).
  { intros [= <-]. cbn. repeat split. }
  destruct (negb (env_req_alloc_ok env)).
  { intros [= <-]. cbn. repeat split. }
  destruct (MAX_SKB_FRAGS + 2 <? env_cow_data env + 2); [discriminate|].
  destruct (negb (env_cow_data env =? env_sgvec env)).
  { intros [= <-]. cbn. repeat split. }
  unfold ovpn_pktid_xmit_next. rewrite Hwrap.
  replace ((E_PKTID_EXHAUSTED <? 0) && negb (E_PKTID_EXHAUSTED =? -1)) with true.
  - intros [= <-]. cbn. repeat split; [assumption|]. destruct ks; reflexivity.
  - symmetry. apply andb_true_iff. split.
    + apply Z.ltb_lt; assumption.
    + apply negb_true_iff, Z.eqb_neq; assumption.
Qed.

(** A call moves the transmit counter by zero or one. *)
Lemma xmit_counter_step env ks skb r :
  ovpn_aead_encrypt env ks skb = Some r ->
  seq_num (pid_xmit ks) <= seq_num (pid_xmit (x_ks r)) <= seq_num (pid_xmit ks) + 1.
Proof.
  unfold ovpn_aead_encrypt.
  destruct (ks_encrypt ks) as [te|]; [|discriminate].
  destruct (ovpn_aead_encap_overhead ks) as [hs|]; [|discriminate].
  destruct (skb_cow_head env skb _) as [skb1|]; [|intros [= <-]; cbn; lia].
  destruct (env_cow_data env <? 0); [intros [= <-]; cbn; lia|].
  destruct (MAX_SKB_FRAGS + 2 <? env_cow_data env); [intros [= <-]; cbn; lia|].
  destruct (negb (env_req_alloc_ok env)); [intros [= <-]; cbn; lia|].
  destruct (MAX_SKB_FRAGS + 2 <? env_cow_data env + 2); [discriminate|].
  destruct (negb (env_cow_data env =? env_sgvec env)); [intros [= <-]; cbn; lia|].
  unfold ovpn_pktid_xmit_next.
  destruct (pktid_would_wrap (pid_xmit ks)).
  - destruct ((E_PKTID_EXHAUSTED <? 0) && negb (E_PKTID_EXHAUSTED =? -1)).
    + intros [= <-]; cbn; lia.
    + destruct (crypto_aead_encrypt _ _). intros [= <-]; cbn; lia.
  - destruct ((0 <? 0) && negb (0 =? -1)).
    + intros [= <-]; cbn; lia.
    + destruct (crypto_aead_encrypt _ _). intros [= <-]; cbn; lia.
Qed.

(** C2: [ovpn_aead_encrypt] treats every refusal of the packet-id guard
    but the code -1 as final for the call: with the buffer services at hand
    the guard is reached, its code is what the call returns, nothing is
    submitted to the cipher, the payload is not touched and the slot holds
    the state the guard left; after the code -1 the cipher is called all the
    same.  With the guard of the specification, which refuses with
    PacketIdExhausted and leaves the counter once the id would wrap, and
    PacketIdExhausted a negative code other than -1: on a slot whose counter
    would wrap every call of any series with the buffer services at hand
    returns PacketIdExhausted after the guard call alone and leaves the
    counter where it is, the first call included; whatever the buffer
    services do, a call that returns has failed, has not called the cipher
    and has left the slot as it was.  On any slot a call moves the counter
    forward by at most one and never backwards. *)
Theorem pktid_exhaustion_is_final :
  (forall env ks skb te c pktid pid,
      ks_encrypt ks = Some te ->
      (skb_data skb <= length (skb_head skb))%nat ->
      env_serves_xmit env ->
      ovpn_pktid_xmit_next (pid_xmit ks) (env_stack_pktid env) = (c, pktid, pid) ->
      c < 0 ->
      (c <> -1 ->
       exists r,
         ovpn_aead_encrypt env ks skb = Some r /\ x_ret r = c /\
         x_trace r = [EvXmitNext c pktid] /\ x_ks r = set_pid_xmit ks pid /\
         drop (tfm_authsize te + 4) (skb_bytes (x_skb r)) = skb_bytes skb)
      /\ (c = -1 ->
          exists r req ad text ret,
            ovpn_aead_encrypt env ks skb = Some r /\ x_ret r = ret /\
            x_trace r = [EvXmitNext c pktid; EvEncrypt req ad text ret] /\
            x_ks r = set_pid_xmit ks pid))
  /\ (E_PKTID_EXHAUSTED < 0 -> E_PKTID_EXHAUSTED <> -1 ->
      forall ks te,
        ks_encrypt ks = Some te ->
        pktid_would_wrap (pid_xmit ks) = true ->
        (forall calls,
            Forall (fun call =>
                      env_serves_xmit (fst call) /\
                      (skb_data (snd call) <= length (skb_head (snd call)))%nat)
                   calls ->
            exists rs,
              encrypt_run ks calls = Some rs /\ length rs = length calls /\
              Forall (fun r =>
                        x_ret r = E_PKTID_EXHAUSTED /\
                        (exists p, x_trace r = [EvXmitNext E_PKTID_EXHAUSTED p]) /\
                        pid_xmit (x_ks r) = pid_xmit ks) rs)
        /\ (forall env skb r,
               ovpn_aead_encrypt env ks skb = Some r ->
               x_ret r < 0 /\
               forallb (fun e => negb (is_encrypt_event e)) (x_trace r) = true /\
               x_ks r = ks))
  /\ (forall env ks skb r,
         ovpn_aead_encrypt env ks skb = Some r ->
         seq_num (pid_xmit ks) <= seq_num (pid_xmit (x_ks r))
         <= seq_num (pid_xmit ks) + 1).
Proof.
  split; [|split; [|apply xmit_counter_step]].
  - intros env ks skb te c pktid pid Hte Hskb Hserves Hnext Hneg. split.
    + intros Hne. eapply guard_refusal_ends_call; eassumption.
    + intros ->. eapply guard_warning_goes_on; eassumption.
  - intros Hneg Hne ks te Hte Hwrap. split.
    + intros calls Hcalls.
      induction Hcalls as [|[env skb] rest [Hserves Hskb] _ IH];
        cbn [encrypt_run].
      * exists []. repeat split. constructor.
      * cbn [fst snd] in Hserves, Hskb.
        assert (Hnext : ovpn_pktid_xmit_next (pid_xmit ks) (env_stack_pktid env)
                        = (E_PKTID_EXHAUSTED, env_stack_pktid env, pid_xmit ks)).
        { unfold ovpn_pktid_xmit_next. now rewrite Hwrap. }
        destruct (guard_refusal_ends_call env ks skb te _ _ _ Hte Hskb Hserves
                    Hnext Hneg Hne) as (r & Hr & Hret & Htr & Hks & _).
        assert (Hsame : x_ks r = ks) by (rewrite Hks; destruct ks; reflexivity).
        rewrite Hr, Hsame. destruct IH as (rs & -> & Hlen & Hall).
        exists (r :: rs). split; [reflexivity|]. split; [cbn; now rewrite Hlen|].
        constructor; [|assumption].
        split; [assumption|]. split; [eauto|]. now rewrite Hsame.
    + intros env skb r Henc. eapply exhausted_call; eassumption.
Qed.

(** C3, amended: the associated data are the eight bytes in front of tag
    and ciphertext for DATA_V2 (the op word and the wire packet id), on
    encapsulation, which always writes DATA_V2, and on decapsulation alike;
    for DATA_V1 they are the four bytes of the wire packet id alone, the op
    byte in front of them is not authenticated. *)
Theorem aad_covers_header_and_pktid env ks skb :
  slot_created ks -> skb_wf skb ->
  (forall r req ad text ret,
      ovpn_aead_encrypt env ks skb = Some r ->
      In (EvEncrypt req ad text ret) (x_trace r) ->
      req_assoclen req = 8%nat /\
      head (req_sg req) = Some {| sg_off := skb_data (x_skb r); sg_len := 8 |} /\
      req_ad req (skb_head (x_skb r)) = ad /\
      ad = take 8 (skb_bytes (x_skb r)) /\
      exists pktid,
        ad = htonl (ovpn_op32_compose OVPN_DATA_V2 (key_id ks) (remote_peer_id ks))
               ++ htonl pktid)
  /\
  (forall op r req ad text ret,
      ovpn_aead_decrypt env ks skb op = Some r ->
      In (EvDecrypt req ad text ret) (x_trace r) ->
      (ovpn_opcode_extract op = OVPN_DATA_V2 /\
       req_assoclen req = 8%nat /\
       head (req_sg req) = Some {| sg_off := skb_data skb; sg_len := 8 |} /\
       ad = take 8 (skb_bytes skb))
      \/
      (ovpn_opcode_extract op = OVPN_DATA_V1 /\
       req_assoclen req = 4%nat /\
       head (req_sg req) = Some {| sg_off := skb_data skb + 1; sg_len := 4 |} /\
       ad = slice (skb_bytes skb) 1 4)).
Proof.
  intros Hks Hwf. split.
  - intros r req ad text ret Henc Hin.
    destruct (encrypt_request env ks skb r req ad text ret Hks Hwf Henc Hin)
      as (te & A & T0 & ret0 & pktid & pid & out & _ & _ & HT0 & -> & Had & _ & Hdata & Hhead).
    assert (Hl : length ad = 8%nat) by (rewrite Had, length_app, !htonl_length; lia).
    assert (Hkeep : take (length A + 8) (skb_head (x_skb r)) = A ++ ad).
    { rewrite Hhead. apply scatter_keeps_ad; assumption. }
    assert (Htk : take 8 (skb_bytes (x_skb r)) = ad).
    { unfold skb_bytes. rewrite Hdata, take_drop_commute, Hkeep.
      apply drop_app_length. }
    repeat split.
    + cbn. now rewrite Hdata.
    + unfold req_ad. cbn [req_assoclen encrypt_req req_sg sg_gather flat_map].
      cbn [sg_off sg_len].
      pose proof (f_equal length Hkeep) as Hk.
      rewrite length_take, length_app in Hk.
      rewrite take_app_le by (unfold slice; rewrite length_take, length_drop; lia).
      unfold slice. rewrite take_take.
      rewrite take_drop_commute. replace (8 `min` 8)%nat with 8%nat by lia.
      rewrite Hkeep. apply drop_app_length.
    + now symmetry.
    + exists pktid. assumption.
  - intros op r req ad text ret Hdec Hin.
    destruct (decrypt_request env ks skb op r req ad text ret Hks Hwf Hdec Hin)
      as (td & opsize & A & hdr & idb & T & C & _ & Hops & Hb & HA & Hh & Hi & HT
          & -> & -> & _).
    destruct Hops as [[Hv ->] | [Hv ->]]; [left | right];
      (split; [assumption|]);
      change OVPN_OP_SIZE_V2 with 4%nat in *; change OVPN_OP_SIZE_V1 with 1%nat in *;
      cbn [decrypt_req req_assoclen req_sg head Nat.eqb];
      rewrite Hb, HA.
    + repeat split.
      rewrite app_assoc. symmetry. apply take_app_length'.
      rewrite length_app. lia.
    + repeat split. symmetry. apply slice_app; assumption.
Qed.

(** C4: with the buffer services at hand and a code from the packet-id
    guard that lets the call go on (0 or more, or -1), [ovpn_aead_encrypt]
    submits a request to the cipher, and the nonce of every request it
    submits is the four bytes, most significant first, of the word the guard
    call leaves in [pktid], the id it handed out, which are also the wire
    packet id, followed by the transmit nonce tail: twelve bytes, none of
    which comes from [get_random_bytes].  With the buffer services at hand,
    [ovpn_aead_decrypt] submits a request for every DATA_V1 or
    DATA_V2 packet long enough for header, packet id and tag, and the nonce
    of every request it submits is the wire packet id found behind the
    header followed by the receive nonce tail. *)
Theorem nonce_is_pktid_and_tail env ks skb :
  slot_created ks -> skb_wf skb ->
  (forall r req ad text ret,
      ovpn_aead_encrypt env ks skb = Some r ->
      In (EvEncrypt req ad text ret) (x_trace r) ->
      exists ret0 pktid pid,
        ovpn_pktid_xmit_next (pid_xmit ks) (env_stack_pktid env) = (ret0, pktid, pid) /\
        (0 <= ret0 \/ ret0 = -1) /\
        req_iv req = htonl pktid ++ nonce_tail_xmit ks /\
        length (req_iv req) = 12%nat /\
        take 4 (req_iv req) = slice (skb_bytes (x_skb r)) 4 4)
  /\
  (env_serves_xmit env ->
   forall ret0 pktid pid,
     ovpn_pktid_xmit_next (pid_xmit ks) (env_stack_pktid env) = (ret0, pktid, pid) ->
     0 <= ret0 \/ ret0 = -1 ->
     exists r req ad text ret,
       ovpn_aead_encrypt env ks skb = Some r /\
       x_trace r = [EvXmitNext ret0 pktid; EvEncrypt req ad text ret] /\
       req_iv req = htonl pktid ++ nonce_tail_xmit ks)
  /\
  (forall rnd r r' req ad text ret req' ad' text' ret',
      ovpn_aead_encrypt env ks skb = Some r ->
      ovpn_aead_encrypt (with_random env rnd) ks skb = Some r' ->
      In (EvEncrypt req ad text ret) (x_trace r) ->
      In (EvEncrypt req' ad' text' ret') (x_trace r') ->
      req_iv req' = req_iv req)
  /\
  (forall op r req ad text ret,
      ovpn_aead_decrypt env ks skb op = Some r ->
      In (EvDecrypt req ad text ret) (x_trace r) ->
      exists opsize,
        opsize_of (ovpn_opcode_extract op) opsize /\
        req_iv req = slice (skb_bytes skb) opsize 4 ++ nonce_tail_recv ks /\
        length (req_iv req) = 12%nat)
  /\
  (env_serves env ->
   forall op opsize,
     opsize_of (ovpn_opcode_extract op) opsize ->
     Z.of_nat (opsize + 20) <= Z.of_nat (skb_len skb)
     < Z.of_nat (opsize + 20) + 2 ^ 31 ->
     exists r req ad text ret,
       ovpn_aead_decrypt env ks skb op = Some r /\
       In (EvDecrypt req ad text ret) (x_trace r) /\
       req_iv req = slice (skb_bytes skb) opsize 4 ++ nonce_tail_recv ks).
Proof.
  intros Hks Hwf.
  destruct (slot_created_inv ks Hks)
    as (te & td & Hte & Htd & _ & _ & Hauth & Hauth' & Hxt & Hrt).
  split; [|split; [|split; [|split]]].
  - intros r req ad text ret Henc Hin.
    destruct (encrypt_request env ks skb r req ad text ret Hks Hwf Henc Hin)
      as (te' & A & T0 & ret0 & pktid & pid & out & _ & Hnext & HT0 & -> & Had & _
          & Hdata & Hhead).
    assert (Hcode : 0 <= ret0 \/ ret0 = -1).
    { destruct Hwf as [Hskb _].
      destruct (encrypt_cases env ks skb r te Hte Hauth Hxt Hskb Henc)
        as [(Htr & _) | [(c & p & q & _ & _ & _ & _ & _ & Htr)
           | (A' & T' & c & p & q & ret' & out' & Hcase)]].
      - rewrite Htr in Hin. destruct Hin.
      - rewrite Htr in Hin. destruct Hin as [Hin | []]. discriminate.
      - cbv zeta in Hcase. destruct Hcase as (Hnext' & Hc & _).
        rewrite Hnext in Hnext'. injection Hnext' as -> _ _. exact Hc. }
    exists ret0, pktid, pid. cbn [req_iv encrypt_req].
    repeat split; try assumption.
    + rewrite length_app, htonl_length. lia.
    + rewrite take_app_length' by reflexivity.
      assert (Hl : length ad = 8%nat) by (rewrite Had, length_app, !htonl_length; lia).
      assert (Hkeep : take (length A + 8) (skb_head (x_skb r)) = A ++ ad).
      { rewrite Hhead. apply scatter_keeps_ad; assumption. }
      unfold slice, skb_bytes. rewrite Hdata, drop_drop.
      rewrite take_drop_commute.
      replace (length A + 4 + 4)%nat with (length A + 8)%nat by lia.
      rewrite Hkeep, Had.
      replace (A ++ htonl _ ++ htonl pktid)
        with ((A ++ htonl (ovpn_op32_compose OVPN_DATA_V2 (key_id ks)
                             (remote_peer_id ks))) ++ htonl pktid)
        by (rewrite <- !app_assoc; reflexivity).
      symmetry. apply drop_app_length'. rewrite length_app, htonl_length. lia.
  - intros Hserves ret0 pktid pid Hnext Hcode.
    destruct Hwf as [Hskb _].
    destruct (encrypt_total env ks skb te Hte) as [r Henc];
      [destruct Hserves as (_ & [_ Hfit] & _); exact Hfit|].
    pose proof (encrypt_reaches_guard env ks skb r Hserves Henc) as Hne.
    destruct (encrypt_cases env ks skb r te Hte Hauth Hxt Hskb Henc)
      as [(Htr & _) | [(c & p & q & Hnext' & Hneg & Hnm & _)
         | (A & T0 & c & p & q & ret' & out & Hcase)]].
    + contradiction.
    + rewrite Hnext in Hnext'. injection Hnext' as <- _ _. lia.
    + cbv zeta in Hcase. destruct Hcase as (Hnext' & _ & _ & _ & _ & _ & Htr & _).
      rewrite Hnext in Hnext'. injection Hnext' as <- <- <-.
      eexists r, _, _, _, _. split; [exact Henc|]. split; [exact Htr|]. reflexivity.
  - intros rnd r r' req ad text ret req' ad' text' ret' Henc Henc' Hin Hin'.
    destruct (encrypt_request env ks skb r req ad text ret Hks Hwf Henc Hin)
      as (te1 & A1 & T1 & ret1 & pktid1 & pid1 & out1 & _ & Hnext1 & _ & -> & _).
    destruct (encrypt_request (with_random env rnd) ks skb r' req' ad' text' ret'
                Hks Hwf Henc' Hin')
      as (te2 & A2 & T2 & ret2 & pktid2 & pid2 & out2 & _ & Hnext2 & _ & -> & _).
    cbn [with_random env_stack_pktid] in Hnext2.
    rewrite Hnext1 in Hnext2. injection Hnext2 as _ <- _. reflexivity.
  - intros op r req ad text ret Hdec Hin.
    destruct (decrypt_request env ks skb op r req ad text ret Hks Hwf Hdec Hin)
      as (td' & opsize & A & hdr & idb & T & C & _ & Hops & Hb & HA & Hh & Hi & HT
          & -> & _ & _).
    exists opsize. cbn [req_iv decrypt_req]. repeat split; try assumption.
    + f_equal. rewrite Hb. symmetry. apply slice_app; assumption.
    + rewrite length_app. lia.
  - intros Hserves op opsize Hops Hlen.
    destruct (decrypt_total env ks skb op td Htd) as [r Hdec];
      [destruct Hserves as (_ & [_ Hfit] & _); exact Hfit|].
    assert (Huniq : forall opsize',
               opsize_of (ovpn_opcode_extract op) opsize' -> opsize' = opsize).
    { intros opsize' Hops'.
      destruct Hops as [[Hx ->] | [Hx ->]], Hops' as [[Hy ->] | [Hy ->]];
        try reflexivity; rewrite Hx in Hy; discriminate. }
    destruct (decrypt_cases env ks skb op r td Htd Hauth' Hrt Hwf Hdec)
      as [(_ & _ & _ & _ & Hwhy) | Hrun].
    { exfalso. destruct Hwhy as [Hwhy | [[H1 H2] | (opsize' & Hops' & Hwhy)]].
      - contradiction.
      - destruct Hops as [[Hx _] | [Hx _]]; contradiction.
      - apply Hwhy. rewrite (Huniq opsize' Hops'). exact Hlen. }
    destruct Hrun as (opsize' & A & hdr & idb & T & C & retd & out & Hrun).
    cbv zeta in Hrun.
    destruct Hrun as (Hops' & Hhead & HA & Hh & Hi & HT & _ & _ & _ & Hfin).
    pose proof (Huniq opsize' Hops') as Heq. rewrite Heq in *. clear Heq.
    assert (Hb : skb_bytes skb = hdr ++ idb ++ T ++ C).
    { unfold skb_bytes. rewrite Hhead, <- HA. apply drop_app_length. }
    eexists r, _, _, _, retd. split; [exact Hdec|]. split.
    + destruct Hfin as [[_ ->] | (_ & ret2 & pr & _ & [[_ ->] | [_ ->]])];
        cbn [x_trace]; left; reflexivity.
    + cbn [req_iv decrypt_req]. f_equal. rewrite Hb. symmetry.
      apply slice_app; assumption.
Qed.

Lemma crypto_aead_decrypt_ret req buf :
  fst (crypto_aead_decrypt req buf)
  = fst (alg_decrypt (req_tfm req) (req_iv req) (req_ad req buf) (req_text req buf)).
Proof. unfold crypto_aead_decrypt. now destruct (alg_decrypt _ _ _ _). Qed.

(** C5: in every decapsulation the packet-id guard is called only after
    the cipher has accepted the packet.  When the cipher reports a failure
    the call returns the cipher's code, the key slot with its replay state
    is exactly as before, the data pointer has not moved to the payload, and
    the cipher call is the only thing that happened.  A call that never
    reaches the guard leaves the replay state untouched. *)
Theorem replay_state_after_authentication env ks skb op r :
  ovpn_aead_decrypt env ks skb op = Some r ->
  (forall req ad text ret,
      In (EvDecrypt req ad text ret) (x_trace r) ->
      ret = fst (alg_decrypt (req_tfm req) (req_iv req) ad text) /\
      (ret < 0 ->
       x_ret r = ret /\ x_ks r = ks /\ skb_data (x_skb r) = skb_data skb /\
       x_trace r = [EvDecrypt req ad text ret]))
  /\ (forall id ret2,
         In (EvPktidRecv id ret2) (x_trace r) ->
         exists req ad text ret,
           x_trace r = [EvDecrypt req ad text ret; EvPktidRecv id ret2] /\
           0 <= ret /\
           ret = fst (alg_decrypt (req_tfm req) (req_iv req) ad text))
  /\ (forallb (fun e => negb (is_recv_event e)) (x_trace r) = true ->
      pid_recv (x_ks r) = pid_recv ks).
Proof.
  unfold ovpn_aead_decrypt.
  destruct (ks_decrypt ks) as [td|]; [|discriminate].
  set (early := fun ret : Z =>
         Some {| x_ret := ret; x_skb := skb; x_ks := ks; x_trace := [] |}).
  assert (Hearly : forall ret, early ret = Some r ->
            (forall req ad text ret,
                In (EvDecrypt req ad text ret) (x_trace r) ->
                ret = fst (alg_decrypt (req_tfm req) (req_iv req) ad text) /\
                (ret < 0 ->
                 x_ret r = ret /\ x_ks r = ks /\ skb_data (x_skb r) = skb_data skb /\
                 x_trace r = [EvDecrypt req ad text ret]))
            /\ (forall id ret2,
                   In (EvPktidRecv id ret2) (x_trace r) ->
                   exists req ad text ret,
                     x_trace r = [EvDecrypt req ad text ret; EvPktidRecv id ret2] /\
                     0 <= ret /\
                     ret = fst (alg_decrypt (req_tfm req) (req_iv req) ad text))
            /\ (forallb (fun e => negb (is_recv_event e)) (x_trace r) = true ->
                pid_recv (x_ks r) = pid_recv ks)).
  { intros ret [= <-]. cbn [x_ret x_ks x_skb x_trace In forallb]. repeat split; intros; try contradiction; reflexivity. }
  destruct (if ovpn_opcode_extract op =? OVPN_DATA_V2 then Some OVPN_OP_SIZE_V2
            else if ovpn_opcode_extract op =? OVPN_DATA_V1 then Some OVPN_OP_SIZE_V1
            else None) as [opsize|]; [|apply Hearly].
  destruct (_ || _); [apply Hearly|].
  destruct (env_cow_data env <? 0); [apply Hearly|].
  destruct (MAX_SKB_FRAGS + 2 <? env_cow_data env); [apply Hearly|].
  destruct (negb (env_req_alloc_ok env)); [apply Hearly|].
  destruct (MAX_SKB_FRAGS + 2 <? env_cow_data env + 2); [discriminate|].
  destruct (negb (env_cow_data env =? env_sgvec env)); [apply Hearly|].
  clear Hearly early.
  match goal with
  | |- context [crypto_aead_decrypt ?q ?b] =>
      pose proof (crypto_aead_decrypt_ret q b) as Hfst;
      set (req0 := q) in *; destruct (crypto_aead_decrypt req0 b) as [ret buf]
  end.
  cbn [fst] in Hfst.
  destruct (Z.ltb_spec ret 0) as [Hn|Hn].
  { intros [= <-]. cbn [x_ret x_ks x_skb x_trace skb_data].
    split; [|split].
    - intros req ad text ret' [H | []]. injection H as <- <- <- <-.
      split; [exact Hfst|]. intros _. repeat split.
    - intros id ret2 [H | []]. discriminate.
    - intros _. reflexivity. }
  destruct (ovpn_pktid_recv (pid_recv ks) _ 0) as [ret2 pr].
  assert (Hlate : forall skb',
    let r' := {| x_ret := ret2; x_skb := skb'; x_ks := set_pid_recv ks pr;
                 x_trace := [EvDecrypt req0 (req_ad req0 (skb_head skb))
                               (req_text req0 (skb_head skb)) ret;
                             EvPktidRecv
                               (ntohl (slice buf (skb_data skb + opsize) 4)) ret2] |} in
    (forall req ad text ret,
        In (EvDecrypt req ad text ret) (x_trace r') ->
        ret = fst (alg_decrypt (req_tfm req) (req_iv req) ad text) /\
        (ret < 0 ->
         x_ret r' = ret /\ x_ks r' = ks /\ skb_data (x_skb r') = skb_data skb /\
         x_trace r' = [EvDecrypt req ad text ret]))
    /\ (forall id ret2,
           In (EvPktidRecv id ret2) (x_trace r') ->
           exists req ad text ret,
             x_trace r' = [EvDecrypt req ad text ret; EvPktidRecv id ret2] /\
             0 <= ret /\
             ret = fst (alg_decrypt (req_tfm req) (req_iv req) ad text))
    /\ (forallb (fun e => negb (is_recv_event e)) (x_trace r') = true ->
        pid_recv (x_ks r') = pid_recv ks)).
  { intros skb' r'. subst r'. cbn [x_ret x_ks x_skb x_trace].
    split; [|split].
    - intros req ad text ret' [H | [H | []]]; [|discriminate].
      injection H as <- <- <- <-. split; [exact Hfst|]. intros Hlt. lia.
    - intros id ret3 [H | [H | []]]; [discriminate|]. injection H as <- <-.
      eexists _, _, _, _. split; [reflexivity|]. split; [assumption | exact Hfst].
    - cbn. discriminate. }
  cbn [skb_head skb_data].
  destruct (ret2 <? 0); intros [= <-]; apply Hlate.
Qed.

(** C6: creation fails with EOPNOTSUPP, allocating nothing, for any
    algorithm but AES-GCM; it always fails when a nonce tail does not have
    the fixed tail size, with EINVAL once the slot and both ciphers have
    been set up; whatever the failure, the set of live allocations is the
    one before the call; on success the transmit counter is 0 and the
    receive window is empty. *)
Theorem key_slot_init_checks_and_cleans st alg ek dk et dt kid :
  (alg <> OVPN_CIPHER_ALG_AES_GCM ->
   ovpn_aead_crypto_key_slot_init st alg ek dk et dt kid = (inl (- EOPNOTSUPP), st))
  /\ (length et <> NONCE_TAIL_SIZE \/ length dt <> NONCE_TAIL_SIZE ->
      (exists e st', ovpn_aead_crypto_key_slot_init st alg ek dk et dt kid
                     = (inl e, st')) /\
      forall a st0 e st1 d st2,
        alg = OVPN_CIPHER_ALG_AES_GCM ->
        kalloc st = (Some a, st0) ->
        ovpn_aead_init st0 "gcm(aes)" ek = (inr e, st1) ->
        ovpn_aead_init st1 "gcm(aes)" dk = (inr d, st2) ->
        fst (ovpn_aead_crypto_key_slot_init st alg ek dk et dt kid)
        = inl (- EINVAL))
  /\ (forall e st',
         ovpn_aead_crypto_key_slot_init st alg ek dk et dt kid = (inl e, st') ->
         k_live st' = k_live st)
  /\ (forall ks st',
         ovpn_aead_crypto_key_slot_init st alg ek dk et dt kid = (inr ks, st') ->
         pid_xmit ks = ovpn_pktid_xmit_init /\ seq_num (pid_xmit ks) = 0 /\
         pid_recv ks = ovpn_pktid_recv_init /\ window (pid_recv ks) = 0).
Proof.
  split; [|split; [|split]].
  - intros Halg. destruct alg; [congruence | reflexivity].
  - intros Hbad. split.
    + destruct (ovpn_aead_crypto_key_slot_init st alg ek dk et dt kid)
        as [[e|ks] st'] eqn:Hinit; [eauto|].
      apply slot_init_ok in Hinit as (_ & te & td & H).
      unfold NONCE_TAIL_SIZE in Hbad. exfalso. intuition lia.
    + intros a st0 e st1 d st2 -> Hk He Hd.
      unfold ovpn_aead_crypto_key_slot_init. rewrite Hk, He, Hd.
      destruct (Nat.eqb_spec NONCE_TAIL_SIZE (length et));
        destruct (Nat.eqb_spec NONCE_TAIL_SIZE (length dt));
        cbn [negb orb fst]; try reflexivity.
      exfalso. intuition congruence.
  - intros e st'. apply slot_init_err.
  - intros ks st' Hinit.
    apply slot_init_ok in Hinit as (_ & te & td & H).
    destruct H as (_ & _ & _ & _ & _ & _ & _ & _ & _ & _ & _ & _ & -> & -> & _).
    repeat split.
Qed.

(** C7: a DATA_V2 packet shorter than 4 + 4 + 16 bytes and a DATA_V1
    packet shorter than 1 + 4 + 16 bytes are refused with EINVAL before any
    call to the cipher or the packet-id guard; buffer and key slot are
    returned as they came. *)
Theorem decrypt_rejects_short_packets env ks skb op td :
  ks_decrypt ks = Some td -> crypto_aead_authsize td = 16%nat ->
  (ovpn_opcode_extract op = OVPN_DATA_V2 /\
   (skb_len skb < OVPN_OP_SIZE_V2 + 4 + 16)%nat)
  \/ (ovpn_opcode_extract op = OVPN_DATA_V1 /\
      (skb_len skb < OVPN_OP_SIZE_V1 + 4 + 16)%nat) ->
  ovpn_aead_decrypt env ks skb op
  = Some {| x_ret := - EINVAL; x_skb := skb; x_ks := ks; x_trace := [] |}.
Proof.
  intros Htd Hauth Hshort. unfold ovpn_aead_decrypt. rewrite Htd, Hauth.
  assert (Hneg : forall opsize : nat,
             (opsize <= 4)%nat -> (skb_len skb < opsize + 4 + 16)%nat ->
             (s32 (Z.of_nat (skb_len skb)
                   - u32 (Z.of_nat (opsize + NONCE_WIRE_SIZE + 16))) <? 0) = true).
  { intros opsize Ho Hlt. apply Z.ltb_lt.
    change NONCE_WIRE_SIZE with 4%nat.
    unfold u32 at 1. rewrite Z.mod_small by lia.
    apply s32_neg. lia. }
  destruct Hshort as [[-> Hlt] | [-> Hlt]].
  - change (OVPN_DATA_V2 =? OVPN_DATA_V2) with true. cbv iota.
    rewrite Hneg by (unfold OVPN_OP_SIZE_V2 in *; lia). reflexivity.
  - change (OVPN_DATA_V1 =? OVPN_DATA_V2) with false.
    change (OVPN_DATA_V1 =? OVPN_DATA_V1) with true. cbv iota.
    rewrite Hneg by (unfold OVPN_OP_SIZE_V1 in *; lia). reflexivity.
Qed.

(** C10: an op word whose opcode is neither DATA_V1 nor DATA_V2 makes
    decapsulation return EINVAL at once: no call to the cipher or to the
    packet-id guard, buffer and key slot as they came. *)
Theorem decrypt_rejects_other_opcodes env ks skb op td :
  ks_decrypt ks = Some td ->
  ovpn_opcode_extract op <> OVPN_DATA_V1 ->
  ovpn_opcode_extract op <> OVPN_DATA_V2 ->
  ovpn_aead_decrypt env ks skb op
  = Some {| x_ret := - EINVAL; x_skb := skb; x_ks := ks; x_trace := [] |}.
Proof.
  intros Htd H1 H2. unfold ovpn_aead_decrypt. rewrite Htd.
  destruct (Z.eqb_spec (ovpn_opcode_extract op) OVPN_DATA_V2); [contradiction|].
  destruct (Z.eqb_spec (ovpn_opcode_extract op) OVPN_DATA_V1); [contradiction|].
  reflexivity.
Qed.

End Transform.

(** ** Peer binding *)

(** C8: a sockaddr of a family other than AF_INET and AF_INET6 is refused
    with EAFNOSUPPORT and nothing is allocated; for these two families, once
    [ovpn_sockaddr_validate] has accepted the address and the allocation has
    succeeded, the result is a newly allocated bind whose address bytes are
    the first [sizeof(struct sockaddr_in)] or [sizeof(struct sockaddr_in6)]
    bytes of the argument, followed by zeros. *)
Theorem bind_from_sockaddr_families validate st ss :
  (ss_family ss <> AF_INET -> ss_family ss <> AF_INET6 ->
   ovpn_bind_from_sockaddr validate st ss = (inl (- EAFNOSUPPORT), st))
  /\ (forall sa_len a st',
         ss_family ss = AF_INET /\ sa_len = sizeof_sockaddr_in
         \/ ss_family ss = AF_INET6 /\ sa_len = sizeof_sockaddr_in6 ->
         0 <= validate ss ->
         kalloc st = (Some a, st') ->
         (sa_len <= length (ss_raw ss))%nat ->
         exists b,
           ovpn_bind_from_sockaddr validate st ss = (inr b, st') /\
           bind_addr b = a /\ (a ∉ k_live st) /\
           k_live st' = {[a]} ∪ k_live st /\
           length (bind_sa b) = sizeof_sockaddr_in6 /\
           take sa_len (bind_sa b) = take sa_len (ss_raw ss) /\
           drop sa_len (bind_sa b) = repeat 0 (sizeof_sockaddr_in6 - sa_len)).
Proof.
  split.
  - intros H4 H6. unfold ovpn_bind_from_sockaddr.
    destruct (Z.eqb_spec (ss_family ss) AF_INET); [contradiction|].
    destruct (Z.eqb_spec (ss_family ss) AF_INET6); [contradiction|].
    reflexivity.
  - intros sa_len a st' Hfam Hval Hk Hlen.
    assert (Hsel : (if ss_family ss =? AF_INET then Some sizeof_sockaddr_in
                    else if ss_family ss =? AF_INET6 then Some sizeof_sockaddr_in6
                    else None) = Some sa_len /\ (sa_len <= sizeof_sockaddr_in6)%nat).
    { destruct Hfam as [[-> ->] | [-> ->]]; split; try reflexivity;
        unfold sizeof_sockaddr_in, sizeof_sockaddr_in6; lia. }
    destruct Hsel as [Hsel Hle].
    exists (bind_filled a ss sa_len).
    unfold ovpn_bind_from_sockaddr. rewrite Hsel.
    destruct (Z.ltb_spec (validate ss) 0); [lia|]. rewrite Hk.
    apply kalloc_some in Hk as [Hf Hl].
    assert (Hsa : bind_sa (bind_filled a ss sa_len)
                  = take sa_len (ss_raw ss) ++ repeat 0 (sizeof_sockaddr_in6 - sa_len)).
    { cbn [bind_sa bind_filled]. unfold memcpy_at. rewrite take_0. cbn [app Nat.add].
      f_equal. rewrite length_take, drop_repeat. f_equal. lia. }
    assert (Htl : length (take sa_len (ss_raw ss)) = sa_len)
      by (rewrite length_take; lia).
    repeat split; try assumption.
    + rewrite Hsa, length_app, repeat_length. lia.
    + rewrite Hsa. rewrite take_app_length' by lia. reflexivity.
    + rewrite Hsa. apply drop_app_length'. lia.
Qed.

(** Sequential view of a rebind: the old bind is queued, not released. *)
Lemma bind_reset_defers_release peer new old :
  peer_bind peer = Some old ->
  peer_bind (ovpn_bind_reset peer (Some new)) = Some new /\
  In old (peer_rcu_pending (ovpn_bind_reset peer (Some new))).
Proof.
  intros Hold. unfold ovpn_bind_reset. rewrite Hold. cbn. split; [reflexivity|].
  apply in_or_app. right. now left.
Qed.

(** * The claims on concrete packets *)

Lemma paired_slot_created : slot_created (O := mask_ops) paired_slot.
Proof.
  exists sample_kstate, OVPN_CIPHER_ALG_AES_GCM, (repeat 1 16), (repeat 1 16),
    (repeat 7 8), (repeat 7 8), 0, paired_slot.
  eexists. split; [vm_compute; reflexivity | repeat split].
Qed.

Lemma sample_skb_wf : skb_wf sample_skb.
Proof. split; cbn; lia. Qed.

(** C1, counterexample: a slot created with one key and nonce tail per
    direction, as every real configuration is, encapsulates a packet that
    the same slot then refuses with EBADMSG. *)
Lemma roundtrip_fails_on_directional_slot :
  fst (sample_init (repeat 1 16) (repeat 2 16) (repeat 7 8) (repeat 9 8))
  = inr directional_slot /\
  exists r r',
    sample_encrypt sample_env directional_slot sample_skb = Some r /\
    x_ret r = 0 /\
    sample_decrypt sample_env (x_ks r) (x_skb r) (wire_op (x_skb r)) = Some r' /\
    x_ret r' = - EBADMSG /\
    skb_bytes (x_skb r') <> skb_bytes sample_skb.
Proof.
  split; [vm_compute; reflexivity|].
  eexists. eexists.
  split; [vm_compute; reflexivity|].
  split; [reflexivity|].
  split; [vm_compute; reflexivity|].
  split; [reflexivity|].
  vm_compute. discriminate.
Qed.

Lemma roundtrip_matching_slots_witness :
  exists r r',
    sample_encrypt sample_env paired_slot sample_skb = Some r /\
    sample_decrypt sample_env paired_slot (x_skb r) (wire_op (x_skb r)) = Some r' /\
    x_ret r' = 0 /\ skb_bytes (x_skb r') = skb_bytes sample_skb.
Proof.
  assert (Hsent : exists r,
             sample_encrypt sample_env paired_slot sample_skb = Some r /\
             x_ret r = 0 /\
             Z.of_nat (length (skb_head (x_skb r))) < 2 ^ 31 /\
             fst (ovpn_pktid_recv (P := sample_params) (pid_recv paired_slot)
                    (wire_pktid (x_skb r) OVPN_OP_SIZE_V2) 0) = 0).
  { eexists. split; [vm_compute; reflexivity|].
    split; [reflexivity|]. split; vm_compute; reflexivity. }
  destruct Hsent as (r & Hr & Hret & Hsz & Hrecv).
  exists r.
  destruct (roundtrip_matching_slots (P := sample_params) (O := mask_ops)
              mask_ops_sound sample_env sample_env paired_slot paired_slot
              sample_skb r (sample_tfm 1 1) (sample_tfm 2 1))
    as (r' & Hdec & Hok & Hbytes);
    try assumption; try reflexivity; try exact paired_slot_created.
  - cbn. lia.
  - unfold env_serves, MAX_SKB_FRAGS. cbn.
    split; [reflexivity|]. split; [lia|]. split; reflexivity.
  - exists r'. repeat split; assumption.
Defined.

Lemma pktid_exhaustion_is_final_witness :
  exists rs,
    encrypt_run (P := sample_params) (O := mask_ops) exhausted_slot
      [(sample_env, sample_skb); (sample_env, sample_skb)] = Some rs /\
    length rs = 2%nat /\
    Forall (fun r =>
              x_ret r = -34 /\
              (exists p, x_trace r = [EvXmitNext (-34) p]) /\
              pid_xmit (x_ks r) = {| seq_num := 2 ^ 32 |}) rs.
Proof.
  destruct (pktid_exhaustion_is_final (P := sample_params) (O := mask_ops))
    as (_ & Hfinal & _).
  destruct (Hfinal ltac:(reflexivity) ltac:(discriminate) exhausted_slot
              (sample_tfm 1 1) eq_refl eq_refl) as [Hrun _].
  apply Hrun.
  assert (Hcall : env_serves_xmit sample_env /\
                  (skb_data sample_skb <= length (skb_head sample_skb))%nat).
  { split; [|cbn; lia]. unfold env_serves_xmit, MAX_SKB_FRAGS. cbn.
    split; [reflexivity|]. split; [lia|]. split; reflexivity. }
  repeat constructor; apply Hcall.
Defined.

(** C3, counterexample: for a DATA_V1 packet the associated data handed to
    the cipher are the four bytes of the wire packet id; the op byte in
    front of them is left out. *)
Lemma v1_aad_leaves_op_byte_out :
  ovpn_opcode_extract sample_v1_op = OVPN_DATA_V1 /\
  exists r req ad text ret,
    sample_decrypt sample_env paired_slot sample_v1_skb sample_v1_op = Some r /\
    x_trace r = [EvDecrypt req ad text ret] /\
    req_assoclen req = 4%nat /\
    ad = [0; 0; 0; 5] /\
    ad <> take 5 (skb_bytes sample_v1_skb).
Proof.
  split; [reflexivity|].
  eexists. eexists. eexists. eexists. eexists.
  split; [vm_compute; reflexivity|].
  split; [reflexivity|].
  split; [reflexivity|].
  split; [reflexivity|].
  vm_compute. discriminate.
Qed.

Lemma aad_covers_header_and_pktid_witness :
  (forall r req ad text ret,
      sample_encrypt sample_env paired_slot sample_skb = Some r ->
      In (EvEncrypt req ad text ret) (x_trace r) ->
      req_assoclen req = 8%nat /\
      head (req_sg req) = Some {| sg_off := skb_data (x_skb r); sg_len := 8 |} /\
      req_ad req (skb_head (x_skb r)) = ad /\
      ad = take 8 (skb_bytes (x_skb r)) /\
      exists pktid,
        ad = htonl (ovpn_op32_compose OVPN_DATA_V2 0 0) ++ htonl pktid)
  /\
  (forall op r req ad text ret,
      sample_decrypt sample_env paired_slot sample_skb op = Some r ->
      In (EvDecrypt req ad text ret) (x_trace r) ->
      (ovpn_opcode_extract op = OVPN_DATA_V2 /\
       req_assoclen req = 8%nat /\
       head (req_sg req) = Some {| sg_off := skb_data sample_skb; sg_len := 8 |} /\
       ad = take 8 (skb_bytes sample_skb))
      \/
      (ovpn_opcode_extract op = OVPN_DATA_V1 /\
       req_assoclen req = 4%nat /\
       head (req_sg req) = Some {| sg_off := skb_data sample_skb + 1; sg_len := 4 |} /\
       ad = slice (skb_bytes sample_skb) 1 4)).
Proof.
  apply (aad_covers_header_and_pktid (P := sample_params) (O := mask_ops)
           sample_env paired_slot sample_skb).
  - exact paired_slot_created.
  - split; cbn; lia.
Defined.

Lemma nonce_is_pktid_and_tail_witness :
  (exists r req ad text ret,
      sample_encrypt sample_env sample_used_slot sample_skb = Some r /\
      x_trace r = [EvXmitNext 0 5; EvEncrypt req ad text ret] /\
      req_iv req = [0; 0; 0; 5; 7; 7; 7; 7; 7; 7; 7; 7])
  /\ (exists r req ad text ret,
         sample_decrypt sample_env paired_slot sample_v1_skb sample_v1_op = Some r /\
         In (EvDecrypt req ad text ret) (x_trace r) /\
         req_iv req = [0; 0; 0; 5; 7; 7; 7; 7; 7; 7; 7; 7]).
Proof.
  assert (Hserves : env_serves sample_env).
  { unfold env_serves, MAX_SKB_FRAGS. cbn.
    split; [reflexivity|]. split; [lia|]. split; reflexivity. }
  assert (Hxmit : env_serves_xmit sample_env).
  { unfold env_serves_xmit, MAX_SKB_FRAGS. cbn.
    split; [reflexivity|]. split; [lia|]. split; reflexivity. }
  assert (Hused : slot_created (O := mask_ops) sample_used_slot).
  { exists sample_kstate, OVPN_CIPHER_ALG_AES_GCM, (repeat 1 16), (repeat 1 16),
      (repeat 7 8), (repeat 7 8), 0, paired_slot.
    eexists. split; [vm_compute; reflexivity | repeat split]. }
  split.
  - destruct (nonce_is_pktid_and_tail (P := sample_params) (O := mask_ops)
                sample_env sample_used_slot sample_skb Hused sample_skb_wf)
      as (_ & Hsend & _).
    destruct (Hsend Hxmit 0 5 {| seq_num := 6 |} eq_refl (or_introl (Z.le_refl 0)))
      as (r & req & ad & text & ret & Henc & Htr & Hiv).
    exists r, req, ad, text, ret. repeat split; assumption.
  - destruct (nonce_is_pktid_and_tail (P := sample_params) (O := mask_ops)
                sample_env paired_slot sample_v1_skb paired_slot_created)
      as (_ & _ & _ & _ & Hrecv).
    { split; cbn; lia. }
    destruct (Hrecv Hserves sample_v1_op 1%nat) as (r & req & ad & text & ret & H).
    + right. split; reflexivity.
    + cbn. lia.
    + exists r, req, ad, text, ret. exact H.
Defined.

Lemma replay_state_after_authentication_witness :
  exists r,
    sample_decrypt sample_env paired_slot sample_v1_skb sample_v1_op = Some r /\
    x_ret r = - EBADMSG /\
    (forall req ad text ret,
        In (EvDecrypt req ad text ret) (x_trace r) ->
        ret = fst (alg_decrypt (crypto_aead_ops := mask_ops) (req_tfm req)
                     (req_iv req) ad text) /\
        (ret < 0 ->
         x_ret r = ret /\ x_ks r = paired_slot /\
         skb_data (x_skb r) = skb_data sample_v1_skb /\
         x_trace r = [EvDecrypt req ad text ret])) /\
    (forallb (fun e => negb (is_recv_event e)) (x_trace r) = true ->
     pid_recv (x_ks r) = pid_recv paired_slot).
Proof.
  eexists. split; [vm_compute; reflexivity|]. split; [reflexivity|].
  match goal with
  | |- context [x_ks ?r] =>
      pose proof (replay_state_after_authentication (P := sample_params)
                    (O := mask_ops) sample_env paired_slot sample_v1_skb
                    sample_v1_op r) as Hthm
  end.
  destruct Hthm as (H1 & _ & H3); [vm_compute; reflexivity|].
  split; assumption.
Defined.

Lemma key_slot_init_checks_and_cleans_witness :
  fst (sample_init (repeat 1 16) (repeat 1 16) (repeat 7 4) (repeat 7 8))
  = inl (- EINVAL) /\
  k_live (snd (sample_init (repeat 1 16) (repeat 1 16) (repeat 7 4) (repeat 7 8)))
  = k_live sample_kstate.
Proof.
  destruct (key_slot_init_checks_and_cleans (O := mask_ops) sample_kstate
              OVPN_CIPHER_ALG_AES_GCM (repeat 1 16) (repeat 1 16)
              (repeat 7 4) (repeat 7 8) 0) as (_ & Htail & Hclean & _).
  split.
  - destruct Htail as [_ Hcode]; [left; vm_compute; discriminate|].
    eapply Hcode; [reflexivity | vm_compute; reflexivity ..].
  - unfold sample_init.
    destruct (ovpn_aead_crypto_key_slot_init _ _ _ _ _ _ _) as [[e|ks] st'] eqn:Hinit.
    + exact (Hclean e st' eq_refl).
    + vm_compute in Hinit. discriminate.
Defined.

Lemma decrypt_rejects_short_packets_witness :
  sample_decrypt sample_env paired_slot sample_short_skb sample_v2_op
  = Some {| x_ret := - EINVAL; x_skb := sample_short_skb; x_ks := paired_slot;
            x_trace := [] |}.
Proof.
  apply (decrypt_rejects_short_packets (P := sample_params) (O := mask_ops))
    with (td := sample_tfm 2 1).
  - reflexivity.
  - reflexivity.
  - left. split; [reflexivity | cbn; lia].
Defined.

Lemma decrypt_rejects_other_opcodes_witness :
  sample_decrypt sample_env paired_slot sample_skb sample_control_op
  = Some {| x_ret := - EINVAL; x_skb := sample_skb; x_ks := paired_slot;
            x_trace := [] |}.
Proof.
  apply (decrypt_rejects_other_opcodes (P := sample_params) (O := mask_ops))
    with (td := sample_tfm 2 1).
  - reflexivity.
  - vm_compute. discriminate.
  - vm_compute. discriminate.
Defined.

Lemma bind_from_sockaddr_families_witness :
  ovpn_bind_from_sockaddr sample_validate sample_kstate (sample_sockaddr 1)
  = (inl (- EAFNOSUPPORT), sample_kstate) /\
  exists b st',
    ovpn_bind_from_sockaddr sample_validate sample_kstate (sample_sockaddr AF_INET)
    = (inr b, st') /\
    take 16 (bind_sa b) = [2; 0; 4; 170; 192; 0; 2; 1; 0; 0; 0; 0; 0; 0; 0; 0].
Proof.
  destruct (bind_from_sockaddr_families sample_validate sample_kstate
              (sample_sockaddr 1)) as [Hother _].
  destruct (bind_from_sockaddr_families sample_validate sample_kstate
              (sample_sockaddr AF_INET)) as [_ Hinet].
  split.
  - apply Hother; vm_compute; discriminate.
  - destruct (Hinet sizeof_sockaddr_in (fresh (k_live sample_kstate))
                (snd (kalloc sample_kstate)))
      as (b & Hb & _ & _ & _ & _ & Hcopy & _).
    + left. split; reflexivity.
    + vm_compute. discriminate.
    + reflexivity.
    + vm_compute. lia.
    + exists b, (snd (kalloc sample_kstate)). split; [exact Hb|].
      change 16%nat with sizeof_sockaddr_in. rewrite Hcopy. reflexivity.
Defined.

(** * The rest of aead.c and bind.c *)

(** ** Allocation and buffer lemmas *)

(** An allocation succeeds, returning an address that was not live, or
    fails and changes nothing; which of the two is up to the next entry of
    the allocation oracle. *)
Lemma kalloc_outcome st :
  (allocs_succeed st 1 = true /\
   exists a st', kalloc st = (Some a, st') /\ k_allocs st' = tail (k_allocs st) /\
                 (a ∉ k_live st) /\ k_live st' = {[a]} ∪ k_live st)
  \/ (allocs_succeed st 1 = false /\
      exists st', kalloc st = (None, st') /\ k_live st' = k_live st).
Proof.
  unfold kalloc, allocs_succeed.
  destruct (k_allocs st) as [|[] rest]; cbn.
  - left. split; [reflexivity|]. eexists _, _. repeat split. apply is_fresh.
  - left. split; [reflexivity|]. eexists _, _. repeat split. apply is_fresh.
  - right. split; [reflexivity|]. eexists. split; reflexivity.
Qed.

Lemma allocs_succeed_S st st' n :
  k_allocs st' = tail (k_allocs st) ->
  allocs_succeed st (S n) = allocs_succeed st 1 && allocs_succeed st' n.
Proof.
  unfold allocs_succeed. intros ->.
  destruct (k_allocs st) as [|b rest]; cbn.
  - now rewrite take_nil.
  - rewrite take_0. cbn. now rewrite andb_true_r.
Qed.

Lemma live_after_three (L : gset nat) (a e d : nat) :
  a ∉ L -> e ∉ {[a]} ∪ L -> d ∉ {[e]} ∪ ({[a]} ∪ L) ->
  (({[d]} ∪ ({[e]} ∪ ({[a]} ∪ L))) ∖ {[e]}) ∖ {[d]} ∖ {[a]} = L.
Proof. set_solver. Qed.

Lemma memcpy_at_length buf off src :
  (off + length src <= length buf)%nat ->
  length (memcpy_at buf off src) = length buf.
Proof.
  intros H. unfold memcpy_at. rewrite !length_app, length_take, length_drop. lia.
Qed.

(** Scattering into entries that lie inside the buffer keeps its length. *)
Lemma scatter_length sg : forall buf stream,
  Forall (fun s => (sg_off s + sg_len s <= length buf)%nat) sg ->
  length (sg_scatter buf sg stream) = length buf.
Proof.
  induction sg as [|s sg IH]; intros buf stream Hall; cbn [sg_scatter].
  - reflexivity.
  - inversion Hall as [|? ? Hs Hrest]; subst.
    assert (Hl : length (memcpy_at buf (sg_off s) (take (sg_len s) stream))
                 = length buf).
    { apply memcpy_at_length. rewrite length_take. lia. }
    rewrite IH; [assumption|].
    eapply Forall_impl; [eassumption|]. cbn. intros x Hx. rewrite Hl. exact Hx.
Qed.

(** The buffer after an open that returns as many bytes as the payload had,
    for either header size. *)
Lemma scatter_open_any td (A hdr idb T C pt iv : list Z) opsize :
  length hdr = opsize -> opsize = 4%nat \/ opsize = 1%nat ->
  length idb = 4%nat -> length T = 16%nat ->
  length pt = length C ->
  sg_scatter (A ++ hdr ++ idb ++ T ++ C)
    (req_sg (decrypt_req td A opsize (length C) iv))
    ((if (opsize =? 1)%nat then idb else hdr ++ idb) ++ pt)
  = A ++ hdr ++ idb ++ T ++ pt.
Proof.
  intros Hh [-> | ->] Hi HT Hp.
  - apply scatter_open; assumption.
  - cbn [req_sg decrypt_req sg_scatter sg_off sg_len Nat.eqb].
    rewrite take_app_length' by lia.
    rewrite drop_app_length' by lia.
    replace (A ++ hdr ++ idb ++ T ++ C) with ((A ++ hdr) ++ idb ++ T ++ C)
      by (rewrite <- !app_assoc; reflexivity).
    replace (length A + 1)%nat with (length (A ++ hdr))
      by (rewrite length_app; lia).
    rewrite memcpy_at_same.
    rewrite (take_ge pt) by lia. rewrite (drop_ge pt) by lia.
    rewrite take_nil.
    replace ((A ++ hdr) ++ idb ++ T ++ C) with ((A ++ hdr ++ idb ++ T) ++ C ++ [])
      by (rewrite <- !app_assoc, app_nil_r; reflexivity).
    rewrite memcpy_at_app by (rewrite ?length_app; lia).
    rewrite memcpy_at_nil. now rewrite <- !app_assoc, app_nil_r.
Qed.

Lemma op32_range op kid pid : 0 <= ovpn_op32_compose op kid pid < 2 ^ 32.
Proof. unfold ovpn_op32_compose, u32. apply Z.mod_pos_bound. lia. Qed.

(** Reads the result record off a finished call and settles the four
    facts about its slot. *)
Ltac slot_kept :=
  match goal with
  | Heq : Some _ = Some _ |- _ =>
      apply (inj Some) in Heq; rewrite <- Heq; clear Heq
  end;
  cbn [x_ks];
  (split; [auto | split; [reflexivity | split; [reflexivity | auto]]]).

Section Lifecycle.
Context `{P : ovpn_params} `{O : crypto_aead_ops}.

(** ** Life of a key slot *)

(** The outcome of [ovpn_aead_init], step by step. *)
Lemma aead_init_outcome st name key :
  (allocs_succeed st 1 = true /\ alg_setkey name key = 0 /\
   alg_setauthsize name 16 = 0 /\ alg_ivsize name = EXPECTED_IV_SIZE /\
   exists t st', ovpn_aead_init st name key = (inr t, st') /\
                 k_allocs st' = tail (k_allocs st) /\
                 tfm_alg t = name /\ tfm_key t = key /\ tfm_authsize t = 16%nat /\
                 (tfm_addr t ∉ k_live st) /\
                 k_live st' = {[tfm_addr t]} ∪ k_live st)
  \/ (~ (allocs_succeed st 1 = true /\ alg_setkey name key = 0 /\
         alg_setauthsize name 16 = 0 /\ alg_ivsize name = EXPECTED_IV_SIZE) /\
      exists e st', ovpn_aead_init st name key = (inl e, st') /\
                    k_live st' = k_live st /\
                    (allocs_succeed st 1 = false /\ e = alg_alloc_err name
                     \/ allocs_succeed st 1 = true /\ alg_setkey name key <> 0 /\
                        e = alg_setkey name key
                     \/ allocs_succeed st 1 = true /\ alg_setkey name key = 0 /\
                        alg_setauthsize name 16 <> 0 /\
                        e = alg_setauthsize name 16
                     \/ allocs_succeed st 1 = true /\ alg_setkey name key = 0 /\
                        alg_setauthsize name 16 = 0 /\
                        alg_ivsize name <> EXPECTED_IV_SIZE /\ e = - EINVAL)).
Proof.
  unfold ovpn_aead_init, crypto_alloc_aead.
  destruct (kalloc_outcome st) as [(Hal & a & st1 & -> & Htl & Hf & Hl)
                                  | (Hal & st1 & -> & Hl)].
  2:{ right. split; [intros (Hx & _); congruence|].
      eexists _, _. split; [reflexivity|]. cbn. split; [assumption|]. auto. }
  assert (Hfree : k_live (kfree st1 a) = k_live st) by (eapply kfree_fresh; eauto).
  destruct (Z.eqb_spec (alg_setkey name key) 0) as [Hk|Hk]; cbn [negb].
  2:{ right. split; [tauto|]. eexists _, _. split; [reflexivity|].
      cbn [crypto_free_aead tfm_addr]. split; [assumption|]. auto. }
  destruct (Z.eqb_spec (alg_setauthsize name 16) 0) as [Hs|Hs]; cbn [negb].
  2:{ right. split; [tauto|]. eexists _, _. split; [reflexivity|].
      cbn [crypto_free_aead tfm_addr]. split; [assumption|]. auto 10. }
  destruct (Nat.eqb_spec (alg_ivsize name) EXPECTED_IV_SIZE) as [Hi|Hi]; cbn [negb].
  2:{ right. split; [tauto|]. eexists _, _. split; [reflexivity|].
      cbn [crypto_free_aead tfm_addr]. split; [assumption|]. auto 10. }
  left. repeat (split; [assumption|]).
  eexists _, _. split; [reflexivity|]. cbn. repeat split; assumption.
Qed.

(** The three allocations of a created slot are new and distinct. *)
Lemma slot_init_addrs st alg ek dk et dt kid ks st' :
  ovpn_aead_crypto_key_slot_init st alg ek dk et dt kid = (inr ks, st') ->
  exists te td,
    ks_encrypt ks = Some te /\ ks_decrypt ks = Some td /\
    (ks_addr ks ∉ k_live st) /\
    (tfm_addr te ∉ {[ks_addr ks]} ∪ k_live st) /\
    (tfm_addr td ∉ {[tfm_addr te]} ∪ ({[ks_addr ks]} ∪ k_live st)) /\
    k_live st' = {[tfm_addr td]} ∪ ({[tfm_addr te]} ∪ ({[ks_addr ks]} ∪ k_live st)).
Proof.
  unfold ovpn_aead_crypto_key_slot_init.
  destruct alg; [|discriminate].
  destruct (kalloc st) as [[a|] st0] eqn:Hk; [|discriminate].
  destruct (ovpn_aead_init st0 _ ek) as [[e1|te] st1] eqn:He; [discriminate|].
  destruct (ovpn_aead_init st1 _ dk) as [[e2|td] st2] eqn:Hd; [discriminate|].
  destruct (negb _ || negb _); [discriminate|].
  intros [= <- <-]. cbn [ks_encrypt ks_decrypt ks_addr].
  apply kalloc_some in Hk as [Hk1 Hk2].
  apply aead_init_ok in He as (_ & _ & _ & He4 & He5).
  apply aead_init_ok in Hd as (_ & _ & _ & Hd4 & Hd5).
  exists te, td. rewrite He5, Hk2 in Hd4. rewrite Hk2 in He4.
  rewrite Hd5, He5, Hk2. auto 10.
Qed.

(** What [ovpn_aead_crypto_key_slot_new] takes from the configuration. *)
Lemma slot_new_ok st kc ks st' :
  ovpn_aead_crypto_key_slot_new st kc = (inr ks, st') ->
  exists te td,
    ks_encrypt ks = Some te /\ ks_decrypt ks = Some td /\
    tfm_alg te = "gcm(aes)"%string /\ tfm_alg td = "gcm(aes)"%string /\
    tfm_key te = cipher_key (kc_encrypt kc) /\
    tfm_key td = cipher_key (kc_decrypt kc) /\
    tfm_authsize te = 16%nat /\ tfm_authsize td = 16%nat /\
    nonce_tail_xmit ks = nonce_tail (kc_encrypt kc) /\
    nonce_tail_recv ks = nonce_tail (kc_decrypt kc) /\
    length (nonce_tail_xmit ks) = 8%nat /\ length (nonce_tail_recv ks) = 8%nat /\
    key_id ks = kc_key_id kc /\ cipher_alg kc = OVPN_CIPHER_ALG_AES_GCM.
Proof.
  unfold ovpn_aead_crypto_key_slot_new. intros Hinit.
  destruct (slot_init_ok _ _ _ _ _ _ _ _ _ Hinit)
    as (Halg & te & td & H1 & H2 & H3 & H4 & H5 & H6 & H7 & H8 & H9 & H10 & H11
        & H12 & _ & _ & H15 & _).
  exists te, td. rewrite H9, H10. repeat split; assumption.
Qed.

(** X1: [ovpn_aead_crypto_key_slot_init] returns a slot exactly when the
    algorithm is AES-GCM, the three allocations (slot, encrypt and decrypt
    transform) succeed, the cipher accepts both keys and the 16-byte tag
    size, its IV size is the expected one and both nonce tails have the
    fixed tail size. *)
Theorem key_slot_init_succeeds_iff st alg ek dk et dt kid :
  (exists ks st',
      ovpn_aead_crypto_key_slot_init st alg ek dk et dt kid = (inr ks, st'))
  <->
  (alg = OVPN_CIPHER_ALG_AES_GCM /\ allocs_succeed st 3 = true /\
   alg_setkey "gcm(aes)" ek = 0 /\ alg_setkey "gcm(aes)" dk = 0 /\
   alg_setauthsize "gcm(aes)" 16 = 0 /\
   alg_ivsize "gcm(aes)" = EXPECTED_IV_SIZE /\
   length et = NONCE_TAIL_SIZE /\ length dt = NONCE_TAIL_SIZE).
Proof.
  unfold ovpn_aead_crypto_key_slot_init.
  destruct alg as [|tag].
  2:{ split; [intros (ks & st' & H); discriminate | intros (H & _); discriminate]. }
  destruct (kalloc_outcome st) as [(Hal & a & st0 & -> & Htl & _)
                                  | (Hal & st0 & -> & _)].
  2:{ split; [intros (ks & st' & H); discriminate|].
      intros (_ & H3 & _). unfold allocs_succeed in *.
      destruct (k_allocs st) as [|[] rest]; cbn in *; rewrite ?take_0 in *;
        cbn in *; congruence. }
  rewrite (allocs_succeed_S st st0 2 Htl), Hal. cbn [andb].
  destruct (aead_init_outcome st0 "gcm(aes)" ek)
    as [(Hal1 & Hk1 & Hs1 & Hi1 & te & st1 & -> & Htl1 & _)
       | (Hno & e & st1 & -> & _)].
  2:{ split; [intros (ks & st' & H); discriminate|].
      intros (_ & H3 & Hk & _ & Hs & Hi & _). exfalso. apply Hno.
      rewrite (allocs_succeed_S st0 (snd (kalloc st0)) 1) in H3.
      - apply andb_true_iff in H3 as [H3 _]. auto.
      - unfold kalloc. destruct (k_allocs st0) as [|[] ?]; reflexivity. }
  rewrite (allocs_succeed_S st0 st1 1 Htl1), Hal1. cbn [andb].
  destruct (aead_init_outcome st1 "gcm(aes)" dk)
    as [(Hal2 & Hk2 & Hs2 & Hi2 & td & st2 & -> & _)
       | (Hno & e & st2 & -> & _)].
  2:{ split; [intros (ks & st' & H); discriminate|].
      intros (_ & H3 & _ & Hk & Hs & Hi & _). exfalso. apply Hno. auto. }
  unfold NONCE_TAIL_SIZE.
  destruct (Nat.eqb_spec 8 (length et)); destruct (Nat.eqb_spec 8 (length dt));
    cbn [negb orb].
  - split; [intros _; auto 10 | intros _; eauto].
  - split; [intros (ks & st' & H); discriminate | intros H; exfalso; intuition congruence].
  - split; [intros (ks & st' & H); discriminate | intros H; exfalso; intuition congruence].
  - split; [intros (ks & st' & H); discriminate | intros H; exfalso; intuition congruence].
Qed.

(** X2: [ovpn_aead_crypto_key_slot_destroy] gives back exactly what the
    creation of the slot allocated: after it the live allocations are those
    from before [ovpn_aead_crypto_key_slot_init], at whatever point of the
    slot's life (its packet-id state and peer id may have moved on). *)
Theorem key_slot_destroy_undoes_init st alg ek dk et dt kid ks0 st' ks :
  ovpn_aead_crypto_key_slot_init st alg ek dk et dt kid = (inr ks0, st') ->
  ks_same_keys ks ks0 ->
  k_live (ovpn_aead_crypto_key_slot_destroy st' (Some ks)) = k_live st.
Proof.
  intros Hinit (Ha & He & Hd & _).
  destruct (slot_init_addrs _ _ _ _ _ _ _ _ _ Hinit)
    as (te & td & Hte & Htd & H1 & H2 & H3 & Hl).
  unfold ovpn_aead_crypto_key_slot_destroy. rewrite He, Hd, Ha, Hte, Htd.
  cbn [crypto_free_aead kfree k_live]. rewrite Hl.
  apply live_after_three; assumption.
Qed.

(** X3: [ovpn_aead_init] reports the first step that fails: when
    [crypto_alloc_aead] gives no transform, the error encoded in the pointer
    it returned, passed on as it is; else the code of [crypto_aead_setkey],
    else the code of [crypto_aead_setauthsize], else EINVAL for an IV size
    other than the expected one; on every failure the transform has been
    freed again. *)
Theorem aead_init_reports_first_failure st name key :
  (allocs_succeed st 1 = false ->
   fst (ovpn_aead_init st name key) = inl (alg_alloc_err name))
  /\ (allocs_succeed st 1 = true -> alg_setkey name key <> 0 ->
      fst (ovpn_aead_init st name key) = inl (alg_setkey name key))
  /\ (allocs_succeed st 1 = true -> alg_setkey name key = 0 ->
      alg_setauthsize name 16 <> 0 ->
      fst (ovpn_aead_init st name key) = inl (alg_setauthsize name 16))
  /\ (allocs_succeed st 1 = true -> alg_setkey name key = 0 ->
      alg_setauthsize name 16 = 0 -> alg_ivsize name <> EXPECTED_IV_SIZE ->
      fst (ovpn_aead_init st name key) = inl (- EINVAL))
  /\ (forall e st', ovpn_aead_init st name key = (inl e, st') ->
                    k_live st' = k_live st).
Proof.
  destruct (aead_init_outcome st name key)
    as [(Hal & Hk & Hs & Hi & t & st1 & Hr & _)
       | (_ & e & st1 & Hr & Hl & Hwhy)]; rewrite Hr; cbn [fst].
  - repeat split; intros; congruence.
  - repeat split.
    + intros Hx. destruct Hwhy as [[_ ->] | [(Hy & _) | [(Hy & _) | (Hy & _)]]];
        congruence.
    + intros Hx Hy.
      destruct Hwhy as [[Hz _] | [(_ & _ & ->) | [(_ & Hz & _) | (_ & Hz & _)]]];
        congruence.
    + intros Hx Hy Hz.
      destruct Hwhy as [[Hw _] | [(_ & Hw & _) | [(_ & _ & _ & ->) | (_ & _ & Hw & _)]]];
        congruence.
    + intros Hx Hy Hz Hv.
      destruct Hwhy as [[Hw _] | [(_ & Hw & _) | [(_ & _ & Hw & _) | (_ & _ & _ & _ & ->)]]];
        congruence.
    + intros e' st' [= <- <-]. assumption.
Qed.

(** ** Transmit *)

(** A transmit call that gets as far as the cipher leaves the data pointer
    at most [OVPN_HEAD_ROOM] bytes further into the buffer. *)
Lemma encrypt_data_bound env ks skb r te :
  ks_encrypt ks = Some te -> tfm_authsize te = 16%nat ->
  ovpn_aead_encrypt env ks skb = Some r -> length (x_trace r) = 2%nat ->
  (skb_data (x_skb r) <= skb_data skb + OVPN_HEAD_ROOM)%nat.
Proof.
  intros Hte Hauth Henc Htr. revert Henc.
  unfold ovpn_aead_encrypt, ovpn_aead_encap_overhead. rewrite Hte.
  unfold crypto_aead_authsize. rewrite Hauth.
  assert (Hcow : forall skb1,
             skb_cow_head env skb (OVPN_HEAD_ROOM + (OVPN_OP_SIZE_V2 + 4 + 16))
             = Some skb1 ->
             (skb_data skb1 - 24 <= skb_data skb + OVPN_HEAD_ROOM)%nat).
  { intros skb1. unfold skb_cow_head, OVPN_OP_SIZE_V2.
    destruct (_ || _) eqn:Hc.
    - destruct (env_expand_head_ok env); [|discriminate].
      intros [= <-]. cbn [skb_data]. lia.
    - intros [= <-]. lia. }
  destruct (skb_cow_head env skb _) as [skb1|];
    [|intros Heq; apply (inj Some) in Heq; subst r; discriminate Htr].
  specialize (Hcow skb1 eq_refl).
  destruct (env_cow_data env <? 0);
    [intros Heq; apply (inj Some) in Heq; subst r; discriminate Htr|].
  destruct (MAX_SKB_FRAGS + 2 <? env_cow_data env);
    [intros Heq; apply (inj Some) in Heq; subst r; discriminate Htr|].
  destruct (negb (env_req_alloc_ok env));
    [intros Heq; apply (inj Some) in Heq; subst r; discriminate Htr|].
  destruct (MAX_SKB_FRAGS + 2 <? env_cow_data env + 2); [discriminate|].
  destruct (negb (env_cow_data env =? env_sgvec env));
    [intros Heq; apply (inj Some) in Heq; subst r; discriminate Htr|].
  destruct (ovpn_pktid_xmit_next _ _) as [[ret pktid] pid].
  destruct (_ && _).
  - intros Heq; apply (inj Some) in Heq; subst r. discriminate Htr.
  - destruct (crypto_aead_encrypt _ _).
    intros Heq; apply (inj Some) in Heq; subst r.
    cbn [x_skb skb_data __skb_push skb_store].
    unfold NONCE_WIRE_SIZE, NONCE_SIZE, NONCE_TAIL_SIZE, OVPN_OP_SIZE_V2. lia.
Qed.

(** A transmit call that stops before the packet-id guard hands the payload
    back as it came. *)
Lemma encrypt_untraced_keeps_payload env ks skb r :
  (skb_data skb <= length (skb_head skb))%nat ->
  ovpn_aead_encrypt env ks skb = Some r -> x_trace r = [] ->
  skb_bytes (x_skb r) = skb_bytes skb.
Proof.
  intros Hskb Henc Htr. revert Henc.
  unfold ovpn_aead_encrypt.
  destruct (ks_encrypt ks) as [te|]; [|discriminate].
  destruct (ovpn_aead_encap_overhead ks) as [hs|]; [|discriminate].
  destruct (skb_cow_head env skb _) as [skb1|] eqn:Hcow;
    [|intros Heq; apply (inj Some) in Heq; subst r; reflexivity].
  destruct (cow_head_shape env skb _ skb1 Hskb Hcow) as (hd & Hhd & Hdata & _).
  assert (Hsame : skb_bytes skb1 = skb_bytes skb).
  { unfold skb_bytes at 1. rewrite Hhd, Hdata. apply drop_app_length. }
  destruct (env_cow_data env <? 0);
    [intros Heq; apply (inj Some) in Heq; subst r; exact Hsame|].
  destruct (MAX_SKB_FRAGS + 2 <? env_cow_data env);
    [intros Heq; apply (inj Some) in Heq; subst r; exact Hsame|].
  destruct (negb (env_req_alloc_ok env));
    [intros Heq; apply (inj Some) in Heq; subst r; exact Hsame|].
  destruct (MAX_SKB_FRAGS + 2 <? env_cow_data env + 2); [discriminate|].
  destruct (negb (env_cow_data env =? env_sgvec env));
    [intros Heq; apply (inj Some) in Heq; subst r; exact Hsame|].
  destruct (ovpn_pktid_xmit_next _ _) as [[ret pktid] pid].
  destruct (_ && _).
  - intros Heq; apply (inj Some) in Heq; subst r. discriminate Htr.
  - destruct (crypto_aead_encrypt _ _).
    intros Heq; apply (inj Some) in Heq; subst r. discriminate Htr.
Qed.

(** The transmit call on a slot whose packet-id guard and cipher outcome are
    known. *)
Lemma seal_run env ks skb te ret0 pktid pid ret out :
  ks_encrypt ks = Some te -> tfm_authsize te = 16%nat ->
  length (nonce_tail_xmit ks) = 8%nat ->
  (skb_data skb <= length (skb_head skb))%nat ->
  env_serves_xmit env ->
  ovpn_pktid_xmit_next (pid_xmit ks) (env_stack_pktid env) = (ret0, pktid, pid) ->
  0 <= ret0 \/ ret0 = -1 ->
  alg_encrypt te (htonl pktid ++ nonce_tail_xmit ks)
    (htonl (ovpn_op32_compose OVPN_DATA_V2 (key_id ks) (remote_peer_id ks))
       ++ htonl pktid) (skb_bytes skb) = (ret, out) ->
  length out = (length (skb_bytes skb) + 16)%nat ->
  exists r A,
    ovpn_aead_encrypt env ks skb = Some r /\ x_ret r = ret /\
    x_ks r = set_pid_xmit ks pid /\
    x_trace r
    = [EvXmitNext ret0 pktid;
       EvEncrypt (encrypt_req te A (length (skb_bytes skb))
                    (htonl pktid ++ nonce_tail_xmit ks))
         (htonl (ovpn_op32_compose OVPN_DATA_V2 (key_id ks) (remote_peer_id ks))
            ++ htonl pktid) (skb_bytes skb) ret] /\
    skb_data (x_skb r) = length A /\
    (length A <= skb_data skb + OVPN_HEAD_ROOM)%nat /\
    skb_head (x_skb r)
    = A ++ htonl (ovpn_op32_compose OVPN_DATA_V2 (key_id ks) (remote_peer_id ks))
        ++ htonl pktid ++ drop (length (skb_bytes skb)) out
        ++ take (length (skb_bytes skb)) out.
Proof.
  intros Hte Hauth Hxt Hskb Hserves Hnext Hret0 Hseal Hout.
  destruct (encrypt_total env ks skb te Hte) as [r Henc];
    [destruct Hserves as (_ & [_ Hfit] & _); exact Hfit|].
  pose proof (encrypt_reaches_guard env ks skb r Hserves Henc) as Hne.
  destruct (encrypt_cases env ks skb r te Hte Hauth Hxt Hskb Henc)
    as [(Htr & _) | [(ret1 & pktid1 & pid1 & Hnext1 & Hneg & Hnm & _)
       | (A & T0 & ret1 & pktid1 & pid1 & ret' & out' & Hcase)]].
  - contradiction.
  - rewrite Hnext in Hnext1. injection Hnext1 as -> _ _. lia.
  - cbv zeta in Hcase.
    destruct Hcase as (Hnext1 & _ & HT0 & Hseal1 & Hr & Hk & Htr & Hdata & Hhead).
    rewrite Hnext in Hnext1. injection Hnext1 as <- <- <-.
    rewrite Hseal in Hseal1. injection Hseal1 as <- <-.
    exists r, A.
    split; [assumption|]. split; [assumption|]. split; [assumption|].
    split; [assumption|]. split; [assumption|].
    split.
    { rewrite <- Hdata.
      apply (encrypt_data_bound env ks skb r te Hte Hauth Henc).
      now rewrite Htr. }
    set (P0 := skb_bytes skb) in *.
    rewrite <- (take_drop (length P0) out) in Hhead at 1.
    rewrite scatter_seal in Hhead
      by (rewrite ?length_app, ?htonl_length, ?length_take, ?length_drop; lia).
    rewrite Hhead. now rewrite <- app_assoc.
Qed.

(** X4: with the buffer services at hand, at most [MAX_SKB_FRAGS]
    fragments, a packet id obtained from the guard (code 0 or more, or the
    tolerated code -1) and a cipher that returns the
    ciphertext with a 16-byte tag behind it, [ovpn_aead_encrypt] returns the
    cipher's code, stores the guard's new state, and leaves the packet as op
    word, wire packet id, tag, ciphertext, in this order: the tag goes in
    front of the ciphertext.  The op word read back from the wire is the
    composed one, a DATA_V2 op. *)
Theorem encrypt_seals_packet env ks skb te ret0 pktid pid ret out :
  slot_created ks -> ks_encrypt ks = Some te ->
  (skb_data skb <= length (skb_head skb))%nat ->
  env_serves_xmit env ->
  ovpn_pktid_xmit_next (pid_xmit ks) (env_stack_pktid env) = (ret0, pktid, pid) ->
  0 <= ret0 \/ ret0 = -1 ->
  alg_encrypt te (htonl pktid ++ nonce_tail_xmit ks)
    (htonl (ovpn_op32_compose OVPN_DATA_V2 (key_id ks) (remote_peer_id ks))
       ++ htonl pktid) (skb_bytes skb) = (ret, out) ->
  length out = (length (skb_bytes skb) + 16)%nat ->
  exists r,
    ovpn_aead_encrypt env ks skb = Some r /\ x_ret r = ret /\
    x_ks r = set_pid_xmit ks pid /\
    skb_bytes (x_skb r)
    = htonl (ovpn_op32_compose OVPN_DATA_V2 (key_id ks) (remote_peer_id ks))
        ++ htonl pktid ++ drop (length (skb_bytes skb)) out
        ++ take (length (skb_bytes skb)) out /\
    wire_op (x_skb r)
    = ovpn_op32_compose OVPN_DATA_V2 (key_id ks) (remote_peer_id ks) /\
    ovpn_opcode_extract (wire_op (x_skb r)) = OVPN_DATA_V2.
Proof.
  intros Hks Hte Hskb Hserves Hnext Hret0 Hseal Hout.
  destruct (slot_created_inv ks Hks)
    as (te0 & td0 & Hte0 & _ & _ & _ & Hauth & _ & Hxt & _).
  rewrite Hte in Hte0. injection Hte0 as <-.
  destruct (seal_run env ks skb te ret0 pktid pid ret out
              Hte Hauth Hxt Hskb Hserves Hnext Hret0 Hseal Hout)
    as (r & A & Henc & Hr & Hk & _ & Hdata & _ & Hhead).
  exists r.
  assert (Hbytes : skb_bytes (x_skb r)
                   = htonl (ovpn_op32_compose OVPN_DATA_V2 (key_id ks)
                              (remote_peer_id ks))
                       ++ htonl pktid ++ drop (length (skb_bytes skb)) out
                       ++ take (length (skb_bytes skb)) out).
  { unfold skb_bytes at 1. rewrite Hhead, Hdata. apply drop_app_length. }
  assert (Hop : wire_op (x_skb r)
                = ovpn_op32_compose OVPN_DATA_V2 (key_id ks) (remote_peer_id ks)).
  { unfold wire_op. rewrite Hbytes, take_app_length' by (symmetry; apply htonl_length).
    apply ntohl_htonl, op32_range. }
  repeat (split; [assumption|]).
  rewrite Hop. apply opcode_compose_v2.
Qed.

(** X5: [ovpn_aead_encap_overhead] is what [ovpn_aead_encrypt] adds: a
    packet that has been handed to the cipher is longer by exactly the
    overhead, and the cipher was given the whole old packet, and nothing
    else, as plaintext. *)
Theorem encrypt_adds_encap_overhead env ks skb r req ad text ret :
  slot_created ks -> skb_wf skb ->
  ovpn_aead_encrypt env ks skb = Some r ->
  In (EvEncrypt req ad text ret) (x_trace r) ->
  exists overhead,
    ovpn_aead_encap_overhead ks = Some overhead /\
    skb_len (x_skb r) = (skb_len skb + overhead)%nat /\
    req_cryptlen req = skb_len skb /\
    text = skb_bytes skb.
Proof.
  intros Hks Hwf Henc Hin.
  destruct (encrypt_request env ks skb r req ad text ret Hks Hwf Henc Hin)
    as (te & A & T0 & ret0 & pktid & pid & out & Hte & _ & HT0 & -> & Had & ->
        & Hdata & Hhead).
  destruct (slot_created_inv ks Hks)
    as (te0 & td0 & Hte0 & _ & _ & _ & Hauth & _).
  rewrite Hte in Hte0. injection Hte0 as <-.
  exists 24%nat. unfold ovpn_aead_encap_overhead.
  rewrite Hte. unfold crypto_aead_authsize. rewrite Hauth.
  split; [reflexivity|].
  assert (Hl : length ad = 8%nat) by (rewrite Had, length_app, !htonl_length; lia).
  assert (Hlen : length (skb_head (x_skb r))
                 = length (A ++ ad ++ T0 ++ skb_bytes skb)).
  { rewrite Hhead. apply scatter_length.
    cbn [req_sg encrypt_req]. rewrite !length_app.
    repeat constructor; cbn [sg_off sg_len]; lia. }
  assert (Hb : length (skb_bytes skb) = skb_len skb).
  { unfold skb_bytes, skb_len. apply length_drop. }
  split; [|split].
  - unfold skb_len at 1. rewrite Hlen, Hdata, !length_app, Hl, HT0, Hb. lia.
  - exact Hb.
  - reflexivity.
Qed.

(** X6: what a transmit call does to the packet-id state.  A call that
    stops before the guard returns a negative code, the slot as it was and
    the payload as it came.  Whenever the guard was called, the slot holds
    the state the guard returned, also when the call then fails.  A call
    that returns 0 or more has asked the guard once, got a code that is not
    fatal, and has called the cipher once, whose code it returns. *)
Theorem encrypt_spends_pktid env ks skb r :
  slot_created ks -> skb_wf skb ->
  ovpn_aead_encrypt env ks skb = Some r ->
  (x_trace r = [] ->
   x_ks r = ks /\ x_ret r < 0 /\ skb_bytes (x_skb r) = skb_bytes skb)
  /\ (forall ret pktid,
         In (EvXmitNext ret pktid) (x_trace r) ->
         exists pid,
           ovpn_pktid_xmit_next (pid_xmit ks) (env_stack_pktid env)
           = (ret, pktid, pid) /\
           x_ks r = set_pid_xmit ks pid)
  /\ (0 <= x_ret r ->
      exists ret pktid req ad text,
        (0 <= ret \/ ret = -1) /\
        x_trace r = [EvXmitNext ret pktid; EvEncrypt req ad text (x_ret r)]).
Proof.
  intros Hks [Hskb _] Henc.
  destruct (slot_created_inv ks Hks)
    as (te & td & Hte & _ & _ & _ & Hauth & _ & Hxt & _).
  pose proof (encrypt_untraced_keeps_payload env ks skb r Hskb Henc) as Hkeep.
  destruct (encrypt_cases env ks skb r te Hte Hauth Hxt Hskb Henc)
    as [(Htr & Hk & Hneg) | [(ret & pktid & pid & Hnext & Hneg & Hnm & Hr & Hk & Htr)
       | (A & T0 & ret & pktid & pid & ret' & out & Hcase)]].
  - split; [auto|]. rewrite Htr. split.
    + intros ret pktid [].
    + intros Hpos. lia.
  - rewrite Htr. split; [discriminate|]. split.
    + intros ret1 pktid1 [Hin | []]. injection Hin as <- <-. eauto.
    + intros Hpos. lia.
  - cbv zeta in Hcase.
    destruct Hcase as (Hnext & Hret & _ & _ & Hr & Hk & Htr & _).
    rewrite Htr. split; [discriminate|]. split.
    + intros ret1 pktid1 [Hin | [Hin | []]]; [|discriminate].
      injection Hin as <- <-. eauto.
    + intros _. rewrite Hr. eauto 10.
Qed.

(** X7: neither transform touches the keys, nonce tails, key id or peer id
    of the slot; [ovpn_aead_encrypt] leaves the receive window alone and
    [ovpn_aead_decrypt] the transmit counter.  A created slot is still a
    created slot afterwards. *)
Theorem transforms_keep_slot env ks skb :
  (forall r,
      ovpn_aead_encrypt env ks skb = Some r ->
      ks_same_keys (x_ks r) ks /\ pid_recv (x_ks r) = pid_recv ks /\
      remote_peer_id (x_ks r) = remote_peer_id ks /\
      (slot_created ks -> slot_created (x_ks r)))
  /\ (forall op r,
         ovpn_aead_decrypt env ks skb op = Some r ->
         ks_same_keys (x_ks r) ks /\ pid_xmit (x_ks r) = pid_xmit ks /\
         remote_peer_id (x_ks r) = remote_peer_id ks /\
         (slot_created ks -> slot_created (x_ks r))).
Proof.
  assert (Hsame : forall ks', ks_same_keys ks' ks ->
                    slot_created ks -> slot_created ks').
  { intros ks' (H1 & H2 & H3 & H4 & H5 & H6)
      (st & alg & ek & dk & et & dt & kid & ks0 & st' & Hinit & Hs).
    exists st, alg, ek, dk, et, dt, kid, ks0, st'. split; [assumption|].
    destruct Hs as (G1 & G2 & G3 & G4 & G5 & G6).
    unfold ks_same_keys. repeat split; congruence. }
  assert (Hx : forall p, ks_same_keys (set_pid_xmit ks p) ks)
    by (intros p; repeat split).
  assert (Hr : forall p, ks_same_keys (set_pid_recv ks p) ks)
    by (intros p; repeat split).
  assert (H0 : ks_same_keys ks ks) by (repeat split).
  pose proof (Hsame ks H0) as Hs0.
  pose proof (fun p => Hsame _ (Hx p)) as Hsx.
  pose proof (fun p => Hsame _ (Hr p)) as Hsr.
  split.
  - intros r. unfold ovpn_aead_encrypt.
    destruct (ks_encrypt ks) as [te|]; [|discriminate].
    destruct (ovpn_aead_encap_overhead ks) as [hs|]; [|discriminate].
    destruct (skb_cow_head env skb _) as [skb1|];
      [|intros Heq; slot_kept].
    destruct (env_cow_data env <? 0); [intros Heq; slot_kept|].
    destruct (MAX_SKB_FRAGS + 2 <? env_cow_data env); [intros Heq; slot_kept|].
    destruct (negb (env_req_alloc_ok env)); [intros Heq; slot_kept|].
    destruct (MAX_SKB_FRAGS + 2 <? env_cow_data env + 2); [discriminate|].
    destruct (negb (env_cow_data env =? env_sgvec env)); [intros Heq; slot_kept|].
    destruct (ovpn_pktid_xmit_next _ _) as [[ret pktid] pid].
    destruct (_ && _); [intros Heq; slot_kept|].
    destruct (crypto_aead_encrypt _ _). intros Heq; slot_kept.
  - intros op r. unfold ovpn_aead_decrypt.
    destruct (ks_decrypt ks) as [td|]; [|discriminate].
    destruct (if ovpn_opcode_extract op =? OVPN_DATA_V2 then Some OVPN_OP_SIZE_V2
              else if ovpn_opcode_extract op =? OVPN_DATA_V1
                   then Some OVPN_OP_SIZE_V1 else None) as [opsize|];
      [|intros Heq; slot_kept].
    destruct (_ || _); [intros Heq; slot_kept|].
    destruct (env_cow_data env <? 0); [intros Heq; slot_kept|].
    destruct (MAX_SKB_FRAGS + 2 <? env_cow_data env); [intros Heq; slot_kept|].
    destruct (negb (env_req_alloc_ok env)); [intros Heq; slot_kept|].
    destruct (MAX_SKB_FRAGS + 2 <? env_cow_data env + 2); [discriminate|].
    destruct (negb (env_cow_data env =? env_sgvec env)); [intros Heq; slot_kept|].
    destruct (crypto_aead_decrypt _ _) as [ret buf].
    destruct (ret <? 0); [intros Heq; slot_kept|].
    destruct (ovpn_pktid_recv _ _ _) as [ret2 pr].
    destruct (ret2 <? 0); intros Heq; slot_kept.
Qed.


(** ** Receive *)

(** The receive call on a packet whose parts are known. *)
Lemma decrypt_run env ks skb op td opsize A hdr idb T C :
  ks_decrypt ks = Some td -> tfm_authsize td = 16%nat ->
  length (nonce_tail_recv ks) = 8%nat ->
  opsize_of (ovpn_opcode_extract op) opsize ->
  skb_head skb = A ++ hdr ++ idb ++ T ++ C -> skb_data skb = length A ->
  length hdr = opsize -> length idb = 4%nat -> length T = 16%nat ->
  Z.of_nat (length (skb_head skb)) < 2 ^ 31 ->
  env_serves env ->
  exists r ret out,
    let ad := if (opsize =? 1)%nat then idb else hdr ++ idb in
    let iv := idb ++ nonce_tail_recv ks in
    let req := decrypt_req td A opsize (length C) iv in
    let buf := sg_scatter (skb_head skb) (req_sg req) (ad ++ out) in
    let ev := EvDecrypt req ad (C ++ T) ret in
    let id := ntohl (slice buf (skb_data skb + opsize) 4) in
    ovpn_aead_decrypt env ks skb op = Some r
    /\ alg_decrypt td iv ad (C ++ T) = (ret, out)
    /\ (ret < 0 /\
        r = {| x_ret := ret;
               x_skb := {| skb_head := buf; skb_data := skb_data skb |};
               x_ks := ks; x_trace := [ev] |}
        \/ 0 <= ret /\ exists ret2 pr,
             ovpn_pktid_recv (pid_recv ks) id 0 = (ret2, pr) /\
             (ret2 < 0 /\
              r = {| x_ret := ret2;
                     x_skb := {| skb_head := buf; skb_data := skb_data skb |};
                     x_ks := set_pid_recv ks pr;
                     x_trace := [ev; EvPktidRecv id ret2] |}
              \/ 0 <= ret2 /\
              r = {| x_ret := ret2;
                     x_skb := {| skb_head := buf;
                                 skb_data := skb_data skb + (opsize + 20) |};
                     x_ks := set_pid_recv ks pr;
                     x_trace := [ev; EvPktidRecv id ret2] |})).
Proof.
  intros Htd Hauth Hrt Hops Hhead Hdata Hh Hi HT Hsz Hserves.
  destruct (decrypt_total env ks skb op td Htd) as [r Hdec];
    [destruct Hserves as (_ & [_ Hfit] & _); exact Hfit|].
  assert (Hwf : skb_wf skb).
  { split; [|lia]. rewrite Hdata, Hhead, length_app. lia. }
  assert (Hop : opsize = 4%nat \/ opsize = 1%nat).
  { destruct Hops as [[_ ->] | [_ ->]]; auto. }
  destruct (decrypt_cases env ks skb op r td Htd Hauth Hrt Hwf Hdec)
    as [(_ & _ & _ & _ & Hwhy) | Hrun].
  { exfalso. destruct Hwhy as [Hwhy | [[H1 H2] | (opsize' & Hops' & Hwhy)]].
    - contradiction.
    - destruct Hops as [[Hx _] | [Hx _]]; contradiction.
    - apply Hwhy.
      assert (opsize' = opsize).
      { destruct Hops as [[Hx ->] | [Hx ->]], Hops' as [[Hy ->] | [Hy ->]];
          try reflexivity; rewrite Hx in Hy; discriminate. }
      subst opsize'. unfold skb_len. rewrite Hdata.
      rewrite Hhead, !length_app in *. lia. }
  destruct Hrun as (opsize' & A' & hdr' & idb' & T' & C' & ret & out & Hrun).
  cbv zeta in Hrun.
  destruct Hrun as (Hops' & Hhead' & HA' & Hh' & Hi' & HT' & _ & _ & Hopen & Hfin).
  assert (Heq : opsize' = opsize).
  { destruct Hops as [[Hx ->] | [Hx ->]], Hops' as [[Hy ->] | [Hy ->]];
      try reflexivity; rewrite Hx in Hy; discriminate. }
  rewrite Heq in *. clear Heq opsize'.
  rewrite Hhead in Hhead'.
  apply app_inj_1 in Hhead' as [<- Hrest]; [|lia].
  apply app_inj_1 in Hrest as [<- Hrest]; [|lia].
  apply app_inj_1 in Hrest as [<- Hrest]; [|lia].
  apply app_inj_1 in Hrest as [<- <-]; [|lia].
  exists r, ret, out. cbv zeta.
  split; [assumption|]. split; assumption.
Qed.

(** The receive call on a packet whose parts are known, when the cipher
    accepts it and returns as many bytes as the payload had. *)
Lemma open_run env ks skb op td opsize A hdr idb T C ret out ret2 pr :
  ks_decrypt ks = Some td -> tfm_authsize td = 16%nat ->
  length (nonce_tail_recv ks) = 8%nat ->
  opsize_of (ovpn_opcode_extract op) opsize ->
  skb_head skb = A ++ hdr ++ idb ++ T ++ C -> skb_data skb = length A ->
  length hdr = opsize -> length idb = 4%nat -> length T = 16%nat ->
  Z.of_nat (length (skb_head skb)) < 2 ^ 31 ->
  env_serves env ->
  alg_decrypt td (idb ++ nonce_tail_recv ks)
    (if (opsize =? 1)%nat then idb else hdr ++ idb) (C ++ T) = (ret, out) ->
  0 <= ret -> length out = length C ->
  ovpn_pktid_recv (pid_recv ks) (ntohl idb) 0 = (ret2, pr) ->
  ovpn_aead_decrypt env ks skb op
  = Some {| x_ret := ret2;
            x_skb := {| skb_head := A ++ hdr ++ idb ++ T ++ out;
                        skb_data := if ret2 <? 0 then length A
                                    else (length A + (opsize + 20))%nat |};
            x_ks := set_pid_recv ks pr;
            x_trace := [EvDecrypt
                          (decrypt_req td A opsize (length C)
                             (idb ++ nonce_tail_recv ks))
                          (if (opsize =? 1)%nat then idb else hdr ++ idb)
                          (C ++ T) ret;
                        EvPktidRecv (ntohl idb) ret2] |}.
Proof.
  intros Htd Hauth Hrt Hops Hhead Hdata Hh Hi HT Hsz Hserves Hopen Hret Hout Hrecv.
  assert (Hop : opsize = 4%nat \/ opsize = 1%nat).
  { destruct Hops as [[_ ->] | [_ ->]]; auto. }
  destruct (decrypt_run env ks skb op td opsize A hdr idb T C
              Htd Hauth Hrt Hops Hhead Hdata Hh Hi HT Hsz Hserves)
    as (r & ret' & out' & Hrun).
  cbv zeta in Hrun. destruct Hrun as (Hdec & Hopen' & Hfin).
  rewrite Hopen in Hopen'. injection Hopen' as <- <-.
  rewrite Hdec. f_equal.
  rewrite Hhead in Hfin.
  rewrite scatter_open_any in Hfin by assumption.
  assert (Hid : slice (A ++ hdr ++ idb ++ T ++ out) (skb_data skb + opsize) 4 = idb).
  { replace (A ++ hdr ++ idb ++ T ++ out) with ((A ++ hdr) ++ idb ++ T ++ out)
      by (rewrite <- !app_assoc; reflexivity).
    apply slice_app; [rewrite length_app; lia | assumption]. }
  rewrite Hid, Hrecv in Hfin.
  destruct Hfin as [[Hn _] | (_ & ret3 & pr3 & Heq & Hfin)]; [lia|].
  injection Heq as <- <-.
  destruct Hfin as [[Hn ->] | [Hn ->]].
  - replace (ret2 <? 0) with true by (symmetry; apply Z.ltb_lt; lia).
    rewrite Hdata. reflexivity.
  - replace (ret2 <? 0) with false by (symmetry; apply Z.ltb_ge; lia).
    rewrite Hdata. reflexivity.
Qed.

(** X8: a DATA_V1 or DATA_V2 packet made of header, wire packet id, tag
    and ciphertext, in a buffer below 2^31 bytes, with the buffer services
    at hand and at most [MAX_SKB_FRAGS] fragments: the call returns, and
    the cipher is given the ciphertext followed by the tag (the
    wire has the tag first); when it accepts and returns as many bytes as
    the ciphertext had, the guard is asked about the wire packet id, its
    code is returned and its state stored.  If the guard accepts, the packet
    is the plaintext; if it refuses, the packet still starts at its header,
    with the plaintext already written over the ciphertext.  The bytes in
    front of the packet are never touched. *)
Theorem decrypt_opens_packet env ks skb op td opsize hdr idb T C ret out ret2 pr :
  slot_created ks -> ks_decrypt ks = Some td ->
  opsize_of (ovpn_opcode_extract op) opsize ->
  (skb_data skb <= length (skb_head skb))%nat ->
  Z.of_nat (length (skb_head skb)) < 2 ^ 31 ->
  skb_bytes skb = hdr ++ idb ++ T ++ C ->
  length hdr = opsize -> length idb = 4%nat -> length T = 16%nat ->
  env_serves env ->
  alg_decrypt td (idb ++ nonce_tail_recv ks)
    (if (opsize =? 1)%nat then idb else hdr ++ idb) (C ++ T) = (ret, out) ->
  0 <= ret -> length out = length C ->
  ovpn_pktid_recv (pid_recv ks) (ntohl idb) 0 = (ret2, pr) ->
  exists r,
    ovpn_aead_decrypt env ks skb op = Some r /\
    x_ret r = ret2 /\ x_ks r = set_pid_recv ks pr /\
    take (skb_data skb) (skb_head (x_skb r)) = take (skb_data skb) (skb_head skb) /\
    (0 <= ret2 -> skb_bytes (x_skb r) = out) /\
    (ret2 < 0 -> skb_bytes (x_skb r) = hdr ++ idb ++ T ++ out).
Proof.
  intros Hks Htd Hops Hd Hsz Hbytes Hh Hi HT Hserves Hopen Hret Hout Hrecv.
  destruct (slot_created_inv ks Hks)
    as (te1 & td1 & _ & Htd1 & _ & _ & _ & Hauth & _ & Hrt).
  rewrite Htd in Htd1. injection Htd1 as <-.
  set (A := take (skb_data skb) (skb_head skb)).
  assert (HA : length A = skb_data skb) by (unfold A; rewrite length_take; lia).
  assert (Hhead : skb_head skb = A ++ hdr ++ idb ++ T ++ C).
  { rewrite <- Hbytes. unfold A, skb_bytes. symmetry. apply take_drop. }
  eexists. split.
  { exact (open_run env ks skb op td opsize A hdr idb T C ret out ret2 pr
             Htd Hauth Hrt Hops Hhead (eq_sym HA) Hh Hi HT Hsz Hserves
             Hopen Hret Hout Hrecv). }
  cbn [x_ret x_ks x_skb skb_head].
  split; [reflexivity|]. split; [reflexivity|].
  split; [|split].
  - rewrite <- HA. rewrite !take_app_length. reflexivity.
  - intros Hpos. unfold skb_bytes. cbn [skb_head skb_data].
    replace (ret2 <? 0) with false by (symmetry; apply Z.ltb_ge; lia).
    replace (A ++ hdr ++ idb ++ T ++ out) with ((A ++ hdr ++ idb ++ T) ++ out)
      by (rewrite <- !app_assoc; reflexivity).
    apply drop_app_length'. rewrite !length_app. lia.
  - intros Hneg. unfold skb_bytes. cbn [skb_head skb_data].
    replace (ret2 <? 0) with true by (symmetry; apply Z.ltb_lt; lia).
    apply drop_app_length.
Qed.

(** X9: [ovpn_aead_decrypt] moves the data pointer only when it returns 0
    or more, and then by header, packet id and tag; this happens only after
    the cipher and then the guard have accepted.  On every failure the data
    pointer stays; a call that never reaches the cipher hands buffer and slot
    back untouched.  Whatever happens, the bytes up to the end of the wire
    packet id are not modified. *)
Theorem decrypt_strips_header_only_on_success env ks skb op r :
  slot_created ks -> skb_wf skb ->
  ovpn_aead_decrypt env ks skb op = Some r ->
  (0 <= x_ret r ->
   exists opsize req ad text ret id,
     opsize_of (ovpn_opcode_extract op) opsize /\
     x_trace r = [EvDecrypt req ad text ret; EvPktidRecv id (x_ret r)] /\
     0 <= ret /\
     skb_data (x_skb r) = (skb_data skb + (opsize + 4 + 16))%nat)
  /\ (x_ret r < 0 -> skb_data (x_skb r) = skb_data skb)
  /\ (x_trace r = [] -> x_ret r < 0 /\ x_skb r = skb /\ x_ks r = ks)
  /\ (forall opsize,
         opsize_of (ovpn_opcode_extract op) opsize ->
         take (skb_data skb + opsize + 4) (skb_head (x_skb r))
         = take (skb_data skb + opsize + 4) (skb_head skb)).
Proof.
  intros Hks Hwf Hdec.
  destruct (slot_created_inv ks Hks)
    as (te & td & _ & Htd & _ & _ & _ & Hauth & _ & Hrt).
  destruct (decrypt_cases env ks skb op r td Htd Hauth Hrt Hwf Hdec)
    as [(Htr & Hsame & Hskb & Hneg & _)
       | (opsize & A & hdr & idb & T & C & retd & out & Hrun)].
  { split; [intros; lia|]. split; [now rewrite Hskb|]. split; [auto|].
    now rewrite Hskb. }
  cbv zeta in Hrun.
  destruct Hrun as (Hops & Hhead & HA & Hh & Hi & HT & _ & _ & _ & Hfin).
  assert (Hop : opsize = 4%nat \/ opsize = 1%nat).
  { destruct Hops as [[_ ->] | [_ ->]]; auto. }
  assert (Hkeep : forall opsize',
             opsize_of (ovpn_opcode_extract op) opsize' ->
             take (skb_data skb + opsize' + 4)
               (sg_scatter (skb_head skb)
                  (req_sg (decrypt_req td A opsize (length C)
                             (idb ++ nonce_tail_recv ks)))
                  ((if (opsize =? 1)%nat then idb else hdr ++ idb) ++ out))
             = take (skb_data skb + opsize' + 4) (skb_head skb)).
  { intros opsize' Hops'.
    assert (opsize' = opsize) as ->.
    { destruct Hops as [[Hx ->] | [Hx ->]], Hops' as [[Hy ->] | [Hy ->]];
        try reflexivity; rewrite Hx in Hy; discriminate. }
    rewrite <- HA. rewrite Hhead at 1.
    rewrite scatter_keeps_header by assumption.
    rewrite Hhead.
    replace (A ++ hdr ++ idb ++ T ++ C) with ((A ++ hdr ++ idb) ++ T ++ C)
      by (rewrite <- !app_assoc; reflexivity).
    symmetry. apply take_app_length'. rewrite !length_app. lia. }
  destruct Hfin as [[Hn ->] | (Hpos & ret2 & pr & Hrecv & [[Hn ->] | [Hn ->]])];
    cbn [x_ret x_skb x_trace skb_data skb_head].
  - split; [intros; lia|]. split; [reflexivity|]. split; [discriminate|].
    exact Hkeep.
  - split; [intros; lia|]. split; [reflexivity|]. split; [discriminate|].
    exact Hkeep.
  - split; [|split; [intros; lia | split; [discriminate | exact Hkeep]]].
    intros _. eexists opsize, _, _, _, retd, _.
    split; [assumption|]. split; [reflexivity|]. split; [assumption|]. lia.
Qed.



(** X10: two slots made by [ovpn_aead_crypto_key_slot_new], one from a key
    configuration and one from its mirror (directions exchanged), at any
    later point of their lives: with the buffer services at hand, at most
    [MAX_SKB_FRAGS] fragments in either call, a packet id from the guard, a
    sound cipher that succeeds and a replay window that
    accepts the id, [ovpn_aead_encrypt] on the first followed by
    [ovpn_aead_decrypt] on the second returns the packet that was sent. *)
Theorem mirrored_configs_roundtrip :
  aead_sound O ->
  forall st st' kc ks0 ks0' st1 st1' ks ks' te env env' skb ret0 pktid pid,
    ovpn_aead_crypto_key_slot_new st kc = (inr ks0, st1) ->
    ovpn_aead_crypto_key_slot_new st' (kc_mirror kc) = (inr ks0', st1') ->
    ks_same_keys ks ks0 -> ks_same_keys ks' ks0' ->
    (skb_data skb <= length (skb_head skb))%nat ->
    Z.of_nat (length (skb_head skb)) + Z.of_nat OVPN_HEAD_ROOM + 24 < 2 ^ 31 ->
    env_serves_xmit env -> env_serves env' ->
    ovpn_pktid_xmit_next (pid_xmit ks) (env_stack_pktid env) = (ret0, pktid, pid) ->
    0 <= ret0 \/ ret0 = -1 ->
    0 <= pktid < 2 ^ 32 ->
    ks_encrypt ks = Some te ->
    fst (alg_encrypt te (htonl pktid ++ nonce_tail_xmit ks)
           (htonl (ovpn_op32_compose OVPN_DATA_V2 (key_id ks) (remote_peer_id ks))
              ++ htonl pktid) (skb_bytes skb)) = 0 ->
    fst (ovpn_pktid_recv (pid_recv ks') pktid 0) = 0 ->
    exists r r',
      ovpn_aead_encrypt env ks skb = Some r /\ x_ret r = 0 /\
      x_ks r = set_pid_xmit ks pid /\
      ovpn_aead_decrypt env' ks' (x_skb r) (wire_op (x_skb r)) = Some r' /\
      x_ret r' = 0 /\ skb_bytes (x_skb r') = skb_bytes skb /\
      ovpn_opcode_extract (wire_op (x_skb r)) = OVPN_DATA_V2.
Proof.
  intros Hsound st st' kc ks0 ks0' st1 st1' ks ks' te env env' skb ret0 pktid pid
    Hnew Hnew' Hsame Hsame' Hskb Hsz Hserves Hserves' Hnext Hret0 Hpk Hte Hseal0
    Hreplay.
  destruct (slot_new_ok _ _ _ _ Hnew)
    as (te0 & td0 & Hte0 & _ & Halg & _ & Hkey & _ & Hauth & _ & Hxt0 & _ & Hxl0 & _).
  destruct (slot_new_ok _ _ _ _ Hnew')
    as (te1 & td1 & _ & Htd1 & _ & Halg' & _ & Hkey' & _ & Hauth' & _ & Hrt1 & _
        & Hrl1 & _).
  cbn [kc_mirror kc_decrypt kc_encrypt] in Hkey', Hrt1.
  destruct Hsame as (_ & Se & _ & Sx & _ & _).
  destruct Hsame' as (_ & _ & Sd' & _ & Sr' & _).
  rewrite Se, Hte0 in Hte. injection Hte as <-.
  assert (Hte : ks_encrypt ks = Some te0) by congruence.
  assert (Htd : ks_decrypt ks' = Some td1) by congruence.
  assert (Hxl : length (nonce_tail_xmit ks) = 8%nat) by congruence.
  assert (Hrl : length (nonce_tail_recv ks') = 8%nat) by congruence.
  assert (Htails : nonce_tail_recv ks' = nonce_tail_xmit ks) by congruence.
  set (opw := ovpn_op32_compose OVPN_DATA_V2 (key_id ks) (remote_peer_id ks)) in *.
  set (P0 := skb_bytes skb) in *.
  destruct (alg_encrypt te0 (htonl pktid ++ nonce_tail_xmit ks)
              (htonl opw ++ htonl pktid) P0) as [ret out] eqn:Hseal.
  cbn [fst] in Hseal0. subst ret.
  pose proof (seal_length O Hsound _ _ _ _ _ Hseal) as Hout. rewrite Hauth in Hout.
  destruct (seal_run env ks skb te0 ret0 pktid pid 0 out
              Hte Hauth Hxl Hskb Hserves Hnext Hret0 Hseal Hout)
    as (r & A & Henc & Hr & Hk & _ & Hdata & HA & Hhead).
  fold P0 in Hhead.
  set (Cn := take (length P0) out) in *.
  set (T := drop (length P0) out) in *.
  assert (HCn : length Cn = length P0) by (unfold Cn; rewrite length_take; lia).
  assert (HT : length T = 16%nat) by (unfold T; rewrite length_drop; lia).
  assert (HP0 : length P0 = skb_len skb) by apply length_drop.
  assert (Hbytes : skb_bytes (x_skb r) = htonl opw ++ htonl pktid ++ T ++ Cn).
  { unfold skb_bytes. now rewrite Hhead, Hdata, drop_app_length. }
  assert (Hop : wire_op (x_skb r) = opw).
  { unfold wire_op. rewrite Hbytes, take_app_length' by reflexivity.
    apply ntohl_htonl, op32_range. }
  assert (Hopcode : ovpn_opcode_extract (wire_op (x_skb r)) = OVPN_DATA_V2).
  { rewrite Hop. apply opcode_compose_v2. }
  assert (Hopen : alg_decrypt td1 (htonl pktid ++ nonce_tail_recv ks')
                    (htonl opw ++ htonl pktid) (Cn ++ T) = (0, P0)).
  { rewrite Htails. unfold Cn, T. rewrite take_drop.
    apply (open_seal O Hsound te0 td1); auto; congruence. }
  destruct (ovpn_pktid_recv (pid_recv ks') pktid 0) as [ret2 pr] eqn:Hrecv.
  cbn [fst] in Hreplay. subst ret2.
  assert (Hrun := open_run env' ks' (x_skb r) (wire_op (x_skb r)) td1 4 A
                    (htonl opw) (htonl pktid) T Cn 0 P0 0 pr
                    Htd Hauth' Hrl).
  rewrite ntohl_htonl in Hrun by assumption.
  cbn [Nat.eqb] in Hrun.
  assert (Hsz' : Z.of_nat (length (skb_head (x_skb r))) < 2 ^ 31).
  { rewrite Hhead, !length_app, !htonl_length, HT, HCn.
    unfold skb_len in HP0. lia. }
  specialize (Hrun (or_introl (conj Hopcode eq_refl)) Hhead Hdata
                (htonl_length opw) (htonl_length pktid) HT Hsz' Hserves' Hopen
                (Z.le_refl 0) (eq_sym HCn) Hrecv).
  exists r. eexists.
  split; [exact Henc|]. split; [exact Hr|]. split; [exact Hk|].
  split; [exact Hrun|]. cbn [x_ret x_skb].
  split; [reflexivity|]. split; [|exact Hopcode].
  unfold skb_bytes. cbn [skb_head skb_data Z.ltb Z.compare].
  replace (A ++ htonl opw ++ htonl pktid ++ T ++ P0)
    with ((A ++ htonl opw ++ htonl pktid ++ T) ++ P0)
    by (rewrite <- !app_assoc; reflexivity).
  apply drop_app_length'. rewrite !length_app, !htonl_length, HT. lia.
Qed.

End Lifecycle.

(** ** Binds of a peer *)

(** A bind is returned only for a validated IPv4 or IPv6 address, and sits
    in a new allocation. *)
Lemma bind_from_sockaddr_inr validate st ss b st' :
  ovpn_bind_from_sockaddr validate st ss = (inr b, st') ->
  (ss_family ss = AF_INET \/ ss_family ss = AF_INET6) /\
  0 <= validate ss /\
  kalloc st = (Some (bind_addr b), st') /\
  (bind_addr b ∉ k_live st) /\
  k_live st' = {[bind_addr b]} ∪ k_live st.
Proof.
  unfold ovpn_bind_from_sockaddr.
  destruct (ss_family ss =? AF_INET) eqn:H4;
    [|destruct (ss_family ss =? AF_INET6) eqn:H6; [|discriminate]].
  all: destruct (validate ss <? 0) eqn:Hv; [discriminate|].
  all: destruct (kalloc st) as [[a|] st1] eqn:Hk; [|discriminate].
  all: intros [= <- <-]; cbn [bind_addr bind_filled].
  all: apply Z.ltb_ge in Hv.
  all: destruct (kalloc_some _ _ _ Hk) as (Hfresh & Hlive).
  all: repeat split; try assumption; try reflexivity.
  - left. now apply Z.eqb_eq.
  - right. now apply Z.eqb_eq.
Qed.

(** X11: the failures of [ovpn_bind_from_sockaddr].  A negative verdict of
    [ovpn_sockaddr_validate] is returned as it is, before anything is
    allocated; a failed allocation gives ENOMEM; every failure code is
    negative and leaves the live allocations as they were.  A bind is
    returned only for an IPv4 or IPv6 address that was validated. *)
Theorem bind_from_sockaddr_failures validate st ss :
  (ss_family ss = AF_INET \/ ss_family ss = AF_INET6 ->
   validate ss < 0 ->
   ovpn_bind_from_sockaddr validate st ss = (inl (validate ss), st))
  /\ (ss_family ss = AF_INET \/ ss_family ss = AF_INET6 ->
      0 <= validate ss -> fst (kalloc st) = None ->
      fst (ovpn_bind_from_sockaddr validate st ss) = inl (- ENOMEM))
  /\ (forall e st',
         ovpn_bind_from_sockaddr validate st ss = (inl e, st') ->
         e < 0 /\ k_live st' = k_live st)
  /\ (forall b st',
         ovpn_bind_from_sockaddr validate st ss = (inr b, st') ->
         (ss_family ss = AF_INET \/ ss_family ss = AF_INET6) /\
         0 <= validate ss /\ fst (kalloc st) = Some (bind_addr b)).
Proof.
  assert (Hfam : ss_family ss = AF_INET \/ ss_family ss = AF_INET6 ->
                 exists n, (if ss_family ss =? AF_INET then Some sizeof_sockaddr_in
                            else if ss_family ss =? AF_INET6
                                 then Some sizeof_sockaddr_in6 else None) = Some n).
  { intros [-> | ->]; cbn; eauto. }
  split; [|split; [|split]].
  - intros Hf Hv. unfold ovpn_bind_from_sockaddr.
    destruct (Hfam Hf) as [n ->].
    now replace (validate ss <? 0) with true by (symmetry; apply Z.ltb_lt; lia).
  - intros Hf Hv Hk. unfold ovpn_bind_from_sockaddr.
    destruct (Hfam Hf) as [n ->].
    replace (validate ss <? 0) with false by (symmetry; apply Z.ltb_ge; lia).
    destruct (kalloc st) as [[a|] st1]; [discriminate|]. reflexivity.
  - intros e st'. unfold ovpn_bind_from_sockaddr.
    destruct (if ss_family ss =? AF_INET then _ else _) as [n|].
    + destruct (validate ss <? 0) eqn:Hv.
      * intros [= <- <-]. apply Z.ltb_lt in Hv. split; [assumption|reflexivity].
      * destruct (kalloc st) as [[a|] st1] eqn:Hk; [discriminate|].
        intros [= <- <-]. split; [reflexivity|].
        now destruct (kalloc_none _ _ Hk).
    + intros [= <- <-]. split; reflexivity.
  - intros b st' Hb.
    destruct (bind_from_sockaddr_inr _ _ _ _ _ Hb) as (Hf & Hv & Hk & _).
    rewrite Hk. auto.
Qed.

Lemma peer_binds_reset peer new :
  peer_binds (ovpn_bind_reset peer new) = peer_binds peer ++ option_list new.
Proof.
  unfold peer_binds, ovpn_bind_reset. simpl.
  destruct (peer_bind peer); simpl.
  - now rewrite <- app_assoc.
  - now rewrite app_nil_r.
Qed.

Lemma peer_owns_reset st st' peer b :
  peer_owns st peer ->
  bind_addr b ∉ k_live st -> k_live st' = {[bind_addr b]} ∪ k_live st ->
  peer_owns st' (ovpn_bind_reset peer (Some b)).
Proof.
  intros [Hnd Hall] Hfresh Hlive.
  unfold peer_owns. rewrite peer_binds_reset. simpl. split.
  - rewrite fmap_app. apply NoDup_app. split; [assumption|]. split.
    + intros a Ha Hb. simpl in Hb. apply list_elem_of_singleton in Hb. subst a.
      apply list_elem_of_fmap in Ha as (b' & Heq & Hin).
      rewrite Forall_forall in Hall. specialize (Hall b' Hin).
      rewrite <- Heq in Hall. contradiction.
    + apply NoDup_singleton.
  - apply Forall_app. split.
    + eapply Forall_impl; [eassumption|]. simpl. intros x Hx. rewrite Hlive.
      set_solver.
    + constructor; [|constructor]. rewrite Hlive. set_solver.
Qed.

(** X12: attaching a bind made by [ovpn_bind_from_sockaddr] with
    [ovpn_bind_reset] makes it the current bind and keeps the peer's binds
    live and distinct; the bind it replaces is queued for release, is still
    allocated and is another allocation than the new one.  Releasing the new
    bind at once with [ovpn_bind_release] would restore the allocations from
    before it was made. *)
Theorem bind_reset_keeps_ownership validate st ss peer b st' :
  peer_owns st peer ->
  ovpn_bind_from_sockaddr validate st ss = (inr b, st') ->
  peer_bind (ovpn_bind_reset peer (Some b)) = Some b /\
  peer_owns st' (ovpn_bind_reset peer (Some b)) /\
  (forall old,
      peer_bind peer = Some old ->
      old ∈ peer_rcu_pending (ovpn_bind_reset peer (Some b)) /\
      bind_addr old ∈ k_live st' /\ bind_addr old <> bind_addr b) /\
  k_live (ovpn_bind_release st' b) = k_live st.
Proof.
  intros Hown Hb.
  destruct (bind_from_sockaddr_inr _ _ _ _ _ Hb) as (_ & _ & _ & Hfresh & Hlive).
  split; [reflexivity|]. split; [|split].
  - eapply peer_owns_reset; eassumption.
  - intros old Hold.
    destruct Hown as [_ Hall]. rewrite Forall_forall in Hall.
    assert (Hin : bind_addr old ∈ k_live st).
    { apply Hall. unfold peer_binds. rewrite Hold. simpl.
      apply elem_of_app. right. apply list_elem_of_singleton. reflexivity. }
    split; [|split].
    + unfold ovpn_bind_reset. rewrite Hold. simpl.
      apply elem_of_app. right. apply list_elem_of_singleton. reflexivity.
    + rewrite Hlive. set_solver.
    + intros Heq. rewrite Heq in Hin. contradiction.
  - unfold ovpn_bind_release. now apply kfree_fresh.
Qed.

(** X13: over any series of [ovpn_bind_reset] calls no bind is lost: the
    binds the peer is responsible for are the ones it had and every bind
    that was attached, in order; the current bind is the last argument
    (none after a reset to NULL), and the release queue only grows. *)
Theorem bind_resets_queue_every_replaced_bind peer news :
  peer_binds (bind_resets peer news) = peer_binds peer ++ omap id news /\
  peer_bind (bind_resets peer news) = default (peer_bind peer) (last news) /\
  exists queued,
    peer_rcu_pending (bind_resets peer news) = peer_rcu_pending peer ++ queued.
Proof.
  unfold bind_resets. revert peer.
  induction news as [|new news IH]; intros peer; simpl.
  - split; [now rewrite app_nil_r|]. split; [reflexivity|].
    exists []. now rewrite app_nil_r.
  - destruct (IH (ovpn_bind_reset peer new)) as (IH1 & IH2 & queued & IH3).
    split; [|split].
    + rewrite IH1, peer_binds_reset, <- app_assoc. f_equal.
      destruct new; reflexivity.
    + rewrite IH2. destruct news as [|n2 news]; [reflexivity|].
      change (last (new :: n2 :: news)) with (last (n2 :: news)).
      destruct (last (n2 :: news)) eqn:E; [reflexivity|].
      apply last_None in E. discriminate.
    + rewrite IH3. unfold ovpn_bind_reset at 1. simpl.
      destruct (peer_bind peer).
      * eexists. now rewrite <- app_assoc.
      * eexists. reflexivity.
Qed.

(** Running the release callbacks frees the addresses of the binds they
    were registered for. *)
Lemma release_fold_live pend : forall st,
  k_live (fold_left ovpn_bind_release_rcu pend st)
  = k_live st ∖ list_to_set (bind_addr <$> pend).
Proof.
  induction pend as [|b pend IH]; intros st; simpl.
  - set_solver.
  - rewrite IH. unfold ovpn_bind_release_rcu, ovpn_bind_release, kfree. simpl.
    set_solver.
Qed.

(** X14: once the callbacks registered by [ovpn_bind_reset] have run, every
    replaced bind is freed through [ovpn_bind_release_rcu], the current bind
    is still attached and still allocated, and nothing else was freed. *)
Theorem rcu_callbacks_free_replaced_binds st peer st' peer' :
  peer_owns st peer ->
  rcu_callbacks_run st peer = (st', peer') ->
  peer_bind peer' = peer_bind peer /\ peer_rcu_pending peer' = [] /\
  k_live st' = k_live st ∖ list_to_set (bind_addr <$> peer_rcu_pending peer) /\
  (forall b, b ∈ peer_rcu_pending peer -> bind_addr b ∉ k_live st') /\
  peer_owns st' peer'.
Proof.
  intros [Hnd Hall] [= <- <-]. simpl.
  pose proof (release_fold_live (peer_rcu_pending peer) st) as Hlive.
  split; [reflexivity|]. split; [reflexivity|]. split; [assumption|]. split.
  - intros b Hin. rewrite Hlive. intros Hx.
    apply elem_of_difference in Hx as [_ Hx]. apply Hx.
    apply elem_of_list_to_set, list_elem_of_fmap. exists b. now split.
  - unfold peer_owns, peer_binds in *. simpl.
    destruct (peer_bind peer) as [cur|]; simpl in *.
    + split; [repeat constructor; set_solver|].
      constructor; [|constructor]. rewrite Hlive.
      rewrite fmap_app in Hnd. apply NoDup_app in Hnd as (_ & Hdis & _).
      rewrite Forall_app in Hall. destruct Hall as [_ Hcur].
      inversion Hcur; subst.
      apply elem_of_difference. split; [assumption|].
      intros Hx. apply elem_of_list_to_set in Hx.
      apply (Hdis _ Hx). simpl. apply list_elem_of_singleton. reflexivity.
    + split; constructor.
Qed.

(** ** On concrete packets, slots and binds *)

Lemma sample_env_serves : env_serves sample_env.
Proof.
  unfold env_serves, MAX_SKB_FRAGS. cbn.
  split; [reflexivity|]. split; [lia|]. split; reflexivity.
Qed.

Lemma sample_env_serves_xmit : env_serves_xmit sample_env.
Proof.
  unfold env_serves_xmit, MAX_SKB_FRAGS. cbn.
  split; [reflexivity|]. split; [lia|]. split; reflexivity.
Qed.

Lemma key_slot_destroy_undoes_init_witness :
  exists st',
    sample_init (repeat 1 16) (repeat 1 16) (repeat 7 8) (repeat 7 8)
    = (inr paired_slot, st') /\
    k_live (ovpn_aead_crypto_key_slot_destroy st'
              (Some (set_pid_xmit paired_slot {| seq_num := 5 |})))
    = k_live sample_kstate.
Proof.
  eexists. split; [vm_compute; reflexivity|].
  apply (key_slot_destroy_undoes_init (O := mask_ops) sample_kstate
           OVPN_CIPHER_ALG_AES_GCM (repeat 1 16) (repeat 1 16) (repeat 7 8)
           (repeat 7 8) 0 paired_slot).
  - vm_compute; reflexivity.
  - repeat split.
Defined.

Lemma encrypt_seals_packet_witness :
  exists r,
    sample_encrypt sample_env paired_slot sample_skb = Some r /\
    x_ret r = 0 /\
    skb_bytes (x_skb r) = skb_bytes sample_sealed_skb /\
    ovpn_opcode_extract (wire_op (x_skb r)) = OVPN_DATA_V2.
Proof.
  destruct (encrypt_seals_packet (P := sample_params) (O := mask_ops)
              sample_env paired_slot sample_skb (sample_tfm 1 1)
              0 0 {| seq_num := 1 |} 0
              ([13; 72; 72; 75] ++ repeat 120 16))
    as (r & Henc & Hret & _ & Hbytes & _ & Hop).
  - exact paired_slot_created.
  - reflexivity.
  - cbn. lia.
  - exact sample_env_serves_xmit.
  - reflexivity.
  - left. lia.
  - vm_compute. reflexivity.
  - reflexivity.
  - exists r. repeat split; assumption.
Defined.

Lemma encrypt_adds_encap_overhead_witness :
  exists r overhead,
    sample_encrypt sample_env paired_slot sample_skb = Some r /\
    ovpn_aead_encap_overhead paired_slot = Some overhead /\
    skb_len (x_skb r) = (skb_len sample_skb + overhead)%nat.
Proof.
  assert (Hsent : exists r req ad text ret,
             sample_encrypt sample_env paired_slot sample_skb = Some r /\
             In (EvEncrypt req ad text ret) (x_trace r)).
  { do 5 eexists. split; [vm_compute; reflexivity|]. right. left. reflexivity. }
  destruct Hsent as (r & req & ad & text & ret & Henc & Hin).
  destruct (encrypt_adds_encap_overhead (P := sample_params) (O := mask_ops)
              sample_env paired_slot sample_skb r req ad text ret
              paired_slot_created sample_skb_wf Henc Hin)
    as (overhead & Hov & Hlen & _).
  exists r, overhead. repeat split; assumption.
Defined.

Lemma encrypt_spends_pktid_witness :
  exists r,
    sample_encrypt sample_env paired_slot sample_skb = Some r /\
    (forall ret pktid,
        In (EvXmitNext ret pktid) (x_trace r) ->
        exists pid,
          ovpn_pktid_xmit_next (P := sample_params) (pid_xmit paired_slot) 0
          = (ret, pktid, pid) /\
          x_ks r = set_pid_xmit paired_slot pid).
Proof.
  assert (Hsent : exists r,
             sample_encrypt sample_env paired_slot sample_skb = Some r).
  { eexists. vm_compute; reflexivity. }
  destruct Hsent as (r & Henc).
  destruct (encrypt_spends_pktid (P := sample_params) (O := mask_ops)
              sample_env paired_slot sample_skb r
              paired_slot_created sample_skb_wf Henc)
    as (_ & Hspent & _).
  exists r. split; assumption.
Defined.

Lemma decrypt_opens_packet_witness :
  exists r,
    sample_decrypt sample_env paired_slot sample_sealed_skb sample_v2_op = Some r /\
    x_ret r = 0 /\ skb_bytes (x_skb r) = [69; 0; 0; 3].
Proof.
  destruct (decrypt_opens_packet (P := sample_params) (O := mask_ops)
              sample_env paired_slot sample_sealed_skb sample_v2_op
              (sample_tfm 2 1) 4 [72; 0; 0; 0] [0; 0; 0; 0] (repeat 120 16)
              [13; 72; 72; 75] 0 [69; 0; 0; 3] 0
              {| highest_seen := 0; window := 1 |})
    as (r & Hdec & Hret & _ & _ & Hbytes & _).
  - exact paired_slot_created.
  - reflexivity.
  - left. split; reflexivity.
  - cbn. lia.
  - cbn. lia.
  - reflexivity.
  - reflexivity.
  - reflexivity.
  - reflexivity.
  - exact sample_env_serves.
  - vm_compute. reflexivity.
  - lia.
  - reflexivity.
  - vm_compute. reflexivity.
  - exists r. split; [assumption|]. split; [assumption|]. apply Hbytes. lia.
Defined.

Lemma decrypt_strips_header_only_on_success_witness :
  exists r,
    sample_decrypt sample_env paired_slot sample_sealed_skb sample_v2_op = Some r /\
    (x_ret r < 0 -> skb_data (x_skb r) = skb_data sample_sealed_skb) /\
    (0 <= x_ret r ->
     exists opsize req ad text ret id,
       opsize_of (ovpn_opcode_extract sample_v2_op) opsize /\
       x_trace r = [EvDecrypt req ad text ret; EvPktidRecv id (x_ret r)] /\
       0 <= ret /\
       skb_data (x_skb r) = (skb_data sample_sealed_skb + (opsize + 4 + 16))%nat).
Proof.
  assert (Hrecv : exists r,
             sample_decrypt sample_env paired_slot sample_sealed_skb sample_v2_op
             = Some r).
  { eexists. vm_compute; reflexivity. }
  destruct Hrecv as (r & Hdec).
  assert (Hwf : skb_wf sample_sealed_skb) by (split; cbn; lia).
  destruct (decrypt_strips_header_only_on_success (P := sample_params)
              (O := mask_ops) sample_env paired_slot sample_sealed_skb
              sample_v2_op r paired_slot_created Hwf Hdec)
    as (Hok & Hfail & _).
  exists r. split; [exact Hdec|]. split; [exact Hfail | exact Hok].
Defined.

Lemma mirrored_configs_roundtrip_witness :
  exists st1 st1' r r',
    sample_new sample_kstate sample_config = (inr config_slot, st1) /\
    sample_new sample_kstate (kc_mirror sample_config) = (inr mirror_slot, st1') /\
    sample_encrypt sample_env config_slot sample_skb = Some r /\ x_ret r = 0 /\
    sample_decrypt sample_env mirror_slot (x_skb r) (wire_op (x_skb r)) = Some r' /\
    x_ret r' = 0 /\ skb_bytes (x_skb r') = skb_bytes sample_skb.
Proof.
  assert (Hnew : exists st1 st1',
             sample_new sample_kstate sample_config = (inr config_slot, st1) /\
             sample_new sample_kstate (kc_mirror sample_config)
             = (inr mirror_slot, st1')).
  { do 2 eexists. split; vm_compute; reflexivity. }
  destruct Hnew as (st1 & st1' & Hnew & Hnew').
  destruct (mirrored_configs_roundtrip (P := sample_params) (O := mask_ops)
              mask_ops_sound sample_kstate sample_kstate sample_config
              config_slot mirror_slot st1 st1' config_slot mirror_slot
              {| tfm_addr := 1; tfm_alg := "gcm(aes)"; tfm_key := repeat 1 16;
                 tfm_authsize := 16 |}
              sample_env sample_env sample_skb 0 0 {| seq_num := 1 |}
              Hnew Hnew')
    as (r & r' & Henc & Hret & _ & Hdec & Hret' & Hbytes & _).
  - repeat split.
  - repeat split.
  - cbn. lia.
  - cbn. lia.
  - exact sample_env_serves_xmit.
  - exact sample_env_serves.
  - reflexivity.
  - left. lia.
  - lia.
  - reflexivity.
  - vm_compute. reflexivity.
  - vm_compute. reflexivity.
  - exists st1, st1', r, r'. repeat split; assumption.
Defined.

Lemma bind_reset_keeps_ownership_witness :
  exists b st',
    ovpn_bind_from_sockaddr sample_validate sample_bound_kstate
      (sample_sockaddr AF_INET6) = (inr b, st') /\
    peer_bind (ovpn_bind_reset sample_bound_peer (Some b)) = Some b /\
    peer_owns st' (ovpn_bind_reset sample_bound_peer (Some b)) /\
    k_live (ovpn_bind_release st' b) = k_live sample_bound_kstate.
Proof.
  assert (Hnew : exists b st',
             ovpn_bind_from_sockaddr sample_validate sample_bound_kstate
               (sample_sockaddr AF_INET6) = (inr b, st')).
  { do 2 eexists. vm_compute; reflexivity. }
  destruct Hnew as (b & st' & Hnew).
  assert (Hown : peer_owns sample_bound_kstate sample_bound_peer).
  { split; simpl.
    - apply NoDup_singleton.
    - constructor; [|constructor]. apply elem_of_singleton. reflexivity. }
  destruct (bind_reset_keeps_ownership sample_validate sample_bound_kstate
              (sample_sockaddr AF_INET6) sample_bound_peer b st' Hown Hnew)
    as (Hcur & Hown' & _ & Hfree).
  exists b, st'.
  split; [exact Hnew|]. split; [exact Hcur|]. split; [exact Hown' | exact Hfree].
Defined.

Lemma rcu_callbacks_free_replaced_binds_witness :
  exists st' peer',
    rcu_callbacks_run sample_two_kstate sample_replaced_peer = (st', peer') /\
    peer_bind peer' = Some (sample_bind 1) /\ peer_rcu_pending peer' = [] /\
    (bind_addr (sample_bind 0) ∉ k_live st') /\
    peer_owns st' peer'.
Proof.
  assert (Hown : peer_owns sample_two_kstate sample_replaced_peer).
  { split; simpl.
    - apply NoDup_cons. split; [|apply NoDup_singleton].
      intros Hin. apply list_elem_of_singleton in Hin. discriminate.
    - constructor; [|constructor; [|constructor]]; simpl; set_solver. }
  destruct (rcu_callbacks_free_replaced_binds sample_two_kstate
              sample_replaced_peer _ _ Hown eq_refl)
    as (Hcur & Hpend & _ & Hfreed & Hown').
  do 2 eexists. split; [reflexivity|].
  split; [exact Hcur|]. split; [exact Hpend|]. split; [|exact Hown'].
  apply Hfreed. simpl. apply list_elem_of_singleton. reflexivity.
Defined.

Lemma aead_init_reports_first_failure_witness :
  fst (ovpn_aead_init (O := mask_ops) sample_starved_kstate "gcm(aes)"
         (repeat 1 16)) = inl (- ENOENT).
Proof.
  destruct (aead_init_reports_first_failure (O := mask_ops)
              sample_starved_kstate "gcm(aes)" (repeat 1 16)) as (Hfirst & _).
  apply Hfirst. reflexivity.
Defined.

